(** * SUD BedWatch scraper: extraction and normalisation engine

    A shallow embedding of [scripts/scrape_sudhelpla.py] (class
    [SUDHelpLAScraper]) and the properties of its five extraction
    components: [convert_to_24h], [parse_hours], [parse_hours_table],
    [extract_service_types] and [parse_agency_data], and of
    [scrape_agencies], which runs the last one over the agency rows.

    Modelling conventions.
    - A Python [str] is a [string]; the characters are ASCII code points.
      Characters of code 128 and above stand for non-ASCII text and are
      treated as caseless characters that are neither digits nor spaces.
    - A Python [dict] whose iteration order is observable is an
      insertion-ordered association list (module [Dict]); the tooltip
      table, only ever read by key, is a [gmap]; the [seen] set is a [gset].
    - A regular expression is a term of [regex], run by a backtracking
      matcher with the priorities of Python's [re] (first alternative
      first, greedy and lazy repetition, leftmost match).
    - [int] follows Python's arbitrary-precision conversion (no limit on
      the number of digits).
    - Code under [try] is written in a state-and-exception monad; the
      handler receives the state reached when the exception was raised.
    - The document tree is the collaborator of the extractors: a node is
      the record of what each call made on it returns.  Under a [try] a
      call may also raise. *)

From stdpp Require Import base gmap strings list.
From Stdlib Require Import Ascii ZArith DecimalString.

Local Open Scope Z_scope.
Local Open Scope nat_scope.

(* ================================================================== *)
(** * Characters and strings of the Python runtime *)
(* ================================================================== *)

Module Py.

Definition code (c : ascii) : nat := nat_of_ascii c.

Definition between (lo hi : nat) (c : ascii) : bool :=
  (lo <=? code c) && (code c <=? hi).

(** [str.isdigit] / the class [\d] on ASCII. *)
Definition is_digit : ascii -> bool := between 48 57.

(** The class [\s] of a [str] pattern and [str.isspace], on ASCII:
    TAB, LF, VT, FF, CR, the separators FS, GS, RS, US, and the space. *)
Definition is_space (c : ascii) : bool :=
  between 9 13 c || between 28 32 c.

Definition is_upper : ascii -> bool := between 65 90.
Definition is_lower : ascii -> bool := between 97 122.

Definition upper_char (c : ascii) : ascii :=
  if is_lower c then ascii_of_nat (code c - 32) else c.

Definition lower_char (c : ascii) : ascii :=
  if is_upper c then ascii_of_nat (code c + 32) else c.

Definition char_eqb (a b : ascii) : bool := Ascii.eqb a b.

Fixpoint map_chars (f : ascii -> ascii) (s : string) : string :=
  match s with
  | EmptyString => EmptyString
  | String c s' => String (f c) (map_chars f s')
  end.

(** [s.upper()] and [s.lower()]. *)
Definition upper : string -> string := map_chars upper_char.
Definition lower : string -> string := map_chars lower_char.

(** [s.startswith(p)]. *)
Fixpoint startswith (p s : string) : bool :=
  match p, s with
  | EmptyString, _ => true
  | String a p', String b s' => char_eqb a b && startswith p' s'
  | String _ _, EmptyString => false
  end.

(** [sub in s]. *)
Fixpoint contains (sub s : string) : bool :=
  startswith sub s ||
  match s with
  | EmptyString => false
  | String _ s' => contains sub s'
  end.

(** [c in s] for a single character. *)
Fixpoint has_char (c : ascii) (s : string) : bool :=
  match s with
  | EmptyString => false
  | String a s' => char_eqb c a || has_char c s'
  end.

(** Truth value of a [str]: non-empty. *)
Definition truthy (s : string) : bool :=
  match s with EmptyString => false | String _ _ => true end.

(** [s[:n]] and [s[n:]]. *)
Fixpoint take (n : nat) (s : string) : string :=
  match n, s with
  | S n', String c s' => String c (take n' s')
  | _, _ => EmptyString
  end.

Fixpoint drop (n : nat) (s : string) : string :=
  match n, s with
  | S n', String _ s' => drop n' s'
  | _, _ => s
  end.

(** [s[a:b]] for [a <= b]. *)
Definition slice (a b : nat) (s : string) : string := take (b - a) (drop a s).

(** [s.replace(old, new)] for a non-empty [old]: occurrences are replaced
    from the left and do not overlap; [skip] counts the characters of the
    occurrence just replaced that are still to be passed over. *)
Fixpoint replace_go (old new s : string) (skip : nat) : string :=
  match s with
  | EmptyString => EmptyString
  | String c s' =>
      match skip with
      | S k => replace_go old new s' k
      | O =>
          if startswith old s
          then new +:+ replace_go old new s' (String.length old - 1)
          else String c (replace_go old new s' 0)
      end
  end.

(** With an empty [old], Python inserts [new] before every character and
    at the end. *)
Fixpoint replace_empty (new s : string) : string :=
  match s with
  | EmptyString => new
  | String c s' => new +:+ String c (replace_empty new s')
  end.

Definition replace (old new s : string) : string :=
  match old with
  | EmptyString => replace_empty new s
  | String _ _ => replace_go old new s 0
  end.

(** The pieces of [s.split(sep)] for a non-empty separator: the text
    between the occurrences of [sep], scanned from the left. *)
Fixpoint split_go (sep s : string) (skip : nat) : list string :=
  match s with
  | EmptyString => [EmptyString]
  | String c s' =>
      match skip with
      | S k => split_go sep s' k
      | O =>
          if startswith sep s
          then EmptyString :: split_go sep s' (String.length sep - 1)
          else match split_go sep s' 0 with
               | p :: ps => String c p :: ps
               | [] => [String c EmptyString]
               end
      end
  end.

(** [s.split(sep)]; an empty separator is a [ValueError], reported as
    [None]. *)
Definition split (sep s : string) : option (list string) :=
  match sep with
  | EmptyString => None
  | String _ _ => Some (split_go sep s 0)
  end.

(** [s.strip()] and [s.rstrip(chars)]: characters are dropped from the
    ends while they belong to the set. *)
Fixpoint lstrip_by (p : ascii -> bool) (s : string) : string :=
  match s with
  | EmptyString => EmptyString
  | String c s' => if p c then lstrip_by p s' else s
  end.

Fixpoint rstrip_by (p : ascii -> bool) (s : string) : string :=
  match s with
  | EmptyString => EmptyString
  | String c s' =>
      match rstrip_by p s' with
      | EmptyString => if p c then EmptyString else String c EmptyString
      | t => String c t
      end
  end.

Definition strip (s : string) : string := rstrip_by is_space (lstrip_by is_space s).

Definition rstrip_chars (chars s : string) : string :=
  rstrip_by (fun c => has_char c chars) s.

(** [sep.join(parts)]. *)
Fixpoint join (sep : string) (parts : list string) : string :=
  match parts with
  | [] => EmptyString
  | [p] => p
  | p :: ps => p +:+ sep +:+ join sep ps
  end.

(** ** [int(s)]

    Surrounding white space is dropped (here the separators FS to US do
    not count as white space), one sign is allowed, and the digits may be
    separated by single underscores. *)
Definition is_blank (c : ascii) : bool := between 9 13 c || between 32 32 c.

Definition digit_val (c : ascii) : Z := Z.of_nat (code c - 48).

(** Digits after the first one: [prev_us] tells that the previous
    character was an underscore, which must then be followed by a digit. *)
Fixpoint int_digits (acc : Z) (prev_us : bool) (s : string) : option Z :=
  match s with
  | EmptyString => if prev_us then None else Some acc
  | String c s' =>
      if is_digit c then int_digits (10 * acc + digit_val c)%Z false s'
      else if char_eqb c "_" then
        if prev_us then None else int_digits acc true s'
      else None
  end.

Definition int_unsigned (s : string) : option Z :=
  match s with
  | EmptyString => None
  | String c s' => if is_digit c then int_digits (digit_val c) false s' else None
  end.

Definition int (s : string) : option Z :=
  match rstrip_by is_blank (lstrip_by is_blank s) with
  | String "-" s' => Z.opp <$> int_unsigned s'
  | String "+" s' => int_unsigned s'
  | t => int_unsigned t
  end.

(** ** The format specification [02d] *)
Definition decimal (n : N) : string := NilZero.string_of_uint (N.to_uint n).

(** Zeros in front of the digits up to [width] characters. *)
Fixpoint zeros (n : nat) : string :=
  match n with
  | O => EmptyString
  | S n' => String "0" (zeros n')
  end.

Definition zfill (width : nat) (digits : string) : string :=
  zeros (width - String.length digits) +:+ digits.

(** The width 2 counts the sign of a negative number. *)
Definition format_02d (z : Z) : string :=
  if (z <? 0)%Z then "-" +:+ zfill 1 (decimal (Z.to_N (- z)))
  else zfill 2 (decimal (Z.to_N z)).

End Py.

(* ================================================================== *)
(** * Exceptions *)
(* ================================================================== *)

(** The outcome of an operation that may raise. *)
Inductive result (A : Type) : Type :=
| Ok (a : A)
| Raise.
Arguments Ok {A} a.
Arguments Raise {A}.

Definition is_ok {A} (r : result A) : bool :=
  match r with Ok _ => true | Raise => false end.

Definition of_option {A} (o : option A) : result A :=
  match o with Some a => Ok a | None => Raise end.

Definition rbind {A B} (r : result A) (f : A -> result B) : result B :=
  match r with Ok a => f a | Raise => Raise end.

(* ================================================================== *)
(** * Dictionaries *)
(* ================================================================== *)

(** An insertion-ordered dictionary with [str] keys. *)
Module Dict.

Definition t (V : Type) : Type := list (string * V).

Definition empty {V} : t V := [].

Fixpoint get {V} (d : t V) (k : string) : option V :=
  match d with
  | [] => None
  | (k', v) :: d' => if String.eqb k k' then Some v else get d' k
  end.

(** [d.get(k, default)]. *)
Definition get_default {V} (d : t V) (k : string) (default : V) : V :=
  match get d k with Some v => v | None => default end.

(** [d[k]], which raises [KeyError] on a missing key. *)
Definition item {V} (d : t V) (k : string) : result V := of_option (get d k).

(** [d[k] = v]: an existing key keeps its place, a new one goes last. *)
Fixpoint set {V} (k : string) (v : V) (d : t V) : t V :=
  match d with
  | [] => [(k, v)]
  | (k', v') :: d' =>
      if String.eqb k k' then (k', v) :: d' else (k', v') :: set k v d'
  end.

Definition keys {V} (d : t V) : list string := d.*1.
Definition values {V} (d : t V) : list V := d.*2.
Definition items {V} (d : t V) : list (string * V) := d.

(** A dictionary display [{k1: v1, k2: v2, ...}]. *)
Definition of_list {V} (l : list (string * V)) : t V :=
  fold_left (fun d kv => set kv.1 kv.2 d) l empty.

End Dict.

(* ================================================================== *)
(** * Regular expressions *)
(* ================================================================== *)

Module Re.

Inductive regex : Type :=
| Eps                                   (* the empty pattern *)
| Chr (p : ascii -> bool)               (* one character of a class *)
| Cat (r1 r2 : regex)                   (* r1 r2 *)
| Alt (r1 r2 : regex)                   (* r1|r2 *)
| Opt (r : regex)                       (* r? *)
| Rep (greedy : bool) (p : ascii -> bool) (lo : nat) (hi : option nat)
                                        (* a class repeated {lo,hi}, or lazily *)
| Grp (n : nat) (r : regex)             (* capturing group number n *)
| Bol                                   (* ^ *)
| Eol                                   (* $ *)
| Ahead (r : regex).                    (* (?=r) *)

(** Text of the groups that took part in the match. *)
Definition caps : Type := list (nat * string).

Fixpoint group (c : caps) (n : nat) : option string :=
  match c with
  | [] => None
  | (m, s) :: c' => if n =? m then Some s else group c' n
  end.

(** The continuation receives the position reached, the text that is left
    and the groups so far. *)
Definition cont : Type := nat -> string -> caps -> option (nat * caps).

Definition room (hi : option nat) : bool :=
  match hi with Some O => false | _ => true end.

Definition less (hi : option nat) : option nat := pred <$> hi.

Fixpoint rep_greedy (p : ascii -> bool) (lo : nat) (hi : option nat)
    (i : nat) (s : string) (c : caps) (k : cont) : option (nat * caps) :=
  let stop := match lo with O => k i s c | S _ => None end in
  match s with
  | String a s' =>
      if p a && room hi then
        match rep_greedy p (pred lo) (less hi) (S i) s' c k with
        | Some x => Some x
        | None => stop
        end
      else stop
  | EmptyString => stop
  end.

Fixpoint rep_lazy (p : ascii -> bool) (lo : nat) (hi : option nat)
    (i : nat) (s : string) (c : caps) (k : cont) : option (nat * caps) :=
  let more :=
    match s with
    | String a s' =>
        if p a && room hi then rep_lazy p (pred lo) (less hi) (S i) s' c k
        else None
    | EmptyString => None
    end in
  match lo with
  | O => match k i s c with Some x => Some x | None => more end
  | S _ => more
  end.

Fixpoint rmatch (r : regex) (i : nat) (s : string) (c : caps) (k : cont)
    : option (nat * caps) :=
  match r with
  | Eps => k i s c
  | Chr p =>
      match s with
      | String a s' => if p a then k (S i) s' c else None
      | EmptyString => None
      end
  | Cat r1 r2 => rmatch r1 i s c (fun j t c' => rmatch r2 j t c' k)
  | Alt r1 r2 =>
      match rmatch r1 i s c k with
      | Some x => Some x
      | None => rmatch r2 i s c k
      end
  | Opt r1 =>
      match rmatch r1 i s c k with
      | Some x => Some x
      | None => k i s c
      end
  | Rep true p lo hi => rep_greedy p lo hi i s c k
  | Rep false p lo hi => rep_lazy p lo hi i s c k
  | Grp n r1 => rmatch r1 i s c (fun j t c' => k j t ((n, Py.take (j - i) s) :: c'))
  | Bol => if i =? 0 then k i s c else None
  | Eol =>
      match s with
      | EmptyString => k i s c
      | String a EmptyString => if Py.char_eqb a "010" then k i s c else None
      | _ => None
      end
  | Ahead r1 =>
      match rmatch r1 i s c (fun j _ c' => Some (j, c')) with
      | Some (_, c') => k i s c'
      | None => None
      end
  end.

(** One attempt at position [i], where [s] is the text from [i] on.  With
    [must_advance] an empty match is refused. *)
Definition match_at (r : regex) (must_advance : bool) (i : nat) (s : string)
    : option (nat * caps) :=
  rmatch r i s [] (fun j _ c => if must_advance && (j =? i) then None else Some (j, c)).

(** A match: start, end, groups. *)
Definition found : Type := nat * nat * caps.

(** [re.search]: the leftmost position with a match. *)
Fixpoint search_from (r : regex) (i : nat) (s : string) : option found :=
  match match_at r false i s with
  | Some (j, c) => Some (i, j, c)
  | None =>
      match s with
      | String _ s' => search_from r (S i) s'
      | EmptyString => None
      end
  end.

Definition search (r : regex) (s : string) : option found := search_from r 0 s.

(** The truth value of [re.search(r, s)]. *)
Definition matches (r : regex) (s : string) : bool :=
  match search r s with Some _ => true | None => false end.

(** The successive matches of [findall], [sub] and [split]: the scan
    resumes where the previous match ended, and after an empty match the
    next attempt at the same position must advance. *)
Fixpoint finditer_go (r : regex) (i : nat) (s : string) (skip : nat) : list found :=
  match skip with
  | S sk =>
      match s with
      | String _ s' => finditer_go r (S i) s' sk
      | EmptyString => []
      end
  | O =>
      let next sk :=
        match s with
        | String _ s' => finditer_go r (S i) s' sk
        | EmptyString => []
        end in
      match match_at r false i s with
      | None => next 0
      | Some (j, c) =>
          if j =? i then
            (i, j, c) ::
            match match_at r true i s with
            | Some (j', c') => (i, j', c') :: next (j' - i - 1)
            | None => next 0
            end
          else (i, j, c) :: next (j - i - 1)
      end
  end.

Definition finditer (r : regex) (s : string) : list found := finditer_go r 0 s 0.

(** [m.group(n)] as [findall] reports it: the empty string for a group
    that took no part in the match. *)
Definition group_or_empty (c : caps) (n : nat) : string :=
  default EmptyString (group c n).

(** [m.group()]. *)
Definition whole (s : string) (m : found) : string :=
  Py.slice m.1.1 m.1.2 s.

(** [re.sub(r, repl, s)] for a replacement without group references. *)
Fixpoint sub_pieces (ms : list found) (repl : string) (last : nat) (s : string) : string :=
  match ms with
  | [] => Py.drop last s
  | (a, b, _) :: ms' => Py.slice last a s +:+ repl +:+ sub_pieces ms' repl b s
  end.

Definition sub (r : regex) (repl s : string) : string :=
  sub_pieces (finditer r s) repl 0 s.

(** [re.split(r, s)] for a pattern without groups. *)
Fixpoint split_pieces (ms : list found) (last : nat) (s : string) : list string :=
  match ms with
  | [] => [Py.drop last s]
  | (a, b, _) :: ms' => Py.slice last a s :: split_pieces ms' b s
  end.

Definition split (r : regex) (s : string) : list string :=
  split_pieces (finditer r s) 0 s.

(** ** Pattern syntax *)

Definition chr (a : ascii) : regex := Chr (Py.char_eqb a).

(** A literal character under [re.IGNORECASE]. *)
Definition chr_i (a : ascii) : regex :=
  Chr (fun b => Py.char_eqb (Py.lower_char a) (Py.lower_char b)).

Fixpoint cat (rs : list regex) : regex :=
  match rs with
  | [] => Eps
  | [r] => r
  | r :: rs' => Cat r (cat rs')
  end.

Fixpoint alt (rs : list regex) : regex :=
  match rs with
  | [] => Eps
  | [r] => r
  | r :: rs' => Alt r (alt rs')
  end.

Fixpoint lit_chars (ic : bool) (s : string) : list regex :=
  match s with
  | EmptyString => []
  | String a s' => (if ic then chr_i a else chr a) :: lit_chars ic s'
  end.

(** A literal word, case-sensitive or not. *)
Definition lit (s : string) : regex := cat (lit_chars false s).
Definition lit_i (s : string) : regex := cat (lit_chars true s).

(** A set [[...]] of literal characters, [[^...]], and [.]. *)
Definition one_of (s : string) : ascii -> bool := fun c => Py.has_char c s.
Definition one_of_i (s : string) : ascii -> bool :=
  fun c => Py.has_char (Py.lower_char c) (Py.lower s).
Definition none_of (s : string) : ascii -> bool := fun c => negb (Py.has_char c s).
Definition dot : ascii -> bool := fun c => negb (Py.char_eqb c "010").

Definition star (p : ascii -> bool) : regex := Rep true p 0 None.
Definition plus (p : ascii -> bool) : regex := Rep true p 1 None.
Definition star_lazy (p : ascii -> bool) : regex := Rep false p 0 None.
Definition plus_lazy (p : ascii -> bool) : regex := Rep false p 1 None.
Definition times (p : ascii -> bool) (lo hi : nat) : regex := Rep true p lo (Some hi).

End Re.

(* ================================================================== *)
(** * TimeNormalizer: [convert_to_24h] *)
(* ================================================================== *)

(** [r'\s+'] *)
Definition re_spaces : Re.regex := Re.plus Py.is_space.

(** [hour, minute = time_part.split(':')]: exactly two pieces, or
    [ValueError]. *)
Definition split_hour_minute (time_part : string) : result (string * string) :=
  rbind (of_option (Py.split ":" time_part)) (fun pieces =>
  match pieces with
  | [hour; minute] => Ok (hour, minute)
  | _ => Raise
  end).

(** The two branches of [convert_to_24h] differ in the suffix removed and
    in the hour adjustment. *)
Definition am_hour (hour : Z) : Z := if (hour =? 12)%Z then 0%Z else hour.
Definition pm_hour (hour : Z) : Z := if negb (hour =? 12)%Z then (hour + 12)%Z else hour.

Definition convert_branch (suffix : string) (adjust : Z -> Z) (time_str : string)
    : result string :=
  let time_part := Py.replace suffix "" time_str in
  let time_part := if negb (Py.has_char ":" time_part) then time_part +:+ ":00" else time_part in
  rbind (split_hour_minute time_part) (fun '(hour, minute) =>
  rbind (of_option (Py.int hour)) (fun hour =>
  let hour := adjust hour in
  Ok (Py.format_02d hour +:+ ":" +:+ minute))).

(** The statements under [try], after [time_str] has been rebound to its
    upper-cased text without white space. *)
Definition convert_body (time_str : string) : result string :=
  if Py.contains "AM" time_str then convert_branch "AM" am_hour time_str
  else if Py.contains "PM" time_str then convert_branch "PM" pm_hour time_str
  else Ok time_str.

(** [time_str = re.sub(r'\s+', '', time_str.upper())] *)
Definition squeeze_upper (time_str : string) : string :=
  Re.sub re_spaces "" (Py.upper time_str).

(** The first statement under [try] rebinds [time_str] and cannot raise on
    a [str]; the handler [except: return time_str] therefore returns the
    rebound value. *)
Definition convert_to_24h (time_str : string) : string :=
  let time_str := squeeze_upper time_str in
  match convert_body time_str with
  | Ok r => r
  | Raise => time_str
  end.

(* ================================================================== *)
(** * Statements that update a state and may raise *)
(* ================================================================== *)

(** A block of statements over a mutable object of type [S]: it leaves the
    object in some state and either completes with a value or raises. *)
Definition M (S A : Type) : Type := S -> S * result A.

Definition ret {S A} (a : A) : M S A := fun s => (s, Ok a).

Definition bind {S A B} (m : M S A) (f : A -> M S B) : M S B :=
  fun s =>
    match m s with
    | (s', Ok a) => f a s'
    | (s', Raise) => (s', Raise)
    end.

(** A call that does not touch the object. *)
Definition call {S A} (r : result A) : M S A := fun s => (s, r).

Definition modify {S} (f : S -> S) : M S unit := fun s => (f s, Ok tt).

Notation "x <- m ;; k" := (bind m (fun x => k))
  (at level 100, m at next level, right associativity).
Notation "m ;; k" := (bind m (fun _ => k))
  (at level 100, right associativity).

(** [for x in l: body]. *)
Fixpoint for_each {S A} (l : list A) (body : A -> M S unit) : M S unit :=
  match l with
  | [] => ret tt
  | x :: l' => body x ;; for_each l' body
  end.

(** [[f(x) for x in l]] where [f] may raise. *)
Fixpoint map_call {A B} (f : A -> result B) (l : list A) : result (list B) :=
  match l with
  | [] => Ok []
  | x :: l' => rbind (f x) (fun y => rbind (map_call f l') (fun ys => Ok (y :: ys)))
  end.

(** [if x: body], for a node or [None]. *)
Definition when_found {S A} (x : option A) (body : A -> M S unit) : M S unit :=
  match x with Some a => body a | None => ret tt end.

(** The object after [try: m / except Exception: log]. *)
Definition try_except {S A} (m : M S A) (s : S) : S := (m s).1.

(** A block without handler: the object if the block completes. *)
Definition run {S A} (m : M S A) (s : S) : result S :=
  match m s with
  | (s', Ok _) => Ok s'
  | (_, Raise) => Raise
  end.

(* ================================================================== *)
(** * WeeklySchedule *)
(* ================================================================== *)

Definition weekdays : list string :=
  ["sunday"; "monday"; "tuesday"; "wednesday"; "thursday"; "friday"; "saturday"].

(** [{'open': o, 'close': c}] *)
Definition open_close (o c : string) : Dict.t string :=
  Dict.of_list [("open", o); ("close", c)].

Definition schedule : Type := Dict.t (Dict.t string).

(** [{day: {'open': '', 'close': ''} for day in [...]}] *)
Definition default_hours : schedule :=
  Dict.of_list (map (fun day => (day, open_close "" "")) weekdays).

(** [l.index(x)], which raises [ValueError] when [x] is not in [l]. *)
Fixpoint index (l : list string) (x : string) : result nat :=
  match l with
  | [] => Raise
  | y :: l' => if String.eqb x y then Ok 0 else rbind (index l' x) (fun i => Ok (S i))
  end.

(** [x in l]. *)
Definition in_list (x : string) (l : list string) : bool :=
  existsb (String.eqb x) l.

(** [range(a, b)]. *)
Definition range (a b : nat) : list nat := seq a (b - a).

(* ================================================================== *)
(** * HoursTextParser: [parse_hours] *)
(* ================================================================== *)

(** [r'24/?7|24\s*hours'] with [re.IGNORECASE] *)
Definition re_always_open : Re.regex :=
  Re.Alt
    (Re.cat [Re.lit_i "24"; Re.Opt (Re.chr_i "/"); Re.lit_i "7"])
    (Re.cat [Re.lit_i "24"; Re.star Py.is_space; Re.lit_i "hours"]).

(** [Mon|Tue|Wed|Thu|Fri|Sat|Sun|Monday|...|Sunday] with [re.IGNORECASE] *)
Definition re_day : Re.regex :=
  Re.alt (map Re.lit_i
    ["Mon"; "Tue"; "Wed"; "Thu"; "Fri"; "Sat"; "Sun";
     "Monday"; "Tuesday"; "Wednesday"; "Thursday"; "Friday"; "Saturday"; "Sunday"]).

(** [\d{1,2}:\d{2}\s*[AP]M?] with [re.IGNORECASE] *)
Definition re_time_i : Re.regex :=
  Re.cat [Re.times Py.is_digit 1 2; Re.chr ":"; Re.times Py.is_digit 2 2;
          Re.star Py.is_space; Re.Chr (Re.one_of_i "AP"); Re.Opt (Re.chr_i "M")].

(** The pattern of [day_ranges]:
    [(day)(?:\s*-\s*(day))?\s*:?\s*(time)\s*-\s*(time)] *)
Definition re_day_range : Re.regex :=
  Re.cat [Re.Grp 1 re_day;
          Re.Opt (Re.cat [Re.star Py.is_space; Re.chr "-"; Re.star Py.is_space;
                          Re.Grp 2 re_day]);
          Re.star Py.is_space; Re.Opt (Re.chr ":"); Re.star Py.is_space;
          Re.Grp 3 re_time_i;
          Re.star Py.is_space; Re.chr "-"; Re.star Py.is_space;
          Re.Grp 4 re_time_i].

(** One element of [re.findall] for a pattern with four groups. *)
Definition day_range : Type := string * string * string * string.

Definition groups4 (m : Re.found) : day_range :=
  let c := m.2 in
  (Re.group_or_empty c 1, Re.group_or_empty c 2,
   Re.group_or_empty c 3, Re.group_or_empty c 4).

Definition find_day_ranges (hours_text : string) : list day_range :=
  map groups4 (Re.finditer re_day_range hours_text).

(** The dictionary [day_mapping] of [parse_hours], in the order of its
    display. *)
Definition day_mapping : Dict.t string :=
  Dict.of_list
    [("mon", "monday"); ("tue", "tuesday"); ("wed", "wednesday"); ("thu", "thursday");
     ("fri", "friday"); ("sat", "saturday"); ("sun", "sunday");
     ("monday", "monday"); ("tuesday", "tuesday"); ("wednesday", "wednesday");
     ("thursday", "thursday"); ("friday", "friday"); ("saturday", "saturday");
     ("sunday", "sunday")].

(** [day_list = list(day_mapping.values())] *)
Definition day_list : list string := Dict.values day_mapping.

(** The body of [for match in day_ranges]. *)
Definition apply_day_range (m : day_range) : M schedule unit :=
  let '(start_day, end_day, open_time, close_time) := m in
  let start_day := Dict.get_default day_mapping (Py.lower start_day) (Py.lower start_day) in
  let end_day :=
    if Py.truthy end_day
    then Dict.get_default day_mapping (Py.lower end_day) (Py.lower end_day)
    else start_day in
  let open_24h := convert_to_24h open_time in
  let close_24h := convert_to_24h close_time in
  if in_list start_day day_list && in_list end_day day_list then
    start_idx <- call (index day_list start_day) ;;
    end_idx <- call (index day_list end_day) ;;
    for_each (range start_idx (end_idx + 1)) (fun i =>
      day <- call (of_option (day_list !! i)) ;;
      modify (Dict.set day (open_close open_24h close_24h)))
  else ret tt.

(** [for day in hours.keys(): hours[day] = {'open': '00:00', 'close': '23:59'}] *)
Definition set_always_open (hours : schedule) : schedule :=
  fold_left (fun h day => Dict.set day (open_close "00:00" "23:59") h)
            (Dict.keys hours) hours.

Definition parse_hours (hours_text : string) : result schedule :=
  let hours := default_hours in
  if negb (Py.truthy hours_text) then Ok hours
  else if Re.matches re_always_open hours_text
  then Ok (set_always_open hours)
  else run (for_each (find_day_ranges hours_text) apply_day_range) hours.

(* ================================================================== *)
(** * HoursTableParser: [parse_hours_table] *)
(* ================================================================== *)

(** The traversal surface of a table: [table.find_all('tr')],
    [row.find_all(['th', 'td'])] and [cell.get_text(strip=True)].  The
    nodes come from the caller, and every call returns or raises. *)
Record Cell : Type := { cell_text : result string }.
Record Row : Type := { row_cells : result (list Cell) }.
Record Table : Type := { table_rows : result (list Row) }.

(** [\d{1,2}:\d{2}[AP]M?], case-sensitive *)
Definition re_time : Re.regex :=
  Re.cat [Re.times Py.is_digit 1 2; Re.chr ":"; Re.times Py.is_digit 2 2;
          Re.Chr (Re.one_of "AP"); Re.Opt (Re.chr "M")].

(** [(time)\s*-\s*(time)] *)
Definition re_table_times : Re.regex :=
  Re.cat [Re.Grp 1 re_time; Re.star Py.is_space; Re.chr "-"; Re.star Py.is_space;
          Re.Grp 2 re_time].

(** The dictionary [day_mapping] of [parse_hours_table]. *)
Definition table_day_mapping : Dict.t string :=
  Dict.of_list
    [("sun", "sunday"); ("mon", "monday"); ("tue", "tuesday"); ("wed", "wednesday");
     ("thu", "thursday"); ("fri", "friday"); ("sat", "saturday")].

(** [[c.get_text(strip=True) for c in row.find_all(['th', 'td'])]] *)
Definition row_texts (row : Row) : result (list string) :=
  rbind (row_cells row) (map_call cell_text).

(** The body of [for header, time_cell in zip(headers, times)]. *)
Definition apply_table_cell (cell : string * string) : M schedule unit :=
  let '(header, time_cell) := cell in
  match Dict.get table_day_mapping (Py.lower header) with
  | Some day_key =>
      if Py.truthy day_key then
        if Py.contains "closed" (Py.lower time_cell) then
          modify (Dict.set day_key (open_close "Closed" "Closed"))
        else
          match Re.search re_table_times time_cell with
          | Some time_match =>
              let open_time := convert_to_24h (Re.group_or_empty time_match.2 1) in
              let close_time := convert_to_24h (Re.group_or_empty time_match.2 2) in
              modify (Dict.set day_key (open_close open_time close_time))
          | None => ret tt
          end
      else ret tt
  | None => ret tt
  end.

(** The statements under [try]. *)
Definition parse_hours_table_body (table : Table) : M schedule unit :=
  rows <- call (table_rows table) ;;
  match rows with
  | header_row :: times_row :: _ =>
      headers <- call (row_texts header_row) ;;
      times <- call (row_texts times_row) ;;
      for_each (zip headers times) apply_table_cell
  | _ => ret tt
  end.

Definition parse_hours_table (table : Table) : schedule :=
  try_except (parse_hours_table_body table) default_hours.

(* ================================================================== *)
(** * ServiceTaxonomyExtractor: [extract_service_types] *)
(* ================================================================== *)

(** The traversal surface of the filter panel, as the calls of
    [extract_service_types] see it.  A text is the [get_text(strip=True)]
    of the node, an attribute is [None] when absent.  No handler surrounds
    these calls: the model is that of a parsed document, on which they
    return. *)
Record Container : Type := {
  find_label : option string              (* container.find('label') *)
}.

Record Tooltip : Type := {
  tip_title : option string;              (* tooltip.get('title') *)
  tip_original_title : option string;     (* tooltip.get('data-bs-original-title') *)
  tip_aria_label : option string;         (* the attribute aria-label *)
  tip_parent : option Container           (* tooltip.parent *)
}.

Record Checkbox : Type := {
  checkbox_id : option string             (* the attribute id *)
}.

Record Collapse : Type := {
  find_tooltips : list Tooltip;           (* find_all('span', class_='fa fa-question-circle') *)
  find_checkboxes : list Checkbox;        (* find_all('input', type='checkbox') *)
  find_label_for : string -> option string  (* find('label', {'for': id}) *)
}.

Record Header : Type := {
  find_button : option string             (* header.find('button') *)
}.

Record AccordionItem : Type := {
  find_header : option Header;            (* item.find('h2', class_='accordion-header') *)
  find_collapse : option Collapse         (* item.find('div', class_='accordion-collapse') *)
}.

Record Accordion : Type := {
  find_items : list AccordionItem         (* find_all('div', class_='accordion-item') *)
}.

Record FilterContainer : Type := {
  find_accordion : option Accordion       (* find('div', {'id': 'accordion'}) *)
}.

Record Soup : Type := {
  find_filter_container : option FilterContainer  (* find('div', {'id': 'filterContainer'}) *)
}.

(** One row of the service table. *)
Record Service : Type := {
  category : string;
  service_code : string;
  service_name : string;
  description : string
}.

(** [a or b] on an attribute value: [a] unless it is [None] or empty. *)
Definition attr_or (a : option string) (b : string) : string :=
  match a with
  | Some v => if Py.truthy v then v else b
  | None => b
  end.

(** [tooltip.get('title') or tooltip.get('data-bs-original-title') or
     tooltip.get('aria-label', '')] *)
Definition tooltip_description (tooltip : Tooltip) : string :=
  attr_or (tip_title tooltip)
    (attr_or (tip_original_title tooltip)
       (default "" (tip_aria_label tooltip))).

(** The body of [for tooltip in tooltips]. *)
Definition record_tooltip (tooltip_descriptions : gmap string string) (tooltip : Tooltip)
    : gmap string string :=
  let description := tooltip_description tooltip in
  match tip_parent tooltip with
  | Some container =>
      match find_label container with
      | Some full_service_text => <[full_service_text := description]> tooltip_descriptions
      | None => tooltip_descriptions
      end
  | None => tooltip_descriptions
  end.

(** [r'^(.+?)\s+\(([^)]+)\)$'] *)
Definition re_service : Re.regex :=
  Re.cat [Re.Bol; Re.Grp 1 (Re.plus_lazy Re.dot); Re.plus Py.is_space; Re.chr "(";
          Re.Grp 2 (Re.plus (Re.none_of ")")); Re.chr ")"; Re.Eol].

(** The body of [for checkbox in checkboxes]: the entries appended to
    [service_types]. *)
Definition checkbox_service (collapse : Collapse) (category : string)
    (tooltip_descriptions : gmap string string) (checkbox : Checkbox) : list Service :=
  let checkbox_id := default "" (checkbox_id checkbox) in
  match find_label_for collapse checkbox_id with
  | Some full_service_text =>
      if Py.truthy full_service_text then
        let description := default "" (tooltip_descriptions !! full_service_text) in
        let '(service_name, service_code) :=
          match Re.search re_service full_service_text with
          | Some service_match =>
              (Py.strip (Re.group_or_empty service_match.2 1),
               Py.strip (Re.group_or_empty service_match.2 2))
          | None => (full_service_text, "")
          end in
        [{| category := category; service_code := service_code;
            service_name := service_name; description := description |}]
      else []
  | None => []
  end.

(** The body of [for item in accordion_items]. *)
Definition item_services (item : AccordionItem) : list Service :=
  let category :=
    match find_header item with
    | Some header =>
        match find_button header with
        | Some text => Py.rstrip_chars ":" text
        | None => "Unknown"
        end
    | None => "Unknown"
    end in
  match find_collapse item with
  | None => []
  | Some collapse =>
      let tooltip_descriptions := foldl record_tooltip ∅ (find_tooltips collapse) in
      concat (map (checkbox_service collapse category tooltip_descriptions)
                  (find_checkboxes collapse))
  end.

(** The loop that removes duplicates: [seen] holds the keys met so far. *)
Fixpoint unique_services (seen : gset (string * string)) (service_types : list Service)
    : list Service :=
  match service_types with
  | [] => []
  | service :: rest =>
      let key := (category service, service_name service) in
      if decide (key ∉ seen)
      then service :: unique_services ({[key]} ∪ seen) rest
      else unique_services seen rest
  end.

(** The entries collected before duplicates are removed. *)
Definition scan_service_types (soup : Soup) : list Service :=
  match find_filter_container soup with
  | None => []
  | Some filter_container =>
      match find_accordion filter_container with
      | None => []
      | Some accordion => concat (map item_services (find_items accordion))
      end
  end.

(** The rows of the returned table. *)
Definition extract_service_types (soup : Soup) : list Service :=
  match find_filter_container soup with
  | None => []
  | Some filter_container =>
      match find_accordion filter_container with
      | None => []
      | Some accordion =>
          let service_types := concat (map item_services (find_items accordion)) in
          unique_services ∅ service_types
      end
  end.

(* ================================================================== *)
(** * AgencyRecordExtractor: [parse_agency_data] *)
(* ================================================================== *)

(** The traversal surface of one agency sub-tree.  Each field is the
    outcome of the call named in its comment: a call returns a node, or
    [None], or raises. *)
Record TextNode : Type := {
  get_text : result string                (* node.get_text(strip=True) *)
}.

Record SecondName : Type := {
  find_span : result (option TextNode)    (* find('span') *)
}.

Record Anchor : Type := {
  get_href : result string                (* get('href', '') *)
}.

Record WebDiv : Type := {
  find_a : result (option Anchor)         (* find('a') *)
}.

Record HoursDiv : Type := {
  find_hours_table : result (option Table)  (* find('table') *)
}.

Record Listing : Type := {
  find_strong : result (option TextNode);        (* find('strong') *)
  find_secondname : result (option SecondName);  (* find('div', class_='secondname') *)
  find_address : result (option TextNode);       (* find('div', class_='address') *)
  find_phone : result (option TextNode);         (* find('div', class_='phone') *)
  find_web : result (option WebDiv);             (* find('div', class_='web') *)
  find_wheel_access : result (option TextNode);  (* find('div', class_='wheel-access') *)
  find_hours : result (option HoursDiv)          (* find('div', class_='hours') *)
}.

Record Intake : Type := {
  intake_get_text : result string;               (* get_text() *)
  find_intake_table : result (option Table)      (* find('table') *)
}.

Record AgencyDiv : Type := {
  find_listing : result (option Listing);          (* find('div', class_='listing') *)
  find_available_beds : result (option TextNode);  (* find('div', class_='available-beds') *)
  find_intake_info : result (option Intake);       (* find('div', class_='intake-info') *)
  find_service_type : result (option TextNode);    (* find('div', class_='service-type') *)
  find_languages_spoken : result (option TextNode);(* find('div', class_='languages-spoken') *)
  find_last_update : result (option TextNode)      (* find('div', class_='last-update') *)
}.

(** The record under construction, [data]. *)
Definition record : Type := Dict.t string.

(** [data[key] = value] *)
Definition assign (key value : string) : M record unit := modify (Dict.set key value).

(** [data.update({...})] on the empty dictionary, then the four hour
    fields of each day. *)
Definition identity_fields : list (string * string) :=
  [("agency_name", ""); ("agency_name_secondary", ""); ("agency_address", "");
   ("agency_phone", ""); ("agency_website", ""); ("agency_wheelchair_access", "");
   ("available_beds", ""); ("intake_open_appointments", ""); ("populations_served", "");
   ("languages_spoken", ""); ("last_updated", "")].

Definition init_hour_fields (data : record) (day : string) : record :=
  Dict.set ("intake_hours_" +:+ day +:+ "_close") ""
    (Dict.set ("intake_hours_" +:+ day +:+ "_open") ""
      (Dict.set ("agency_hours_" +:+ day +:+ "_close") ""
        (Dict.set ("agency_hours_" +:+ day +:+ "_open") "" data))).

Definition init_data : record :=
  fold_left init_hour_fields weekdays
    (fold_left (fun d kv => Dict.set kv.1 kv.2 d) identity_fields Dict.empty).

(** [r'^\d+\.\d+\s+miles\s*'] *)
Definition re_distance : Re.regex :=
  Re.cat [Re.Bol; Re.plus Py.is_digit; Re.chr "."; Re.plus Py.is_digit;
          Re.plus Py.is_space; Re.lit "miles"; Re.star Py.is_space].

(** [r'\(?\d{3}\)?[\s\-]?\d{3}[\s\-]?\d{4}'] *)
Definition space_or_dash (c : ascii) : bool := Py.is_space c || Py.char_eqb c "-".

Definition re_phone : Re.regex :=
  Re.cat [Re.Opt (Re.chr "("); Re.times Py.is_digit 3 3; Re.Opt (Re.chr ")");
          Re.times space_or_dash 0 1; Re.times Py.is_digit 3 3;
          Re.times space_or_dash 0 1; Re.times Py.is_digit 4 4].

(** [r'Open Intake Appts:.*?(\d+)'] *)
Definition re_appointments : Re.regex :=
  Re.cat [Re.lit "Open Intake Appts:"; Re.star_lazy Re.dot; Re.Grp 1 (Re.plus Py.is_digit)].

(** [r'(?=[A-Z])'] *)
Definition re_capital_ahead : Re.regex := Re.Ahead (Re.Chr Py.is_upper).

(** [populations = re.split(r'(?=[A-Z])', service_text)], then
    [[p.strip() for p in populations if p.strip()]] and ['; '.join]. *)
Definition populations_of (service_text : string) : string :=
  let populations := Re.split re_capital_ahead service_text in
  let populations := map Py.strip (filter (fun p => Py.truthy (Py.strip p) = true) populations) in
  Py.join "; " populations.

(** [for day, times in hours.items():
       data[f'{prefix}_{day}_open'] = times['open']
       data[f'{prefix}_{day}_close'] = times['close']] *)
Definition store_hours (prefix : string) (hours : schedule) : M record unit :=
  for_each (Dict.items hours) (fun '(day, times) =>
    o <- call (Dict.item times "open") ;;
    assign (prefix +:+ "_" +:+ day +:+ "_open") o ;;
    c <- call (Dict.item times "close") ;;
    assign (prefix +:+ "_" +:+ day +:+ "_close") c).

(** ** The field groups inside the listing block *)

Definition extract_name (listing_div : Listing) : M record unit :=
  name_elem <- call (find_strong listing_div) ;;
  when_found name_elem (fun name_elem =>
    text <- call (get_text name_elem) ;;
    assign "agency_name" text).

Definition extract_secondary_name (listing_div : Listing) : M record unit :=
  secondary_div <- call (find_secondname listing_div) ;;
  when_found secondary_div (fun secondary_div =>
    secondary_span <- call (find_span secondary_div) ;;
    when_found secondary_span (fun secondary_span =>
      text <- call (get_text secondary_span) ;;
      assign "agency_name_secondary" text)).

Definition extract_address (listing_div : Listing) : M record unit :=
  address_div <- call (find_address listing_div) ;;
  when_found address_div (fun address_div =>
    address_text <- call (get_text address_div) ;;
    let address_clean := Re.sub re_distance "" address_text in
    assign "agency_address" address_clean).

Definition extract_phone (listing_div : Listing) : M record unit :=
  phone_div <- call (find_phone listing_div) ;;
  when_found phone_div (fun phone_div =>
    phone_text <- call (get_text phone_div) ;;
    match Re.search re_phone phone_text with
    | Some phone_match => assign "agency_phone" (Re.whole phone_text phone_match)
    | None => ret tt
    end).

Definition extract_website (listing_div : Listing) : M record unit :=
  web_div <- call (find_web listing_div) ;;
  when_found web_div (fun web_div =>
    website_elem <- call (find_a web_div) ;;
    when_found website_elem (fun website_elem =>
      href <- call (get_href website_elem) ;;
      assign "agency_website" href)).

Definition extract_wheelchair (listing_div : Listing) : M record unit :=
  wheelchair_div <- call (find_wheel_access listing_div) ;;
  when_found wheelchair_div (fun wheelchair_div =>
    wheelchair_text <- call (get_text wheelchair_div) ;;
    assign "agency_wheelchair_access"
      (if Py.contains "yes" (Py.lower wheelchair_text) then "Yes" else "No")).

Definition extract_agency_hours (listing_div : Listing) : M record unit :=
  hours_div <- call (find_hours listing_div) ;;
  when_found hours_div (fun hours_div =>
    table <- call (find_hours_table hours_div) ;;
    when_found table (fun table =>
      let agency_hours := parse_hours_table table in
      store_hours "agency_hours" agency_hours)).

(** The block [if listing_div:]. *)
Definition extract_listing (listing_div : Listing) : M record unit :=
  extract_name listing_div ;;
  extract_secondary_name listing_div ;;
  extract_address listing_div ;;
  extract_phone listing_div ;;
  extract_website listing_div ;;
  extract_wheelchair listing_div ;;
  extract_agency_hours listing_div.

(** ** The field groups of the agency block *)

Definition extract_beds (agency_div : AgencyDiv) : M record unit :=
  beds_div <- call (find_available_beds agency_div) ;;
  when_found beds_div (fun beds_div =>
    beds_text <- call (get_text beds_div) ;;
    assign "available_beds" beds_text).

Definition extract_intake (agency_div : AgencyDiv) : M record unit :=
  intake_div <- call (find_intake_info agency_div) ;;
  when_found intake_div (fun intake_div =>
    intake_text <- call (intake_get_text intake_div) ;;
    match Re.search re_appointments intake_text with
    | Some appt_match =>
        assign "intake_open_appointments" (Re.group_or_empty appt_match.2 1)
    | None => ret tt
    end ;;
    table <- call (find_intake_table intake_div) ;;
    when_found table (fun table =>
      let intake_hours := parse_hours_table table in
      store_hours "intake_hours" intake_hours)).

Definition extract_populations (agency_div : AgencyDiv) : M record unit :=
  service_div <- call (find_service_type agency_div) ;;
  when_found service_div (fun service_div =>
    service_text <- call (get_text service_div) ;;
    assign "populations_served" (populations_of service_text)).

Definition extract_languages (agency_div : AgencyDiv) : M record unit :=
  languages_div <- call (find_languages_spoken agency_div) ;;
  when_found languages_div (fun languages_div =>
    languages_text <- call (get_text languages_div) ;;
    assign "languages_spoken" languages_text).

Definition extract_last_update (agency_div : AgencyDiv) : M record unit :=
  last_update_div <- call (find_last_update agency_div) ;;
  when_found last_update_div (fun last_update_div =>
    text <- call (get_text last_update_div) ;;
    assign "last_updated" text).

(** The statements under [try]. *)
Definition parse_agency_body (agency_div : AgencyDiv) : M record unit :=
  listing_div <- call (find_listing agency_div) ;;
  when_found listing_div extract_listing ;;
  extract_beds agency_div ;;
  extract_intake agency_div ;;
  extract_populations agency_div ;;
  extract_languages agency_div ;;
  extract_last_update agency_div.

Definition parse_agency_data (agency_div : AgencyDiv) : record :=
  try_except (parse_agency_body agency_div) init_data.

(* ================================================================== *)
(** * AgencyListScraper: [scrape_agencies] *)
(* ================================================================== *)

(** The document as [scrape_agencies] sees it: the block of class
    [agencies] and, inside it, the rows of class [agency-listing row].  No
    handler surrounds these two calls: the model is that of a parsed
    document, on which they return. *)
Record AgenciesContainer : Type := {
  find_agency_rows : list AgencyDiv       (* find_all('div', class_='agency-listing row') *)
}.

Record AgencyPage : Type := {
  find_agencies : option AgenciesContainer  (* soup.find('div', class_='agencies') *)
}.

(** The list [agencies] handed to [pd.DataFrame]: empty when the block is
    missing, otherwise one [append] per row. *)
Definition scrape_agencies (soup : AgencyPage) : list record :=
  match find_agencies soup with
  | None => []
  | Some agencies_container =>
      let agency_rows := find_agency_rows agencies_container in
      fold_left (fun agencies agency_div => agencies ++ [parse_agency_data agency_div])
                agency_rows []
  end.

(* ================================================================== *)
(** * Notions used in the statements *)
(* ================================================================== *)

(** Every character of the text satisfies [p]. *)
Fixpoint all_chars (p : ascii -> bool) (s : string) : bool :=
  match s with
  | EmptyString => true
  | String c s' => p c && all_chars p s'
  end.

(** Neither a lower-case letter nor white space. *)
Definition plain (c : ascii) : bool := negb (Py.is_lower c) && negb (Py.is_space c).

(** The text without its white space. *)
Fixpoint remove_spaces (s : string) : string :=
  match s with
  | EmptyString => EmptyString
  | String c s' => if Py.is_space c then remove_spaces s' else String c (remove_spaces s')
  end.

(** The continuation of a match that ends anywhere. *)
Definition accept_any : Re.cont := fun j _ c => Some (j, c).

(** Number of white-space characters at the head of the text. *)
Fixpoint leading_spaces (s : string) : nat :=
  match s with
  | String c s' => if Py.is_space c then S (leading_spaces s') else 0
  | EmptyString => 0
  end.

(** A token has a recognised shape when it carries an [AM] or [PM] marker
    and the branch for that marker runs to its [return]. *)
Definition recognized (time_str : string) : bool :=
  let t := squeeze_upper time_str in
  (Py.contains "AM" t || Py.contains "PM" t) && is_ok (convert_body t).

(** The week as [day_list] begins: Monday first. *)
Definition monday_first : list string :=
  ["monday"; "tuesday"; "wednesday"; "thursday"; "friday"; "saturday"; "sunday"].

(** [day] has a number between [a] and [b] inclusive. *)
Definition in_range (number : string -> result nat) (a b : nat) (day : string) : bool :=
  match number day with
  | Ok n => (a <=? n) && (n <=? b)
  | Raise => false
  end.

(** The shape of a WeeklySchedule: the seven weekdays, in order, each with
    the keys [open] and [close]. *)
Definition well_formed (hours : schedule) : Prop :=
  Dict.keys hours = weekdays /\
  Forall (fun times : Dict.t string => Dict.keys times = ["open"; "close"]) (Dict.values hours).

(** The schedule with the same times on every day. *)
Definition every_day (o c : string) : schedule :=
  map (fun day => (day, open_close o c)) weekdays.

(** A time with minutes starts the text: a digit, a colon, two digits. *)
Definition minutes_at_head (s : string) : bool :=
  match s with
  | String d (String c (String m1 (String m2 _))) =>
      Py.is_digit d && Py.char_eqb ":" c && Py.is_digit m1 && Py.is_digit m2
  | _ => false
  end.

(** Some time of the text has minutes. *)
Fixpoint has_minutes (s : string) : bool :=
  minutes_at_head s ||
  match s with
  | String _ s' => has_minutes s'
  | EmptyString => false
  end.

(** [t] is the text from some position of [s] on. *)
Definition is_suffix (t s : string) : Prop := exists p, s = p +:+ t.

(** A colon and two digits start the text. *)
Definition colon_minutes (u : string) : bool :=
  match u with
  | String a (String b (String d _)) => Py.char_eqb ":" a && Py.is_digit b && Py.is_digit d
  | _ => false
  end.

(** The numbers, Monday being 0, of the first and the last day of a
    matched range, when both day tokens name a weekday. *)
Definition range_days (m : day_range) : option (nat * nat) :=
  let '(start_day, end_day, _, _) := m in
  match Dict.get day_mapping (Py.lower start_day) with
  | Some first =>
      match (if Py.truthy end_day then Dict.get day_mapping (Py.lower end_day)
             else Some first) with
      | Some last =>
          match index monday_first first, index monday_first last with
          | Ok a, Ok b => Some (a, b)
          | _, _ => None
          end
      | None => None
      end
  | None => None
  end.

(** The weekdays a matched range applies to, and the times it gives them. *)
Definition covers (m : day_range) (day : string) : bool :=
  match range_days m with
  | Some (a, b) => in_range (index monday_first) a b day
  | None => false
  end.

Definition range_times (m : day_range) : Dict.t string :=
  let '(_, _, open_time, close_time) := m in
  open_close (convert_to_24h open_time) (convert_to_24h close_time).

(** The times of the last range that covers [day], or [current]. *)
Fixpoint last_covering (ms : list day_range) (day : string)
    (current : option (Dict.t string)) : option (Dict.t string) :=
  match ms with
  | [] => current
  | m :: ms' =>
      last_covering ms' day (if covers m day then Some (range_times m) else current)
  end.

(** The pair on which service entries are compared. *)
Definition service_key (service : Service) : string * string :=
  (category service, service_name service).

(** [service] is met in [l] with no entry of the same key before it. *)
Definition first_of_its_key (service : Service) (l : list Service) : Prop :=
  exists pre post, l = pre ++ service :: post /\ service_key service ∉ service_key <$> pre.

(** ** Field groups of an agency record *)

(** Two records agree on the fields [F]. *)
Definition agree (F : list string) (d d' : record) : Prop :=
  forall k, k ∈ F -> Dict.get d k = Dict.get d' k.

(** A block of statements is local to the fields [F]: it leaves every
    other field alone, what it does depends on the record through [F]
    only, and it adds no key when those of [F] are present. *)
Record local_to {A} (F : list string) (m : M record A) : Prop := {
  local_frame : forall d k, k ∉ F -> Dict.get (m d).1 k = Dict.get d k;
  local_agree : forall d d', agree F d d' -> (m d).2 = (m d').2 /\ agree F (m d).1 (m d').1;
  local_keys : forall d, (forall k, k ∈ F -> k ∈ Dict.keys d) -> Dict.keys (m d).1 = Dict.keys d
}.

(** A field group of the listing block, with the lookup of the block. *)
Definition in_listing (agency_div : AgencyDiv) (group : Listing -> M record unit)
    : M record unit :=
  listing_div <- call (find_listing agency_div) ;;
  when_found listing_div group.

(** The fourteen hour fields of one schedule. *)
Definition hour_fields (prefix : string) : list string :=
  concat (map (fun day => [prefix +:+ "_" +:+ day +:+ "_open";
                           prefix +:+ "_" +:+ day +:+ "_close"]) weekdays).

(** The twelve field groups in the order of the source, each with the
    fields it assigns. *)
Definition groups : Type := list (list string * M record unit).

Definition agency_groups (agency_div : AgencyDiv) : groups :=
  [ (["agency_name"], in_listing agency_div extract_name);
    (["agency_name_secondary"], in_listing agency_div extract_secondary_name);
    (["agency_address"], in_listing agency_div extract_address);
    (["agency_phone"], in_listing agency_div extract_phone);
    (["agency_website"], in_listing agency_div extract_website);
    (["agency_wheelchair_access"], in_listing agency_div extract_wheelchair);
    (hour_fields "agency_hours", in_listing agency_div extract_agency_hours);
    (["available_beds"], extract_beds agency_div);
    ("intake_open_appointments" :: hour_fields "intake_hours", extract_intake agency_div);
    (["populations_served"], extract_populations agency_div);
    (["languages_spoken"], extract_languages agency_div);
    (["last_updated"], extract_last_update agency_div) ].

(** A group raises when run on the initial record. *)
Definition raises (g : M record unit) : bool := negb (is_ok (g init_data).2).

(** Some group before the [i]-th one raises. *)
Definition failed_before (gs : groups) (i : nat) : bool :=
  existsb (fun p => raises p.2) (take i gs).

(** The keys of an AgencyRecord: the eleven identity and operational
    fields, then open and close of both schedules for each day. *)
Definition agency_record_keys : list string :=
  identity_fields.*1 ++
  concat (map (fun day => ["agency_hours_" +:+ day +:+ "_open";
                           "agency_hours_" +:+ day +:+ "_close";
                           "intake_hours_" +:+ day +:+ "_open";
                           "intake_hours_" +:+ day +:+ "_close"]) weekdays).

(** Every optional sub-section is absent. *)
Definition listing_is_empty (listing_div : Listing) : Prop :=
  find_strong listing_div = Ok None /\ find_secondname listing_div = Ok None /\
  find_address listing_div = Ok None /\ find_phone listing_div = Ok None /\
  find_web listing_div = Ok None /\ find_wheel_access listing_div = Ok None /\
  find_hours listing_div = Ok None.

Definition no_sections (agency_div : AgencyDiv) : Prop :=
  (find_listing agency_div = Ok None \/
   exists listing_div, find_listing agency_div = Ok (Some listing_div) /\
                       listing_is_empty listing_div) /\
  find_available_beds agency_div = Ok None /\ find_intake_info agency_div = Ok None /\
  find_service_type agency_div = Ok None /\ find_languages_spoken agency_div = Ok None /\
  find_last_update agency_div = Ok None.

(** ** Sample nodes *)

Definition text_cell (text : string) : Cell := {| cell_text := Ok text |}.
Definition text_row (texts : list string) : Row := {| row_cells := Ok (map text_cell texts) |}.
Definition text_node (text : string) : TextNode := {| get_text := Ok text |}.

(** A table whose second row raises when its cells are asked for. *)
Definition unreadable_table : Table :=
  {| table_rows := Ok [text_row ["Sun"; "Mon"]; {| row_cells := Raise |}] |}.

(** An agency sub-tree without any sub-section. *)
Definition empty_agency : AgencyDiv :=
  {| find_listing := Ok None; find_available_beds := Ok None; find_intake_info := Ok None;
     find_service_type := Ok None; find_languages_spoken := Ok None;
     find_last_update := Ok None |}.

(** An agency whose name lookup raises and whose bed block is present. *)
Definition broken_name_agency : AgencyDiv :=
  {| find_listing :=
       Ok (Some {| find_strong := Raise; find_secondname := Ok None; find_address := Ok None;
                   find_phone := Ok None; find_web := Ok None; find_wheel_access := Ok None;
                   find_hours := Ok None |});
     find_available_beds := Ok (Some (text_node "3 beds"));
     find_intake_info := Ok None; find_service_type := Ok None;
     find_languages_spoken := Ok None; find_last_update := Ok None |}.

(** The table of the spec's example. *)
Definition closed_sunday_table : Table :=
  {| table_rows := Ok [text_row ["Sun"; "Mon"]; text_row ["Closed"; "8:00AM - 5:00PM"]] |}.

(** A filter panel with one category: two labels share the name "Detox",
    a third checkbox has no label. *)
Definition sample_collapse : Collapse :=
  {| find_tooltips :=
       [ {| tip_title := Some ""; tip_original_title := Some "Withdrawal management";
            tip_aria_label := None;
            tip_parent := Some {| find_label := Some "Detox (WM)" |} |} ];
     find_checkboxes :=
       [ {| checkbox_id := Some "a" |}; {| checkbox_id := Some "b" |};
         {| checkbox_id := Some "c" |}; {| checkbox_id := None |} ];
     find_label_for := fun id =>
       if String.eqb id "a" then Some "Detox (WM)"
       else if String.eqb id "b" then Some "Detox (3.7)"
       else if String.eqb id "c" then Some "Residential"
       else None |}.

Definition sample_soup : Soup :=
  {| find_filter_container := Some {| find_accordion := Some {| find_items :=
       [ {| find_header := Some {| find_button := Some "Level of Care:" |};
            find_collapse := Some sample_collapse |} ] |} |} |}.

(** An agency whose wheelchair block is present and does not say yes. *)
Definition no_wheelchair_agency : AgencyDiv :=
  {| find_listing :=
       Ok (Some {| find_strong := Ok (Some (text_node "Hope House"));
                   find_secondname := Ok None; find_address := Ok None;
                   find_phone := Ok None; find_web := Ok None;
                   find_wheel_access := Ok (Some (text_node "Wheelchair Access: N"));
                   find_hours := Ok None |});
     find_available_beds := Ok None; find_intake_info := Ok None;
     find_service_type := Ok None; find_languages_spoken := Ok None;
     find_last_update := Ok None |}.

(* ================================================================== *)
(** * Notions used in the further properties *)
(* ================================================================== *)

(** ** Texts *)

(** The text is empty or begins with a character outside the class. *)
Definition stops (p : ascii -> bool) (t : string) : bool :=
  match t with
  | String a _ => negb (p a)
  | EmptyString => true
  end.

(** The last character of a text. *)
Fixpoint last_char (s : string) : option ascii :=
  match s with
  | EmptyString => None
  | String c EmptyString => Some c
  | String _ s' => last_char s'
  end.

(** The text ends with a character of the class. *)
Definition ends_with (p : ascii -> bool) (s : string) : bool :=
  match last_char s with
  | Some c => p c
  | None => false
  end.

(** Some white-space character of the text is followed by "(". *)
Fixpoint space_then_paren (s : string) : bool :=
  match s with
  | String a s' =>
      match s' with
      | String b _ => (Py.is_space a && Py.char_eqb "(" b) || space_then_paren s'
      | EmptyString => false
      end
  | EmptyString => false
  end.






(** ** Patterns *)


(** The numbers of the capturing groups of a pattern. *)
Fixpoint group_numbers (r : Re.regex) : list nat :=
  match r with
  | Re.Grp n r1 => n :: group_numbers r1
  | Re.Cat a b | Re.Alt a b => group_numbers a ++ group_numbers b
  | Re.Opt a | Re.Ahead a => group_numbers a
  | _ => []
  end.


(** ** Service entries *)

(** The category under which the entries of an accordion item are
    filed. *)
Definition item_category (item : AccordionItem) : string :=
  match find_header item with
  | Some header =>
      match find_button header with
      | Some text => Py.rstrip_chars ":" text
      | None => "Unknown"
      end
  | None => "Unknown"
  end.

(** The text of the label a tooltip is attached to. *)
Definition tooltip_label (tooltip : Tooltip) : option string :=
  match tip_parent tooltip with
  | Some container => find_label container
  | None => None
  end.

(** ** Further sample nodes *)

(** A page with two agency rows, the first of which fails at its name. *)
Definition sample_page : AgencyPage :=
  {| find_agencies := Some {| find_agency_rows := [broken_name_agency; no_wheelchair_agency] |} |}.

(** An agency with an hours table and an intake block. *)
Definition sample_hours_agency : AgencyDiv :=
  {| find_listing :=
       Ok (Some {| find_strong := Ok (Some (text_node "Hope House"));
                   find_secondname := Ok None; find_address := Ok None;
                   find_phone := Ok None; find_web := Ok None;
                   find_wheel_access := Ok None;
                   find_hours :=
                     Ok (Some {| find_hours_table := Ok (Some closed_sunday_table) |}) |});
     find_available_beds := Ok None;
     find_intake_info :=
       Ok (Some {| intake_get_text := Ok "Open Intake Appts: about 12 this week";
                   find_intake_table := Ok (Some closed_sunday_table) |});
     find_service_type := Ok None; find_languages_spoken := Ok None;
     find_last_update := Ok None |}.

(** A table whose headers spell the days in full. *)
Definition full_names_table : Table :=
  {| table_rows := Ok [text_row ["Monday"; "Tuesday"];
                       text_row ["8:00AM - 5:00PM"; "Closed"]] |}.


(** A section with two tooltips on the same label. *)
Definition two_tooltips_collapse : Collapse :=
  {| find_tooltips :=
       [ {| tip_title := Some "first"; tip_original_title := None; tip_aria_label := None;
            tip_parent := Some {| find_label := Some "Detox (WM)" |} |};
         {| tip_title := None; tip_original_title := None; tip_aria_label := Some "second";
            tip_parent := Some {| find_label := Some "Detox (WM)" |} |} ];
     find_checkboxes := [ {| checkbox_id := Some "a" |} ];
     find_label_for := fun id => if String.eqb id "a" then Some "Detox (WM)" else None |}.

(* ================================================================== *)
(** * Properties *)
(* ================================================================== *)

(** ** Strings *)

Module PyFacts.

Lemma app_cons (c : ascii) (a b : string) : String c a +:+ b = String c (a +:+ b).
Proof. reflexivity. Qed.

Lemma app_nil_r (s : string) : s +:+ "" = s.
Proof. induction s as [|c s IH]; [done|]. by rewrite app_cons, IH. Qed.

Lemma app_assoc (a b c : string) : (a +:+ b) +:+ c = a +:+ (b +:+ c).
Proof. induction a as [|x a IH]; [done|]. by rewrite !app_cons, IH. Qed.

Lemma drop_nil (n : nat) : Py.drop n "" = "".
Proof. by destruct n. Qed.

Lemma take_all (n : nat) (s : string) : String.length s <= n -> Py.take n s = s.
Proof.
  revert n. induction s as [|c s IH]; intros [|n] Hn; cbn in *; try done; try lia.
  rewrite IH; [done | lia].
Qed.

Lemma drop_length (n : nat) (s : string) :
  String.length (Py.drop n s) = String.length s - n.
Proof.
  revert n. induction s as [|c s IH]; intros [|n]; cbn; try done.
Qed.

Lemma drop_empty_length (n : nat) (s : string) :
  Py.drop n s = "" -> String.length s <= n.
Proof. intros H. pose proof (drop_length n s) as L. rewrite H in L. cbn in L. lia. Qed.

Lemma drop_step (n : nat) (s t : string) (c : ascii) :
  Py.drop n s = String c t -> Py.drop (S n) s = t.
Proof.
  revert n. induction s as [|x s IH]; intros [|n] H; cbn in *; try done.
  - by inversion H.
  - by apply IH.
Qed.

Lemma slice_same (n : nat) (s : string) : Py.slice n n s = "".
Proof. unfold Py.slice. rewrite Nat.sub_diag. by destruct (Py.drop n s). Qed.

(** Extending a slice by the character that follows it. *)
Lemma slice_step (a i : nat) (s t : string) (c : ascii) :
  a <= i -> Py.drop i s = String c t ->
  Py.slice a (S i) s = Py.slice a i s +:+ String c "".
Proof.
  unfold Py.slice. revert a i. induction s as [|x s IH]; intros a i Ha H.
  - by rewrite drop_nil in H.
  - destruct a as [|a].
    + rewrite !Nat.sub_0_r. cbn [Py.drop].
      clear IH Ha. revert x s H. induction i as [|i IHi]; intros x s H.
      * cbn in H. inversion H; subst. by cbn.
      * cbn in H. destruct s as [|y s]; [by rewrite drop_nil in H|].
        change (Py.take (S (S i)) (String x (String y s)))
          with (String x (Py.take (S i) (String y s))).
        rewrite (IHi y s H). by cbn.
    + destruct i as [|i]; [lia|]. cbn in H. cbn [Py.drop].
      replace (S (S i) - S a) with (S i - a) by lia.
      replace (S i - S a) with (i - a) by lia.
      apply IH; [lia | done].
Qed.

End PyFacts.

(** ** Dictionaries *)

Module DictFacts.

Section Facts.
Context {V : Type}.
Implicit Types (d : Dict.t V) (k : string) (v : V).

Lemma get_set_eq d k v : Dict.get (Dict.set k v d) k = Some v.
Proof.
  induction d as [|[k' v'] d IH]; cbn.
  - by rewrite String.eqb_refl.
  - destruct (String.eqb k k') eqn:E; cbn; rewrite E; [done | apply IH].
Qed.

Lemma get_set_ne d k k' v : k <> k' -> Dict.get (Dict.set k v d) k' = Dict.get d k'.
Proof.
  intros Hne. induction d as [|[k0 v0] d IH]; cbn.
  - destruct (String.eqb_spec k' k); [congruence | done].
  - destruct (String.eqb_spec k k0) as [->|]; cbn.
    + destruct (String.eqb_spec k' k0); [congruence | done].
    + by rewrite IH.
Qed.

Lemma get_set d k k' v :
  Dict.get (Dict.set k v d) k' = if decide (k = k') then Some v else Dict.get d k'.
Proof.
  case_decide as E; [subst; apply get_set_eq | by apply get_set_ne].
Qed.

Lemma get_keys d k : is_Some (Dict.get d k) <-> k ∈ Dict.keys d.
Proof.
  unfold Dict.keys. induction d as [|[k' v'] d IH]; cbn.
  - split; [by intros [? ?] | by intros ?%elem_of_nil].
  - destruct (String.eqb_spec k k') as [->|Hne].
    + split; [intros _; apply list_elem_of_here | eauto].
    + rewrite IH. split; [apply list_elem_of_further|].
      intros [?|?]%elem_of_cons; [congruence | done].
Qed.

(** Assigning to a key that is present leaves the keys as they are. *)
Lemma keys_set_present d k v : k ∈ Dict.keys d -> Dict.keys (Dict.set k v d) = Dict.keys d.
Proof.
  unfold Dict.keys. induction d as [|[k' v'] d IH]; cbn.
  - by intros ?%elem_of_nil.
  - intros Hk. destruct (String.eqb_spec k k') as [->|Hne]; cbn; [done|].
    f_equal. apply IH. apply elem_of_cons in Hk as [?|?]; [congruence | done].
Qed.

End Facts.

End DictFacts.

(** ** The monad *)

Lemma bind_assoc {S A B C} (m : M S A) (f : A -> M S B) (g : B -> M S C) (s : S) :
  bind (bind m f) g s = bind m (fun a => bind (f a) g) s.
Proof. unfold bind. by destruct (m s) as [s' [a|]]. Qed.

(** ** TimeNormalizer *)

Lemma rep_greedy_spaces (t : string) (lo i : nat) :
  Re.rep_greedy Py.is_space lo None i t [] accept_any =
  if lo <=? leading_spaces t then Some (i + leading_spaces t, []) else None.
Proof.
  revert lo i. induction t as [|c t IH]; intros lo i.
  - destruct lo; cbn; [|done]. unfold accept_any. by rewrite Nat.add_0_r.
  - cbn. destruct (Py.is_space c) eqn:E; cbn.
    + rewrite IH. destruct lo as [|lo]; cbn.
      * by rewrite Nat.add_succ_r.
      * destruct (lo <=? leading_spaces t); [by rewrite Nat.add_succ_r | done].
    + destruct lo; cbn; [|done]. unfold accept_any. by rewrite Nat.add_0_r.
Qed.

Lemma match_at_spaces (i : nat) (t : string) :
  Re.match_at re_spaces false i t =
  if 1 <=? leading_spaces t then Some (i + leading_spaces t, []) else None.
Proof. apply (rep_greedy_spaces t 1 i). Qed.

Lemma sub_spaces_go (s : string) (t : string) :
  (forall i last, Py.drop i s = t -> last <= i ->
     Re.sub_pieces (Re.finditer_go re_spaces i t 0) "" last s
     = Py.slice last i s +:+ remove_spaces t) /\
  (forall i, Py.drop i s = t ->
     Re.sub_pieces (Re.finditer_go re_spaces i t (leading_spaces t)) ""
       (i + leading_spaces t) s
     = remove_spaces t).
Proof.
  induction t as [|c t [IH1 IH2]].
  - assert (H1 : forall i last, Py.drop i s = "" -> last <= i ->
       Re.sub_pieces (Re.finditer_go re_spaces i "" 0) "" last s
       = Py.slice last i s +:+ remove_spaces "").
    { intros i last Hd Hl. cbn. rewrite PyFacts.app_nil_r. unfold Py.slice.
      symmetry. apply PyFacts.take_all. rewrite PyFacts.drop_length.
      apply PyFacts.drop_empty_length in Hd. lia. }
    split; [exact H1|]. intros i Hd. cbn [leading_spaces]. rewrite Nat.add_0_r.
    rewrite (H1 i i Hd); [|lia]. by rewrite PyFacts.slice_same.
  - assert (H1 : forall i last, Py.drop i s = String c t -> last <= i ->
       Re.sub_pieces (Re.finditer_go re_spaces i (String c t) 0) "" last s
       = Py.slice last i s +:+ remove_spaces (String c t)).
    { intros i last Hd Hl.
      cbn [Re.finditer_go]. rewrite match_at_spaces. cbn [leading_spaces remove_spaces].
      destruct (Py.is_space c) eqn:E.
      - cbn [Nat.leb]. replace (i + S (leading_spaces t) =? i) with false
          by (symmetry; apply Nat.eqb_neq; lia).
        cbn [Re.sub_pieces].
        replace (i + S (leading_spaces t) - i - 1) with (leading_spaces t) by lia.
        replace (i + S (leading_spaces t)) with (S i + leading_spaces t) by lia.
        rewrite (IH2 (S i)); [done|]. by eapply PyFacts.drop_step.
      - cbn [Nat.leb]. rewrite (IH1 (S i) last); [|by eapply PyFacts.drop_step|lia].
        rewrite (PyFacts.slice_step last i s t c Hl Hd).
        by rewrite PyFacts.app_assoc. }
    split; [exact H1|]. intros i Hd. cbn [leading_spaces remove_spaces].
    destruct (Py.is_space c) eqn:E.
    + cbn [Re.finditer_go].
      replace (i + S (leading_spaces t)) with (S i + leading_spaces t) by lia.
      apply IH2. by eapply PyFacts.drop_step.
    + rewrite Nat.add_0_r. rewrite (H1 i i Hd); [|lia].
      rewrite PyFacts.slice_same. cbn [remove_spaces]. by rewrite E.
Qed.

(** [re.sub(r'\s+', '', s)] removes exactly the white space of [s]. *)
Lemma sub_spaces (s : string) : Re.sub re_spaces "" s = remove_spaces s.
Proof.
  unfold Re.sub, Re.finditer.
  destruct (sub_spaces_go s s) as [H _]. rewrite (H 0 0); [|done|lia].
  by rewrite PyFacts.slice_same.
Qed.

Lemma squeeze_upper_spec (s : string) : squeeze_upper s = remove_spaces (Py.upper s).
Proof. apply sub_spaces. Qed.

(** A token without lower-case letters and white space is its own
    normal form. *)
Lemma squeeze_plain (s : string) :
  all_chars plain s = true -> remove_spaces (Py.upper s) = s.
Proof.
  induction s as [|c s IH]; [done|]. cbn [all_chars]. intros [Hc Hs]%andb_prop.
  apply andb_prop in Hc as [Hl Hsp]. apply negb_true_iff in Hl, Hsp.
  change (Py.upper (String c s)) with (String (Py.upper_char c) (Py.upper s)).
  unfold Py.upper_char. rewrite Hl. cbn [remove_spaces]. rewrite Hsp. by rewrite IH.
Qed.




(** C5. [convert_to_24h] maps "9:00 AM" to "09:00", "12:00 AM" to "00:00",
    "12:00 PM" to "12:00" and "9PM" to "21:00": under AM the hour 12
    becomes 0, under PM 12 is added except to the hour 12, missing
    minutes are ":00", and the hour is padded to two digits. *)
Theorem convert_to_24h_examples :
  convert_to_24h "9:00 AM" = "09:00" /\
  convert_to_24h "12:00 AM" = "00:00" /\
  convert_to_24h "12:00 PM" = "12:00" /\
  convert_to_24h "9PM" = "21:00".
Proof. repeat split; vm_compute; reflexivity. Qed.

(** C2, as stated, fails: the token "noon" has no recognised shape and is
    returned as "NOON". *)
Lemma convert_to_24h_rewrites_unrecognized :
  ~ (forall time_str, recognized time_str = false -> convert_to_24h time_str = time_str).
Proof. intros H. specialize (H "noon" eq_refl). vm_compute in H. discriminate. Qed.

(** A token without a recognised shape comes back in its normal form. *)
Lemma convert_to_24h_fallback (time_str : string) :
  recognized time_str = false ->
  convert_to_24h time_str = squeeze_upper time_str.
Proof.
  unfold recognized, convert_to_24h.
  generalize (squeeze_upper time_str) as t. intros t. cbn zeta. unfold convert_body.
  destruct (Py.contains "AM" t); cbn [orb andb].
  - by destruct (convert_branch "AM" am_hour t).
  - destruct (Py.contains "PM" t); cbn [orb andb]; [|done].
    by destruct (convert_branch "PM" pm_hour t).
Qed.

(** C2, amended. For every token without a recognised shape,
    [convert_to_24h] returns the token in upper case with its white space
    removed; being a total function it raises on no input. *)
Theorem convert_to_24h_unrecognized (time_str : string) :
  recognized time_str = false ->
  convert_to_24h time_str = remove_spaces (Py.upper time_str).
Proof.
  intros H. rewrite <- squeeze_upper_spec. by apply convert_to_24h_fallback.
Qed.

(** Hence such a token comes back unchanged exactly when it is already
    in upper case and free of white space, as "21:00" is. *)
Lemma convert_to_24h_plain (time_str : string) :
  recognized time_str = false -> all_chars plain time_str = true ->
  convert_to_24h time_str = time_str.
Proof.
  intros H Hp. by rewrite convert_to_24h_fallback, squeeze_upper_spec, squeeze_plain.
Qed.

Lemma convert_to_24h_unrecognized_witness :
  recognized "noon" = false /\ convert_to_24h "noon" = remove_spaces (Py.upper "noon").
Proof. split; [reflexivity | apply convert_to_24h_unrecognized; reflexivity]. Defined.

(** ** Loops *)

(** A loop whose body completes and keeps an invariant does the same. *)
Lemma for_each_invariant {S A} (I : S -> Prop) (l : list A) (body : A -> M S unit) :
  (forall x s, x ∈ l -> I s -> exists s', body x s = (s', Ok tt) /\ I s') ->
  forall s, I s -> exists s', for_each l body s = (s', Ok tt) /\ I s'.
Proof.
  induction l as [|x l IH]; intros Hbody s Hs.
  - by exists s.
  - destruct (Hbody x s) as (s1 & E1 & H1); [apply list_elem_of_here | done |].
    destruct (IH (fun y t Hy => Hbody y t (list_elem_of_further _ _ _ Hy)) s1 H1)
      as (s2 & E2 & H2).
    exists s2. split; [|done]. cbn. unfold bind. by rewrite E1.
Qed.

Lemma index_lookup (l : list string) (x : string) (i : nat) :
  index l x = Ok i -> l !! i = Some x.
Proof.
  revert i. induction l as [|y l IH]; intros i; cbn; [done|].
  destruct (String.eqb_spec x y) as [->|Hne].
  - by intros [= <-].
  - destruct (index l x) as [j|]; cbn; [|done]. intros [= <-]. by apply IH.
Qed.

Lemma index_found (l : list string) (x : string) :
  in_list x l = true -> exists i, index l x = Ok i.
Proof.
  unfold in_list. induction l as [|y l IH]; cbn; [done|].
  destruct (String.eqb x y); [by eexists|]. cbn.
  intros H. destruct (IH H) as [i ->]. by eexists.
Qed.

Lemma index_in_list (l : list string) (x : string) (i : nat) :
  index l x = Ok i -> in_list x l = true.
Proof.
  unfold in_list. revert i. induction l as [|y l IH]; intros i; cbn; [done|].
  destruct (String.eqb x y); [done|]. cbn.
  destruct (index l x) as [j|]; [|done]. intros _. by apply (IH j).
Qed.

Lemma index_app_l (l l' : list string) (x : string) (i : nat) :
  index l x = Ok i -> index (l ++ l') x = Ok i.
Proof.
  revert i. induction l as [|y l IH]; intros i; cbn; [done|].
  destruct (String.eqb x y); [done|].
  destruct (index l x) as [j|] eqn:E; cbn; [|done].
  intros [= <-]. by rewrite (IH j eq_refl).
Qed.

(** ** WeeklySchedule *)

Lemma keys_open_close (o c : string) : Dict.keys (open_close o c) = ["open"; "close"].
Proof. reflexivity. Qed.

Lemma default_hours_every_day : default_hours = every_day "" "".
Proof. reflexivity. Qed.

Lemma well_formed_every_day (o c : string) : well_formed (every_day o c).
Proof. split; [reflexivity | repeat constructor]. Qed.

Lemma values_set_Forall {V} (P : V -> Prop) (d : Dict.t V) (k : string) (v : V) :
  Forall P (Dict.values d) -> P v -> Forall P (Dict.values (Dict.set k v d)).
Proof.
  unfold Dict.values. intros Hd Hv. induction d as [|[k' v'] d IH]; cbn.
  - by constructor.
  - inversion Hd; subst. destruct (String.eqb k k'); cbn; constructor; auto.
Qed.

(** Assigning an open/close pair to a weekday keeps the shape. *)
Lemma well_formed_set (hours : schedule) (day o c : string) :
  well_formed hours -> day ∈ weekdays ->
  well_formed (Dict.set day (open_close o c) hours).
Proof.
  intros [Hk Hv] Hday. split.
  - rewrite DictFacts.keys_set_present; [done | by rewrite Hk].
  - by apply values_set_Forall.
Qed.

Lemma day_list_weekdays (day : string) : day ∈ day_list -> day ∈ weekdays.
Proof.
  intros H. vm_compute in H. vm_compute.
  repeat (apply elem_of_cons in H as [->|H]; [set_solver|]).
  by apply elem_of_nil in H.
Qed.

Lemma day_list_monday_first : day_list = monday_first ++ monday_first.
Proof. reflexivity. Qed.

(** The loop [for i in range(a, a + n): hours[day_list[i]] = times]. *)
Lemma set_days_loop (times : Dict.t string) (n a : nat) (hours : schedule) :
  a + n <= length day_list ->
  exists hours',
    for_each (seq a n) (fun i =>
      day <- call (of_option (day_list !! i)) ;;
      modify (Dict.set day times)) hours = (hours', Ok tt) /\
    (forall day, Dict.get hours' day =
       if existsb (String.eqb day) (take n (drop a day_list))
       then Some times else Dict.get hours day) /\
    (well_formed hours -> Dict.keys times = ["open"; "close"] -> well_formed hours').
Proof.
  revert a hours. induction n as [|n IH]; intros a hours Hlen.
  - exists hours. by rewrite take_0.
  - destruct (lookup_lt_is_Some_2 day_list a) as [d Hd]; [lia|].
    destruct (IH (S a) (Dict.set d times hours)) as (h' & E & Hget & Hwf); [lia|].
    exists h'. split; [|split].
    + cbn [seq for_each]. unfold bind at 1. unfold bind at 1.
      rewrite Hd. cbn. exact E.
    + intros day. rewrite Hget. rewrite (drop_S _ _ _ Hd). cbn [take existsb].
      destruct (String.eqb_spec day d) as [->|Hne]; cbn [orb].
      * rewrite DictFacts.get_set_eq. by destruct (existsb _ _).
      * by rewrite DictFacts.get_set_ne.
    + intros [Hk Hv] Ht. apply Hwf; [|done]. split.
      * rewrite DictFacts.keys_set_present; [done|]. rewrite Hk.
        apply day_list_weekdays. by eapply list_elem_of_lookup_2.
      * by apply values_set_Forall.
Qed.

Lemma index_bound (l : list string) (x : string) (i : nat) :
  index l x = Ok i -> i < length l.
Proof. intros H%index_lookup. by eapply lookup_lt_Some. Qed.

(** One matched range keeps the shape of the schedule and does not raise. *)
Lemma apply_day_range_well_formed (m : day_range) (hours : schedule) :
  well_formed hours ->
  exists hours', apply_day_range m hours = (hours', Ok tt) /\ well_formed hours'.
Proof.
  intros Hwf. destruct m as [[[start_day end_day] open_time] close_time].
  unfold apply_day_range.
  set (sd := Dict.get_default day_mapping _ _).
  set (ed := if Py.truthy end_day then _ else _).
  destruct (in_list sd day_list) eqn:Es; cbn [andb]; [|by exists hours].
  destruct (in_list ed day_list) eqn:Ee; [|by exists hours].
  destruct (index_found _ _ Es) as [a Ea]. destruct (index_found _ _ Ee) as [b Eb].
  pose proof (index_bound _ _ _ Ea). pose proof (index_bound _ _ _ Eb).
  destruct (set_days_loop (open_close (convert_to_24h open_time) (convert_to_24h close_time))
              (b + 1 - a) a hours) as (h' & E & _ & Hwf'); [lia|].
  exists h'. split; [|by apply Hwf'].
  unfold bind at 1. unfold call at 1. rewrite Ea.
  unfold bind at 1. unfold call at 1. rewrite Eb. exact E.
Qed.

Lemma set_always_open_every_day : set_always_open default_hours = every_day "00:00" "23:59".
Proof. reflexivity. Qed.

Lemma parse_hours_well_formed (hours_text : string) :
  exists hours, parse_hours hours_text = Ok hours /\ well_formed hours.
Proof.
  unfold parse_hours. cbn zeta.
  destruct (Py.truthy hours_text); cbn [negb].
  2:{ eexists; split; [done|]. apply (well_formed_every_day "" ""). }
  destruct (Re.matches re_always_open hours_text).
  { eexists; split; [done|]. rewrite set_always_open_every_day.
    apply well_formed_every_day. }
  destruct (for_each_invariant well_formed (find_day_ranges hours_text) apply_day_range)
    with (s := default_hours) as (h' & E & Hwf).
  - intros m h _ Hh. by apply apply_day_range_well_formed.
  - apply (well_formed_every_day "" "").
  - exists h'. unfold run. by rewrite E.
Qed.

Lemma table_day_mapping_weekdays (k day : string) :
  Dict.get table_day_mapping k = Some day -> day ∈ weekdays.
Proof.
  cbn. repeat (case_match; [intros [= <-]; set_solver|]). done.
Qed.

(** One table cell keeps the shape of the schedule and does not raise. *)
Lemma apply_table_cell_well_formed (cell : string * string) (hours : schedule) :
  well_formed hours ->
  exists hours', apply_table_cell cell hours = (hours', Ok tt) /\ well_formed hours'.
Proof.
  intros Hwf. destruct cell as [header time_cell]. unfold apply_table_cell.
  destruct (Dict.get table_day_mapping (Py.lower header)) as [day_key|] eqn:Ek;
    [|by exists hours].
  apply table_day_mapping_weekdays in Ek.
  destruct (Py.truthy day_key); [|by exists hours].
  destruct (Py.contains "closed" (Py.lower time_cell)).
  { eexists; split; [done|]. by apply well_formed_set. }
  destruct (Re.search re_table_times time_cell) as [time_match|]; [|by exists hours].
  eexists; split; [done|]. by apply well_formed_set.
Qed.

Lemma table_loop_completes (cells : list (string * string)) (hours : schedule) :
  well_formed hours ->
  exists hours', for_each cells apply_table_cell hours = (hours', Ok tt) /\ well_formed hours'.
Proof.
  intros Hwf. apply (for_each_invariant well_formed); [|done].
  intros cell h _ Hh. by apply apply_table_cell_well_formed.
Qed.

(** What the statements under [try] of [parse_hours_table] leave behind:
    the initial schedule if they raise, a well-formed one otherwise. *)
Lemma parse_hours_table_body_cases (table : Table) :
  parse_hours_table_body table default_hours = (default_hours, Raise) \/
  exists hours, parse_hours_table_body table default_hours = (hours, Ok tt) /\
                well_formed hours.
Proof.
  pose proof (well_formed_every_day "" "") as Hd. rewrite <- default_hours_every_day in Hd.
  unfold parse_hours_table_body, bind, call.
  destruct (table_rows table) as [rows|]; [|by left].
  destruct rows as [|header_row [|times_row rows]]; [right; by eexists.. |].
  destruct (row_texts header_row) as [headers|]; [|by left].
  destruct (row_texts times_row) as [times|]; [|by left].
  right. by apply table_loop_completes.
Qed.

Lemma parse_hours_table_well_formed (table : Table) : well_formed (parse_hours_table table).
Proof.
  unfold parse_hours_table, try_except.
  destruct (parse_hours_table_body_cases table) as [-> | (h & -> & Hwf)]; [|done].
  apply (well_formed_every_day "" "").
Qed.

(** C9. For every input, [parse_hours] and [parse_hours_table] return a
    mapping whose keys are exactly the seven weekday names, and each of
    its values has exactly the keys [open] and [close]. *)
Theorem schedules_keep_their_shape :
  (forall hours_text : string,
     exists hours, parse_hours hours_text = Ok hours /\
       Dict.keys hours = weekdays /\
       Forall (fun times : Dict.t string => Dict.keys times = ["open"; "close"])
              (Dict.values hours)) /\
  (forall table : Table,
     Dict.keys (parse_hours_table table) = weekdays /\
     Forall (fun times : Dict.t string => Dict.keys times = ["open"; "close"])
            (Dict.values (parse_hours_table table))).
Proof.
  split.
  - intros hours_text. destruct (parse_hours_well_formed hours_text) as (h & E & Hk & Hv).
    by exists h.
  - intros table. apply parse_hours_table_well_formed.
Qed.

(** C7. When the statements under [try] of [parse_hours_table] raise, the
    failure is caught and the schedule returned has every weekday at
    [{open: "", close: ""}]. *)
Theorem parse_hours_table_failure (table : Table) :
  (parse_hours_table_body table default_hours).2 = Raise ->
  parse_hours_table table = every_day "" "".
Proof.
  unfold parse_hours_table, try_except.
  destruct (parse_hours_table_body_cases table) as [-> | (h & -> & _)]; [done|].
  intros [=].
Qed.

(** The spec's example: a closed Sunday and a Monday with times. *)
Example parse_hours_table_closed_sunday :
  parse_hours_table closed_sunday_table =
  [("sunday", open_close "Closed" "Closed"); ("monday", open_close "08:00" "17:00");
   ("tuesday", open_close "" ""); ("wednesday", open_close "" "");
   ("thursday", open_close "" ""); ("friday", open_close "" "");
   ("saturday", open_close "" "")].
Proof. vm_compute. reflexivity. Qed.

(** A table whose second row cannot be read, after a header row that can. *)
Lemma parse_hours_table_failure_witness :
  (parse_hours_table_body unreadable_table default_hours).2 = Raise /\
  parse_hours_table unreadable_table = every_day "" "".
Proof. split; [reflexivity | apply parse_hours_table_failure; reflexivity]. Defined.

(** ** The matcher *)

Module ReFacts.

Lemma is_suffix_refl (s : string) : is_suffix s s.
Proof. by exists "". Qed.

Lemma is_suffix_trans (a b c : string) : is_suffix a b -> is_suffix b c -> is_suffix a c.
Proof. intros [p ->] [q ->]. exists (q +:+ p). by rewrite PyFacts.app_assoc. Qed.

Section Failure.
(** When the continuation fails wherever the pattern may stop, the match
    fails. *)
Variable k : Re.cont.

Lemma rep_greedy_none p lo hi i s c :
  (forall j t c', is_suffix t s -> k j t c' = None) ->
  Re.rep_greedy p lo hi i s c k = None.
Proof.
  revert lo hi i. induction s as [|a s IH]; intros lo hi i Hk.
  - cbn. destruct lo; [apply Hk, is_suffix_refl | done].
  - cbn. assert (Hstop : match lo with 0 => k i (String a s) c | S _ => None end = None).
    { destruct lo; [apply Hk, is_suffix_refl | done]. }
    destruct (p a && Re.room hi); [|done].
    rewrite IH; [done|]. intros j t c' Ht. apply Hk.
    eapply is_suffix_trans; [exact Ht|]. by exists (String a "").
Qed.

Lemma rep_lazy_none p lo hi i s c :
  (forall j t c', is_suffix t s -> k j t c' = None) ->
  Re.rep_lazy p lo hi i s c k = None.
Proof.
  revert lo hi i. induction s as [|a s IH]; intros lo hi i Hk.
  - cbn. destruct lo; [|done]. by rewrite Hk by apply is_suffix_refl.
  - cbn. assert (Hmore : (if p a && Re.room hi
                          then Re.rep_lazy p (pred lo) (Re.less hi) (S i) s c k
                          else None) = None).
    { destruct (p a && Re.room hi); [|done]. apply IH. intros j t c' Ht. apply Hk.
      eapply is_suffix_trans; [exact Ht|]. by exists (String a ""). }
    destruct lo; [|done]. by rewrite Hk by apply is_suffix_refl.
Qed.

End Failure.

Lemma rmatch_none (r : Re.regex) (i : nat) (s : string) (c : Re.caps) (k : Re.cont) :
  (forall j t c', is_suffix t s -> k j t c' = None) ->
  Re.rmatch r i s c k = None.
Proof.
  revert i s c k.
  induction r as [|p|r1 IH1 r2 IH2|r1 IH1 r2 IH2|r IH|g p lo hi|n r IH| | |r IH];
    intros i s c k Hk; cbn.
  - apply Hk, is_suffix_refl.
  - destruct s as [|a s]; [done|]. destruct (p a); [|done].
    apply Hk. by exists (String a "").
  - apply IH1. intros j t c' Ht. apply IH2. intros j' t' c'' Ht'.
    apply Hk. by eapply is_suffix_trans.
  - by rewrite IH1, IH2.
  - rewrite IH; [|done]. apply Hk, is_suffix_refl.
  - destruct g; [by apply rep_greedy_none | by apply rep_lazy_none].
  - apply IH. intros j t c' Ht. by apply Hk.
  - destruct (i =? 0); [apply Hk, is_suffix_refl | done].
  - destruct s as [|a [|b s]]; [apply Hk, is_suffix_refl | | done].
    destruct (Py.char_eqb a "010"); [apply Hk, is_suffix_refl | done].
  - destruct (Re.rmatch r i s c _) as [[j c']|]; [|done]. apply Hk, is_suffix_refl.
Qed.

Lemma rmatch_cat_cons (r : Re.regex) (rs : list Re.regex) i s c k :
  Re.rmatch (Re.cat (r :: rs)) i s c k =
  Re.rmatch r i s c (fun j t c' => Re.rmatch (Re.cat rs) j t c' k).
Proof. by destruct rs. Qed.

(** When no attempt succeeds from here on, nothing is found. *)
Lemma finditer_go_none (r : Re.regex) (s : string) (i : nat) :
  (forall j t, is_suffix t s -> Re.match_at r false j t = None) ->
  Re.finditer_go r i s 0 = [].
Proof.
  revert i. induction s as [|a s IH]; intros i H.
  - cbn. by rewrite H by apply is_suffix_refl.
  - cbn. rewrite H by apply is_suffix_refl. apply IH.
    intros j t Ht. apply H. eapply is_suffix_trans; [exact Ht|]. by exists (String a "").
Qed.

End ReFacts.

(** ** HoursTextParser: the sentinel *)

#[local] Arguments Py.is_digit : simpl never.
#[local] Arguments Py.char_eqb : simpl never.
#[local] Arguments Py.is_space : simpl never.
#[local] Arguments Py.lower_char : simpl never.

Lemma lower_char_cases (c d : ascii) :
  Py.lower_char c = d -> c = d \/ c = Py.upper_char d.
Proof. intros <-. destruct c as [[] [] [] [] [] [] [] []]; vm_compute; auto. Qed.

Lemma startswith_lower_cons (a : ascii) (p s : string) :
  Py.startswith (String a p) (Py.lower s) = true ->
  exists b t, s = String b t /\ Py.lower_char b = a /\ Py.startswith p (Py.lower t) = true.
Proof.
  destruct s as [|b t]; [done|]. cbn [Py.lower Py.map_chars Py.startswith].
  intros [E H]%andb_prop. apply Ascii.eqb_eq in E. by exists b, t.
Qed.

Ltac split_prefix H :=
  repeat (apply startswith_lower_cons in H as (? & ? & -> & ?%lower_char_cases & H));
  repeat match goal with H : _ \/ _ |- _ => destruct H as [-> | ->] end.

Lemma slash_seven_matches (s : string) (i : nat) :
  Py.startswith "24/7" (Py.lower s) = true ->
  is_Some (Re.match_at re_always_open false i s).
Proof. intros H. split_prefix H; vm_compute; eauto. Qed.

Lemma hours_word_matches (s : string) (i : nat) :
  Py.startswith "24 hours" (Py.lower s) = true ->
  is_Some (Re.match_at re_always_open false i s).
Proof. intros H. split_prefix H; vm_compute; eauto. Qed.

Lemma always_open_found (s : string) (i : nat) :
  Py.contains "24/7" (Py.lower s) = true \/ Py.contains "24 hours" (Py.lower s) = true ->
  is_Some (Re.search_from re_always_open i s).
Proof.
  revert i. induction s as [|a s IH]; intros i H.
  - by destruct H.
  - cbn [Re.search_from].
    destruct (Re.match_at re_always_open false i (String a s)) as [[j c]|] eqn:E; [done|].
    apply IH.
    change (Py.lower (String a s)) with (String (Py.lower_char a) (Py.lower s)) in H.
    cbn [Py.contains] in H.
    destruct H as [[H|H]%orb_prop | [H|H]%orb_prop]; auto.
    + apply (slash_seven_matches (String a s) i) in H. rewrite E in H. by destruct H.
    + apply (hours_word_matches (String a s) i) in H. rewrite E in H. by destruct H.
Qed.

(** An always-open text yields the always-open schedule. *)
Lemma always_open_schedule (hours_text : string) :
  Py.truthy hours_text = true ->
  Re.matches re_always_open hours_text = true ->
  parse_hours hours_text = Ok (every_day "00:00" "23:59").
Proof. intros Ht Hm. unfold parse_hours. cbn zeta. by rewrite Ht, Hm. Qed.

Lemma always_open_matches (hours_text : string) :
  Py.contains "24/7" (Py.lower hours_text) = true \/
  Py.contains "24 hours" (Py.lower hours_text) = true ->
  Py.truthy hours_text = true /\ Re.matches re_always_open hours_text = true.
Proof.
  intros H. split.
  - destruct hours_text; [by destruct H | done].
  - unfold Re.matches, Re.search.
    by destruct (always_open_found hours_text 0 H) as [m ->].
Qed.

(** C6. For every hours text that contains "24/7" or "24 hours", in any
    letter case, [parse_hours] returns the schedule whose seven weekdays
    are all [{open: "00:00", close: "23:59"}]; whatever day ranges the
    text holds as well have no effect. *)
Theorem always_open_sentinel (hours_text : string) :
  Py.contains "24/7" (Py.lower hours_text) = true \/
  Py.contains "24 hours" (Py.lower hours_text) = true ->
  parse_hours hours_text = Ok (every_day "00:00" "23:59").
Proof.
  intros [Ht Hm]%always_open_matches. by apply always_open_schedule.
Qed.

Lemma always_open_sentinel_witness :
  Py.contains "24/7" (Py.lower "Open 24/7") = true /\
  parse_hours "Open 24/7" = Ok (every_day "00:00" "23:59").
Proof. split; [reflexivity | apply always_open_sentinel; left; reflexivity]. Defined.

(** The sentinel wins over a day range of the same text. *)
Example always_open_before_ranges :
  find_day_ranges "Mon-Fri: 9:00 AM - 5:00 PM, helpline 24 Hours" <> [] /\
  parse_hours "Mon-Fri: 9:00 AM - 5:00 PM, helpline 24 Hours" = Ok (every_day "00:00" "23:59").
Proof. split; [by vm_compute | by apply always_open_schedule]. Qed.

(** ** HoursTextParser: times need minutes *)

Lemma rep_greedy_full p lo i t c k :
  Re.rep_greedy p lo (Some 0) i t c k = match lo with 0 => k i t c | S _ => None end.
Proof. destruct t; cbn; [done|]. by rewrite andb_false_r. Qed.

Lemma after_hour_none (rest : list Re.regex) (u : string) j c k :
  colon_minutes u = false ->
  Re.rmatch (Re.cat (Re.Chr (Py.char_eqb ":") :: Re.Rep true Py.is_digit 2 (Some 2) :: rest))
    j u c k = None.
Proof.
  intros H. rewrite ReFacts.rmatch_cat_cons.
  destruct u as [|a u]; [done|]. cbn [Re.rmatch].
  destruct (Py.char_eqb ":" a) eqn:Ea; [|done].
  rewrite ReFacts.rmatch_cat_cons. cbn [Re.rmatch].
  destruct u as [|b u]; cbn [Re.rep_greedy Re.room Re.less fmap option_fmap option_map pred];
    [done|].
  destruct (Py.is_digit b) eqn:Eb; [|done]. cbn [andb].
  destruct u as [|d u]; cbn [Re.rep_greedy Re.room Re.less fmap option_fmap option_map pred];
    [done|].
  destruct (Py.is_digit d) eqn:Ed; [|done].
  cbn in H. by rewrite Ea, Eb, Ed in H.
Qed.

(** A time pattern [\d{1,2}:\d{2}...] fails on a text without minutes. *)
Lemma time_needs_minutes (rest : list Re.regex) (t : string) i c k :
  has_minutes t = false ->
  Re.rmatch (Re.cat (Re.times Py.is_digit 1 2 :: Re.Chr (Py.char_eqb ":")
                       :: Re.Rep true Py.is_digit 2 (Some 2) :: rest)) i t c k = None.
Proof.
  intros H.
  rewrite ReFacts.rmatch_cat_cons.
  destruct t as [|c1 t]; [done|].
  cbn [has_minutes] in H. apply orb_false_elim in H as [H0 H].
  cbn [Re.times Re.rmatch Re.rep_greedy Re.room Re.less fmap option_fmap option_map pred].
  destruct (Py.is_digit c1) eqn:E1; [|done]. cbn [andb].
  assert (Ht : Re.rmatch (Re.cat (Re.Chr (Py.char_eqb ":")
                  :: Re.Rep true Py.is_digit 2 (Some 2) :: rest)) (S i) t c k = None).
  { apply after_hour_none. destruct t as [|a [|b [|d u]]]; try done.
    cbn in H0. by rewrite E1 in H0. }
  destruct t as [|c2 t];
    cbn [Re.rep_greedy Re.room Re.less fmap option_fmap option_map pred andb];
    rewrite Ht; [done|].
  destruct (Py.is_digit c2) eqn:E2; [|done]. cbn [andb].
  rewrite rep_greedy_full. rewrite after_hour_none; [done|].
  cbn [has_minutes] in H. apply orb_false_elim in H as [H1 _].
  destruct t as [|b [|d [|e u]]]; try done.
  cbn in H1. by rewrite E2 in H1.
Qed.

Lemma has_minutes_suffix (t s : string) :
  is_suffix t s -> has_minutes s = false -> has_minutes t = false.
Proof.
  intros [p ->]. induction p as [|a p IH]; [done|].
  rewrite PyFacts.app_cons. cbn [has_minutes]. intros [_ H]%orb_false_elim. by apply IH.
Qed.

Lemma day_range_needs_minutes (t : string) (i : nat) :
  has_minutes t = false -> Re.match_at re_day_range false i t = None.
Proof.
  intros H. unfold Re.match_at, re_day_range.
  do 5 (rewrite ReFacts.rmatch_cat_cons; apply ReFacts.rmatch_none;
        intros ? ? ? ?%has_minutes_suffix; [|done]).
  rewrite ReFacts.rmatch_cat_cons. cbn [Re.rmatch]. by apply time_needs_minutes.
Qed.

Lemma no_minutes_no_range (hours_text : string) :
  has_minutes hours_text = false -> find_day_ranges hours_text = [].
Proof.
  intros H. unfold find_day_ranges, Re.finditer.
  rewrite ReFacts.finditer_go_none; [done|].
  intros j t Ht. apply day_range_needs_minutes. by eapply has_minutes_suffix.
Qed.

(** C10, as stated, fails: a text whose times lack minutes can still be
    an always-open text. *)
Lemma minutes_free_text_always_open :
  ~ (forall hours_text, has_minutes hours_text = false ->
       find_day_ranges hours_text = [] /\ parse_hours hours_text = Ok (every_day "" "")).
Proof.
  intros H. destruct (H "Mon-Fri: 9AM - 5PM, 24 hours by phone" eq_refl) as [_ E].
  vm_compute in E. discriminate.
Qed.

(** C10, amended. For every hours text whose times lack minutes, no day
    range is found, and [parse_hours] returns the schedule of empty
    defaults unless the text is an always-open text, which yields the
    always-open schedule. *)
Theorem minutes_are_required (hours_text : string) :
  has_minutes hours_text = false ->
  find_day_ranges hours_text = [] /\
  parse_hours hours_text =
    Ok (if Re.matches re_always_open hours_text
        then every_day "00:00" "23:59" else every_day "" "").
Proof.
  intros H. pose proof (no_minutes_no_range hours_text H) as E. split; [done|].
  unfold parse_hours. cbn zeta. rewrite E.
  destruct hours_text as [|a s]; [done|]. cbn [Py.truthy negb].
  by destruct (Re.matches re_always_open (String a s)).
Qed.

Lemma minutes_are_required_witness :
  has_minutes "Mon-Fri: 9AM - 5PM" = false /\
  find_day_ranges "Mon-Fri: 9AM - 5PM" = [] /\
  parse_hours "Mon-Fri: 9AM - 5PM" = Ok (every_day "" "").
Proof.
  split; [reflexivity | apply (minutes_are_required "Mon-Fri: 9AM - 5PM"); reflexivity].
Defined.

(** ** HoursTextParser: day ranges *)

(** The slice of [day_list] between two day numbers holds the days whose
    number, Monday being 0, lies between them. *)
Lemma covered_days (a b : nat) (day : string) :
  a < 7 -> b < 7 ->
  existsb (String.eqb day) (take (b + 1 - a) (drop a day_list)) =
  in_range (index monday_first) a b day.
Proof.
  intros Ha Hb.
  destruct a as [|[|[|[|[|[|[|a]]]]]]]; [..|lia];
  (destruct b as [|[|[|[|[|[|[|b]]]]]]]; [..|lia]);
  unfold in_range; cbn;
  (destruct (String.eqb_spec day "monday") as [->|?]; [reflexivity|]);
  (destruct (String.eqb_spec day "tuesday") as [->|?]; [reflexivity|]);
  (destruct (String.eqb_spec day "wednesday") as [->|?]; [reflexivity|]);
  (destruct (String.eqb_spec day "thursday") as [->|?]; [reflexivity|]);
  (destruct (String.eqb_spec day "friday") as [->|?]; [reflexivity|]);
  (destruct (String.eqb_spec day "saturday") as [->|?]; [reflexivity|]);
  (destruct (String.eqb_spec day "sunday") as [->|?]; reflexivity).
Qed.

Lemma day_mapping_none (k : string) :
  Dict.get day_mapping k = None -> in_list k day_list = false.
Proof.
  unfold in_list. cbn. repeat (destruct (String.eqb k _); [done|]). done.
Qed.

Lemma day_mapping_some (k day : string) :
  Dict.get day_mapping k = Some day -> exists n, index monday_first day = Ok n.
Proof.
  cbn. repeat (destruct (String.eqb k _); [intros [= <-]; by eexists|]). done.
Qed.

(** The loop over [range(start_idx, end_idx + 1)] for two named days. *)
Lemma apply_named_days (first last : string) (a b : nat) (times : Dict.t string)
    (hours : schedule) :
  index monday_first first = Ok a ->
  index monday_first last = Ok b ->
  exists hours',
    (if in_list first day_list && in_list last day_list then
       start_idx <- call (index day_list first) ;;
       end_idx <- call (index day_list last) ;;
       for_each (range start_idx (end_idx + 1)) (fun i =>
         day <- call (of_option (day_list !! i)) ;;
         modify (Dict.set day times))
     else ret tt) hours = (hours', Ok tt) /\
    forall day, Dict.get hours' day =
      if in_range (index monday_first) a b day then Some times else Dict.get hours day.
Proof.
  intros Ea Eb.
  pose proof (index_bound _ _ _ Ea) as Ha. pose proof (index_bound _ _ _ Eb) as Hb.
  cbn [length monday_first] in Ha, Hb.
  apply (index_app_l _ monday_first) in Ea, Eb. rewrite <- day_list_monday_first in Ea, Eb.
  rewrite (index_in_list _ _ _ Ea), (index_in_list _ _ _ Eb). cbn [andb].
  destruct (set_days_loop times (b + 1 - a) a hours) as (h' & E & Hget & _).
  { change (length day_list) with 14. lia. }
  exists h'. split.
  - unfold bind at 1. unfold call at 1. rewrite Ea.
    unfold bind at 1. unfold call at 1. rewrite Eb. exact E.
  - intros day. rewrite Hget. by rewrite covered_days.
Qed.

(** What one matched range does to the schedule. *)
Lemma apply_day_range_spec (m : day_range) (hours : schedule) :
  exists hours', apply_day_range m hours = (hours', Ok tt) /\
    forall day, Dict.get hours' day =
      if covers m day then Some (range_times m) else Dict.get hours day.
Proof.
  destruct m as [[[start_day end_day] open_time] close_time].
  unfold apply_day_range, covers, range_days, range_times, Dict.get_default.
  destruct (Dict.get day_mapping (Py.lower start_day)) as [first|] eqn:E1.
  2:{ rewrite (day_mapping_none _ E1). by exists hours. }
  destruct (day_mapping_some _ _ E1) as [a Ea]. rewrite Ea.
  destruct (Py.truthy end_day).
  - destruct (Dict.get day_mapping (Py.lower end_day)) as [last|] eqn:E2.
    + destruct (day_mapping_some _ _ E2) as [b Eb]. rewrite Eb.
      by apply apply_named_days.
    + rewrite (day_mapping_none _ E2), andb_false_r. by exists hours.
  - rewrite Ea. by apply apply_named_days.
Qed.

(** The whole loop: on each day the last range that covers it wins. *)
Lemma apply_day_ranges_spec (ms : list day_range) (hours : schedule) :
  exists hours', for_each ms apply_day_range hours = (hours', Ok tt) /\
    forall day, Dict.get hours' day = last_covering ms day (Dict.get hours day).
Proof.
  revert hours. induction ms as [|m ms IH]; intros hours.
  - by exists hours.
  - destruct (apply_day_range_spec m hours) as (h1 & E1 & H1).
    destruct (IH h1) as (h2 & E2 & H2).
    exists h2. split.
    + cbn [for_each]. unfold bind. by rewrite E1.
    + intros day. cbn [last_covering]. by rewrite H2, H1.
Qed.

(** X4. On a text that is not an always-open text [parse_hours] runs to
    its end, and every weekday gets the times of the last matched range
    that covers it, or keeps the empty default when no range does. *)
Lemma parse_hours_ranges (hours_text : string) :
  Re.matches re_always_open hours_text = false ->
  exists hours, parse_hours hours_text = Ok hours /\
    forall day, Dict.get hours day =
      last_covering (find_day_ranges hours_text) day (Dict.get (every_day "" "") day).
Proof.
  intros Hs. unfold parse_hours. cbn zeta. rewrite Hs.
  destruct hours_text as [|c s]; [by eexists|]. cbn [Py.truthy negb].
  destruct (apply_day_ranges_spec (find_day_ranges (String c s)) default_hours)
    as (h & E & H).
  exists h. unfold run. by rewrite E.
Qed.

Lemma parse_hours_ranges_witness :
  exists hours,
    parse_hours "Mon-Fri: 9:00AM - 5:00PM, Fri: 9:00AM - 1:00PM" = Ok hours /\
    forall day, Dict.get hours day =
      last_covering (find_day_ranges "Mon-Fri: 9:00AM - 5:00PM, Fri: 9:00AM - 1:00PM") day
        (Dict.get (every_day "" "") day).
Proof. apply parse_hours_ranges. reflexivity. Defined.

(** The spec's example: Monday to Friday are set, the week-end is not. *)
Example parse_hours_mon_fri :
  parse_hours "Mon-Fri: 9:00 AM - 5:00 PM" =
  Ok [("sunday", open_close "" ""); ("monday", open_close "09:00" "17:00");
      ("tuesday", open_close "09:00" "17:00"); ("wednesday", open_close "09:00" "17:00");
      ("thursday", open_close "09:00" "17:00"); ("friday", open_close "09:00" "17:00");
      ("saturday", open_close "" "")].
Proof. vm_compute. reflexivity. Qed.

(** A range from Sunday to Tuesday is matched and sets no day at all. *)
Example parse_hours_sun_tue :
  find_day_ranges "Sun-Tue: 9:00 AM - 5:00 PM" = [("Sun", "Tue", "9:00 AM", "5:00 PM")] /\
  parse_hours "Sun-Tue: 9:00 AM - 5:00 PM" = Ok (every_day "" "").
Proof. split; vm_compute; reflexivity. Qed.

(** C3, as stated, fails: with the days numbered from Sunday = 0 to
    Saturday = 6, the range "Sun-Tue" would have to set sunday, monday and
    tuesday, and it sets none of them. *)
Lemma day_range_not_sunday_first :
  ~ (forall (start_day end_day open_time close_time first last : string) (a b : nat)
            (hours : schedule),
       Dict.get day_mapping (Py.lower start_day) = Some first ->
       (if Py.truthy end_day then Dict.get day_mapping (Py.lower end_day)
        else Some first) = Some last ->
       index weekdays first = Ok a ->
       index weekdays last = Ok b ->
       exists hours',
         apply_day_range (start_day, end_day, open_time, close_time) hours = (hours', Ok tt) /\
         forall day, Dict.get hours' day =
           if in_range (index weekdays) a b day
           then Some (open_close (convert_to_24h open_time) (convert_to_24h close_time))
           else Dict.get hours day).
Proof.
  intros H.
  destruct (H "Sun" "Tue" "9:00 AM" "5:00 PM" "sunday" "tuesday" 0 2 default_hours
              eq_refl eq_refl eq_refl eq_refl) as (h & E & Hget).
  vm_compute in E. injection E as <-.
  specialize (Hget "sunday"). vm_compute in Hget. discriminate.
Qed.

(** C3, amended. For every matched day range whose day tokens name the
    weekdays [first] and [last], exactly the weekdays whose number lies
    between the number of [first] and the number of [last] inclusive,
    where the days are numbered from Monday = 0 to Sunday = 6 and a range
    does not wrap past the end of the week, receive the open/close pair
    of the range; every other day keeps what it had. *)
Theorem day_range_expansion
    (start_day end_day open_time close_time first last : string) (a b : nat)
    (hours : schedule) :
  Dict.get day_mapping (Py.lower start_day) = Some first ->
  (if Py.truthy end_day then Dict.get day_mapping (Py.lower end_day)
   else Some first) = Some last ->
  index monday_first first = Ok a ->
  index monday_first last = Ok b ->
  exists hours',
    apply_day_range (start_day, end_day, open_time, close_time) hours = (hours', Ok tt) /\
    forall day, Dict.get hours' day =
      if in_range (index monday_first) a b day
      then Some (open_close (convert_to_24h open_time) (convert_to_24h close_time))
      else Dict.get hours day.
Proof.
  intros E1 E2 Ea Eb.
  destruct (apply_day_range_spec (start_day, end_day, open_time, close_time) hours)
    as (h & E & H).
  exists h. split; [done|]. intros day. rewrite H.
  unfold covers, range_days, range_times. by rewrite E1, E2, Ea, Eb.
Qed.

Lemma day_range_expansion_witness :
  Dict.get day_mapping (Py.lower "Mon") = Some "monday" /\
  Dict.get day_mapping (Py.lower "Fri") = Some "friday" /\
  index monday_first "monday" = Ok 0 /\
  index monday_first "friday" = Ok 4 /\
  exists hours',
    apply_day_range ("Mon", "Fri", "9:00 AM", "5:00 PM") default_hours = (hours', Ok tt) /\
    forall day, Dict.get hours' day =
      if in_range (index monday_first) 0 4 day
      then Some (open_close (convert_to_24h "9:00 AM") (convert_to_24h "5:00 PM"))
      else Dict.get default_hours day.
Proof.
  do 4 (split; [reflexivity|]).
  apply (day_range_expansion "Mon" "Fri" "9:00 AM" "5:00 PM" "monday" "friday" 0 4);
    reflexivity.
Defined.

(** ** ServiceTaxonomyExtractor *)

Lemma extract_service_types_scan (soup : Soup) :
  extract_service_types soup = unique_services ∅ (scan_service_types soup).
Proof.
  unfold extract_service_types, scan_service_types.
  destruct (find_filter_container soup) as [fc|]; [|done].
  by destruct (find_accordion fc).
Qed.

Section Unique.
Implicit Types (seen : gset (string * string)) (l : list Service) (s : Service).

(** No entry that is kept has a key already seen. *)
Lemma unique_services_fresh seen l s :
  s ∈ unique_services seen l -> service_key s ∉ seen.
Proof.
  revert seen. induction l as [|s0 l IH]; intros seen; cbn.
  - by intros ?%elem_of_nil.
  - case_decide as Hk.
    + intros [->|Hs]%elem_of_cons; [done|]. apply IH in Hs. set_solver.
    + apply IH.
Qed.

Lemma unique_services_NoDup seen l : NoDup (service_key <$> unique_services seen l).
Proof.
  revert seen. induction l as [|s0 l IH]; intros seen; cbn.
  - constructor.
  - case_decide as Hk; [|apply IH]. rewrite fmap_cons. apply NoDup_cons. split; [|apply IH].
    intros (s & E & Hs)%list_elem_of_fmap. apply unique_services_fresh in Hs.
    apply Hs. rewrite <- E. unfold service_key. set_solver.
Qed.

Lemma unique_services_sublist seen l : unique_services seen l `sublist_of` l.
Proof.
  revert seen. induction l as [|s0 l IH]; intros seen; cbn; [done|].
  case_decide; [apply sublist_skip | apply sublist_cons]; apply IH.
Qed.

(** The entries kept are those met first with their key, the keys seen
    before the loop being excluded. *)
Lemma unique_services_first seen l s :
  s ∈ unique_services seen l <->
  ((service_key s ∉ seen) /\ first_of_its_key s l).
Proof.
  unfold first_of_its_key.
  revert seen. induction l as [|s0 l IH]; intros seen; cbn.
  - split; [by intros ?%elem_of_nil|]. intros (_ & pre & post & E & _). by destruct pre.
  - case_decide as Hk.
    + rewrite elem_of_cons, IH. split.
      * intros [Es|(Hs & pre & post & El & Hpre)].
        -- rewrite Es. split; [done|]. exists [], l. split; [done|]. apply not_elem_of_nil.
        -- apply not_elem_of_union in Hs as [Hne Hs]. split; [done|].
           exists (s0 :: pre), post. split; [by rewrite El|].
           rewrite fmap_cons. apply not_elem_of_cons. split; [|done].
           intros E. apply Hne, elem_of_singleton. by rewrite E.
      * intros (Hs & [|s1 pre] & post & E & Hpre); cbn in E; injection E as E1 E2.
        -- by left.
        -- right. rewrite fmap_cons in Hpre. apply not_elem_of_cons in Hpre as [Hne Hpre].
           split; [|by exists pre, post].
           apply not_elem_of_union. split; [|done].
           intros E'%elem_of_singleton. apply Hne. by rewrite E', E1.
    + rewrite IH. split.
      * intros (Hs & pre & post & El & Hpre). split; [done|].
        exists (s0 :: pre), post. split; [by rewrite El|]. rewrite fmap_cons.
        apply not_elem_of_cons. split; [|done]. intros E.
        apply Hs. rewrite E. exact Hk.
      * intros (Hs & [|s1 pre] & post & E & Hpre); cbn in E; injection E as E1 E2.
        -- exfalso. apply Hs. rewrite <- E1. exact Hk.
        -- split; [done|]. exists pre, post. split; [done|].
           rewrite fmap_cons in Hpre. by apply not_elem_of_cons in Hpre as [_ Hpre].
Qed.

End Unique.

(** Every key of the scan has an entry that is met first with it. *)
Lemma first_of_its_key_exists (l : list Service) (s : Service) :
  s ∈ l -> exists s', first_of_its_key s' l /\ service_key s' = service_key s.
Proof.
  intros Hs. apply (list_elem_of_fmap_2 service_key) in Hs.
  apply list_elem_of_split_l in Hs as (k1 & k2 & E & Hk1).
  apply fmap_app_inv in E as (pre & rest & Epre & E & El).
  symmetry in E. apply fmap_cons_inv in E as (s' & post & Es' & _ & Erest).
  exists s'. split; [|done]. exists pre, post. split; [by rewrite El, Erest|].
  by rewrite <- Es', <- Epre.
Qed.

(** Of two entries named "Detox" the first is kept, with its code and
    its description. *)
Example extract_service_types_sample :
  length (scan_service_types sample_soup) = 3 /\
  extract_service_types sample_soup =
  [ {| category := "Level of Care"; service_code := "WM"; service_name := "Detox";
       description := "Withdrawal management" |};
    {| category := "Level of Care"; service_code := ""; service_name := "Residential";
       description := "" |} ].
Proof. split; vm_compute; reflexivity. Qed.

(** C8. The list returned by [extract_service_types] has no two entries
    with the same (category, service_name) pair; it is a subsequence of
    the entries collected by the scan, so their order is kept; an entry
    is returned exactly when it is the first of the scan with its pair;
    and every pair of the scan is represented. *)
Theorem service_types_are_unique (soup : Soup) :
  NoDup (service_key <$> extract_service_types soup) /\
  extract_service_types soup `sublist_of` scan_service_types soup /\
  (forall service, service ∈ extract_service_types soup <->
                   first_of_its_key service (scan_service_types soup)) /\
  (forall service, service ∈ scan_service_types soup ->
     exists kept, kept ∈ extract_service_types soup /\
                  service_key kept = service_key service).
Proof.
  rewrite extract_service_types_scan. split; [|split; [|split]].
  - apply unique_services_NoDup.
  - apply unique_services_sublist.
  - intros service. rewrite unique_services_first.
    split; [by intros [_ ?] | intros ?; split; [apply not_elem_of_empty | done]].
  - intros service Hs. destruct (first_of_its_key_exists _ _ Hs) as (s' & Hf & E).
    exists s'. split; [|done]. apply unique_services_first.
    split; [apply not_elem_of_empty | done].
Qed.

(** ** The monad, continued *)

Lemma bind_seq {S A} (m m' : M S unit) (k k' : M S A) (s : S) :
  m s = m' s -> (forall s1, k s1 = k' s1) ->
  bind m (fun _ => k) s = bind m' (fun _ => k') s.
Proof. intros E H. unfold bind. rewrite E. by destruct (m' s) as [s1 [[]|]]. Qed.

Lemma bind_ret_unit {S} (m : M S unit) (s : S) : bind m (fun _ => ret tt) s = m s.
Proof. unfold bind, ret. by destruct (m s) as [s1 [[]|]]. Qed.

Lemma bind_call {S A B} (r : result A) (f : A -> M S B) (s : S) :
  bind (call r) f s = match r with Ok a => f a s | Raise => (s, Raise) end.
Proof. by destruct r. Qed.

Lemma bind_ret {S A B} (a : A) (f : A -> M S B) (s : S) : bind (ret a) f s = f a s.
Proof. reflexivity. Qed.

Lemma bind_skip {S A} (m : M S unit) (k : M S A) (s : S) :
  m s = (s, Ok tt) -> bind m (fun _ => k) s = k s.
Proof. intros E. unfold bind. by rewrite E. Qed.

Lemma bind_raise {S A B} (m : M S A) (f : A -> M S B) (s s' : S) :
  m s = (s', Raise) -> bind m f s = (s', Raise).
Proof. intros E. unfold bind. by rewrite E. Qed.

(** ** AgencyRecordExtractor: locality of the field groups *)

Section Local.
Context (F : list string).

Lemma local_ret {A} (a : A) : local_to F (ret a).
Proof. by split. Qed.

Lemma local_call {A} (r : result A) : local_to F (call r).
Proof. by split. Qed.

Lemma local_assign (k v : string) : k ∈ F -> local_to F (assign k v).
Proof.
  intros Hk. split; cbn.
  - intros d k' Hk'. apply DictFacts.get_set_ne. by intros ->.
  - intros d d' H. split; [done|]. intros k' Hk'. rewrite !DictFacts.get_set.
    case_decide; [done | by apply H].
  - intros d H. apply DictFacts.keys_set_present. by apply H.
Qed.

Lemma local_bind {A B} (m : M record A) (f : A -> M record B) :
  local_to F m -> (forall a, local_to F (f a)) -> local_to F (bind m f).
Proof.
  intros Hm Hf. split.
  - intros d k Hk. unfold bind. pose proof (local_frame F m Hm d k Hk) as E.
    destruct (m d) as [d1 [a|]]; [|done]. cbn in E.
    transitivity (Dict.get d1 k); [|done]. by apply (local_frame F (f a)).
  - intros d d' H. unfold bind. destruct (local_agree F m Hm d d' H) as [Er Ed].
    destruct (m d) as [d1 [a|]], (m d') as [d1' [a'|]]; cbn in Er, Ed; try done.
    injection Er as <-. by apply (local_agree F (f a)).
  - intros d H. unfold bind. pose proof (local_keys F m Hm d H) as E.
    destruct (m d) as [d1 [a|]]; [|done]. cbn [fst] in E.
    transitivity (Dict.keys d1); [|done].
    apply (local_keys F (f a)); [done|]. intros k Hk. rewrite E. by apply H.
Qed.

Lemma local_when_found {A} (x : option A) (body : A -> M record unit) :
  (forall a, local_to F (body a)) -> local_to F (when_found x body).
Proof. intros H. destruct x; [apply H | apply local_ret]. Qed.

Lemma local_for_each {A} (l : list A) (body : A -> M record unit) :
  (forall x, x ∈ l -> local_to F (body x)) -> local_to F (for_each l body).
Proof.
  induction l as [|x l IH]; intros H; cbn [for_each]; [apply local_ret|].
  apply local_bind; [apply H, list_elem_of_here|]. intros _. apply IH.
  intros y Hy. by apply H, list_elem_of_further.
Qed.

End Local.

Lemma local_mono {A} (F F' : list string) (m : M record A) :
  F ⊆ F' -> local_to F m -> local_to F' m.
Proof.
  intros Hsub Hm. split.
  - intros d k Hk. apply (local_frame F m Hm). intros ?. by apply Hk, Hsub.
  - intros d d' H. destruct (local_agree F m Hm d d') as [Er Ed].
    { intros k Hk. by apply H, Hsub. }
    split; [done|]. intros k Hk. destruct (decide (k ∈ F)) as [Hin|Hout]; [by apply Ed|].
    rewrite !(local_frame F m Hm) by done. by apply H.
  - intros d H. apply (local_keys F m Hm). intros k Hk. by apply H, Hsub.
Qed.

Ltac solve_elem := refine (bool_decide_unpack _ _); vm_compute; exact I.

Lemma store_hours_local (prefix : string) (hours : schedule) (F : list string) :
  well_formed hours ->
  (forall day, day ∈ weekdays ->
     prefix +:+ "_" +:+ day +:+ "_open" ∈ F /\ prefix +:+ "_" +:+ day +:+ "_close" ∈ F) ->
  local_to F (store_hours prefix hours).
Proof.
  intros [Hk Hv] HF. unfold store_hours. apply local_for_each.
  intros [day times] Hin.
  assert (Hday : day ∈ weekdays).
  { rewrite <- Hk. unfold Dict.keys. by apply (list_elem_of_fmap_2 fst) in Hin. }
  destruct (HF day Hday) as [Ho Hc].
  apply local_bind; [apply local_call|]. intros o.
  apply local_bind; [by apply local_assign|]. intros _.
  apply local_bind; [apply local_call|]. intros c.
  by apply local_assign.
Qed.

Lemma hour_fields_weekday (prefix day : string) :
  day ∈ weekdays ->
  prefix +:+ "_" +:+ day +:+ "_open" ∈ hour_fields prefix /\
  prefix +:+ "_" +:+ day +:+ "_close" ∈ hour_fields prefix.
Proof.
  intros H. unfold hour_fields, weekdays in *. cbn [map concat app].
  repeat (apply elem_of_cons in H as [->|H]; [split; set_solver|]).
  by apply elem_of_nil in H.
Qed.

Ltac solve_local :=
  repeat first
    [ apply local_ret
    | apply local_call
    | apply local_assign; solve_elem
    | apply local_bind; [|intros ?]
    | apply local_when_found; intros ?
    | match goal with
      | |- local_to _ (match ?x with _ => _ end) => destruct x
      end
    | progress cbv zeta ].

Lemma groups_local (agency_div : AgencyDiv) :
  Forall (fun p => local_to p.1 p.2) (agency_groups agency_div).
Proof.
  unfold agency_groups, in_listing.
  repeat apply Forall_cons_2; try apply Forall_nil_2; cbn [fst snd].
  1-6: unfold extract_name, extract_secondary_name, extract_address, extract_phone,
         extract_website, extract_wheelchair; solve_local.
  - unfold extract_agency_hours. solve_local.
    apply store_hours_local; [apply parse_hours_table_well_formed|].
    apply hour_fields_weekday.
  - unfold extract_beds. solve_local.
  - unfold extract_intake. solve_local.
    apply store_hours_local; [apply parse_hours_table_well_formed|].
    intros day Hd. destruct (hour_fields_weekday "intake_hours" day Hd).
    split; by apply list_elem_of_further.
  - unfold extract_populations. solve_local.
  - unfold extract_languages. solve_local.
  - unfold extract_last_update. solve_local.
Qed.

(** ** AgencyRecordExtractor: the body as a sequence of groups *)

Lemma in_listing_found (agency_div : AgencyDiv) (listing_div : Listing) group data :
  find_listing agency_div = Ok (Some listing_div) ->
  in_listing agency_div group data = group listing_div data.
Proof. intros E. unfold in_listing. by rewrite E. Qed.

Lemma in_listing_absent (agency_div : AgencyDiv) group data :
  find_listing agency_div = Ok None ->
  in_listing agency_div group data = (data, Ok tt).
Proof. intros E. unfold in_listing. by rewrite E. Qed.

Lemma in_listing_raised (agency_div : AgencyDiv) group data :
  find_listing agency_div = Raise ->
  in_listing agency_div group data = (data, Raise).
Proof. intros E. unfold in_listing. by rewrite E. Qed.

Lemma body_as_groups (agency_div : AgencyDiv) (data : record) :
  parse_agency_body agency_div data = for_each (agency_groups agency_div) snd data.
Proof.
  unfold parse_agency_body, agency_groups. cbn [for_each snd].
  assert (Hrest : forall d,
    (extract_beds agency_div ;; extract_intake agency_div ;;
     extract_populations agency_div ;; extract_languages agency_div ;;
     extract_last_update agency_div) d =
    (extract_beds agency_div ;; extract_intake agency_div ;;
     extract_populations agency_div ;; extract_languages agency_div ;;
     extract_last_update agency_div ;; ret tt) d).
  { intros d. do 4 (apply bind_seq; [done|]; intros ?). by rewrite bind_ret_unit. }
  rewrite bind_call.
  destruct (find_listing agency_div) as [[listing_div|]|] eqn:E.
  - cbn [when_found]. unfold extract_listing.
    do 6 (rewrite bind_assoc; apply bind_seq; [by rewrite (in_listing_found _ _ _ _ E)|];
          intros ?).
    apply bind_seq; [by rewrite (in_listing_found _ _ _ _ E)|]. apply Hrest.
  - cbn [when_found]. rewrite bind_ret, Hrest. symmetry.
    do 7 (rewrite bind_skip by (by apply in_listing_absent)). done.
  - symmetry. apply bind_raise. by apply in_listing_raised.
Qed.

Lemma elem_of_concat {A} (x : A) (ls : list (list A)) :
  x ∈ concat ls <-> exists l, x ∈ l /\ l ∈ ls.
Proof.
  split.
  - intros (l & Hl & Hx)%list_elem_of_In%in_concat. exists l.
    split; by apply list_elem_of_In.
  - intros (l & Hx & Hl). apply list_elem_of_In, in_concat. exists l.
    split; by apply list_elem_of_In.
Qed.

Lemma groups_frame (gs : groups) :
  Forall (fun p => local_to p.1 p.2) gs ->
  forall d k, (forall F g, (F, g) ∈ gs -> k ∉ F) ->
  Dict.get (for_each gs snd d).1 k = Dict.get d k.
Proof.
  induction gs as [|[F0 g0] gs IH]; intros Hloc d k Hk; [done|].
  apply Forall_cons in Hloc as [H0 Hloc]. cbn [fst snd] in H0.
  cbn [for_each snd]. unfold bind.
  pose proof (local_frame F0 g0 H0 d k (Hk F0 g0 (list_elem_of_here _ _))) as E.
  destruct (g0 d) as [d1 [[]|]]; cbn [fst] in *; [|done].
  transitivity (Dict.get d1 k); [|done]. apply IH; [done|].
  intros F g Hin. by apply (Hk F g), list_elem_of_further.
Qed.

Lemma groups_sequence (gs : groups) :
  Forall (fun p => local_to p.1 p.2) gs ->
  NoDup (concat gs.*1) ->
  forall d, (forall F g, (F, g) ∈ gs -> agree F d init_data) ->
  forall i F g k, gs !! i = Some (F, g) -> k ∈ F ->
    Dict.get (for_each gs snd d).1 k =
      if failed_before gs i then Dict.get init_data k else Dict.get (g init_data).1 k.
Proof.
  induction gs as [|[F0 g0] gs IH]; intros Hloc Hnd d Hd i F g k Hi Hk; [done|].
  apply Forall_cons in Hloc as [H0 Hloc]. cbn [fst snd] in H0.
  rewrite fmap_cons in Hnd. cbn [concat fst] in Hnd.
  apply NoDup_app in Hnd as (_ & Hdisj & Hnd).
  assert (Hother : forall F' g' k', (F', g') ∈ gs -> k' ∈ F' -> k' ∉ F0).
  { intros F' g' k' Hin Hk' Hk0. apply (Hdisj k' Hk0).
    apply elem_of_concat. exists F'. split; [done|].
    by apply (list_elem_of_fmap_2 fst) in Hin. }
  destruct (local_agree F0 g0 H0 d init_data) as [Er Ea].
  { apply (Hd F0 g0), list_elem_of_here. }
  cbn [for_each snd]. unfold bind. destruct i as [|i].
  - injection Hi as E1 E2. subst F g. cbn [failed_before take existsb].
    destruct (g0 d) as [d1 [[]|]]; cbn [fst snd] in *; [|by apply Ea].
    transitivity (Dict.get d1 k); [|by apply Ea]. apply groups_frame; [done|].
    intros F' g' Hin Hk'. by apply (Hother F' g' k).
  - cbn [lookup list_lookup] in Hi.
    assert (Hin : (F, g) ∈ gs) by by eapply list_elem_of_lookup_2.
    unfold failed_before. cbn [take existsb snd]. fold (failed_before gs i).
    unfold raises at 1. rewrite <- Er.
    destruct (g0 d) as [d1 [[]|]] eqn:E0; cbn [fst snd is_ok negb orb].
    + apply (IH Hloc Hnd d1) with (F := F); [|done..]. intros F' g' Hin' k' Hk'.
      pose proof (local_frame F0 g0 H0 d k' (Hother F' g' k' Hin' Hk')) as Ef.
      rewrite E0 in Ef. cbn [fst] in Ef. rewrite Ef. exact (Hd F' g' (list_elem_of_further _ _ _ Hin') k' Hk').
    + pose proof (local_frame F0 g0 H0 d k (Hother F g k Hin Hk)) as Ef.
      rewrite E0 in Ef. cbn [fst] in Ef. rewrite Ef. exact (Hd F g (list_elem_of_further _ _ _ Hin) k Hk).
Qed.

Lemma agency_fields_NoDup (agency_div : AgencyDiv) :
  NoDup (concat (agency_groups agency_div).*1).
Proof. refine (bool_decide_unpack _ _). vm_compute. exact I. Qed.

Lemma parse_agency_data_groups (agency_div : AgencyDiv) :
  parse_agency_data agency_div = (for_each (agency_groups agency_div) snd init_data).1.
Proof. unfold parse_agency_data, try_except. by rewrite body_as_groups. Qed.

Lemma init_data_default (k : string) :
  k ∈ Dict.keys init_data -> Dict.get init_data k = Some "".
Proof.
  intros H. vm_compute in H.
  repeat (apply elem_of_cons in H as [->|H]; [reflexivity|]).
  by apply elem_of_nil in H.
Qed.

Lemma agency_fields_keys (agency_div : AgencyDiv) (k : string) :
  k ∈ concat (agency_groups agency_div).*1 -> k ∈ Dict.keys init_data.
Proof.
  intros H. vm_compute in H.
  repeat (apply elem_of_cons in H as [->|H]; [solve_elem|]).
  by apply elem_of_nil in H.
Qed.

(** C1, as stated, fails: in [broken_name_agency] the name group raises,
    and the bed group, which on its own extracts "3 beds", is never
    reached. *)
Lemma groups_are_not_isolated :
  ~ (forall (agency_div : AgencyDiv) (j : nat) (Fj : list string) (gj : M record unit)
            (i : nat) (Fi : list string) (gi : M record unit) (k : string),
       agency_groups agency_div !! j = Some (Fj, gj) -> raises gj = true ->
       i <> j ->
       agency_groups agency_div !! i = Some (Fi, gi) -> k ∈ Fi ->
       Dict.get (parse_agency_data agency_div) k = Dict.get (try_except gi init_data) k).
Proof.
  intros H.
  assert (E : Dict.get (parse_agency_data broken_name_agency) "available_beds" =
              Dict.get (try_except (extract_beds broken_name_agency) init_data)
                "available_beds").
  { apply (H broken_name_agency 0 ["agency_name"]
             (in_listing broken_name_agency extract_name)
             7 ["available_beds"] (extract_beds broken_name_agency));
      [reflexivity | reflexivity | lia | reflexivity | solve_elem]. }
  vm_compute in E. discriminate.
Qed.

(** C1, amended. The field groups run in order under a single [try]. A
    missing element in one group leaves the other groups as they are; an
    exception raised in one group ends the extraction: the fields of the
    groups before it, and of the failing group itself, are what each of
    these groups yields on its own, and the fields of every later group
    stay at the empty default. *)
Theorem extraction_stops_at_first_failure
    (agency_div : AgencyDiv) (i : nat) (F : list string) (g : M record unit) (k : string) :
  agency_groups agency_div !! i = Some (F, g) ->
  k ∈ F ->
  Dict.get (parse_agency_data agency_div) k =
    if failed_before (agency_groups agency_div) i then Some ""
    else Dict.get (try_except g init_data) k.
Proof.
  intros Hi Hk. rewrite parse_agency_data_groups.
  rewrite (groups_sequence _ (groups_local agency_div) (agency_fields_NoDup agency_div)
             init_data (fun _ _ _ _ _ => eq_refl) i F g k Hi Hk).
  destruct (failed_before _ _); [|done].
  apply init_data_default, (agency_fields_keys agency_div).
  apply elem_of_concat. exists F. split; [done|].
  apply list_elem_of_lookup_2 in Hi. by apply (list_elem_of_fmap_2 fst) in Hi.
Qed.

Lemma extraction_stops_at_first_failure_witness :
  agency_groups broken_name_agency !! 7 =
    Some (["available_beds"], extract_beds broken_name_agency) /\
  "available_beds" ∈ ["available_beds"] /\
  Dict.get (parse_agency_data broken_name_agency) "available_beds" = Some "" /\
  Dict.get (try_except (extract_beds broken_name_agency) init_data) "available_beds"
    = Some "3 beds".
Proof.
  split; [reflexivity|]. split; [solve_elem|]. split; [|reflexivity].
  apply (extraction_stops_at_first_failure broken_name_agency 7 ["available_beds"]
           (extract_beds broken_name_agency) "available_beds"); [reflexivity | solve_elem].
Defined.

(** ** AgencyRecordExtractor: the fixed key set *)

Lemma groups_local_all (agency_div : AgencyDiv) :
  local_to (Dict.keys init_data) (for_each (agency_groups agency_div) snd).
Proof.
  apply local_for_each. intros [F g] Hin. cbn [snd].
  apply (local_mono F).
  - intros k Hk. apply (agency_fields_keys agency_div), elem_of_concat.
    exists F. split; [done|]. by apply (list_elem_of_fmap_2 fst) in Hin.
  - pose proof (groups_local agency_div) as H. rewrite Forall_forall in H.
    by apply (H (F, g)).
Qed.

Lemma no_sections_defaults (agency_div : AgencyDiv) :
  no_sections agency_div -> parse_agency_data agency_div = init_data.
Proof.
  intros (Hl & Hb & Hi & Hs & Hg & Hu).
  unfold parse_agency_data, try_except, parse_agency_body, extract_beds, extract_intake,
    extract_populations, extract_languages, extract_last_update.
  rewrite Hb, Hi, Hs, Hg, Hu, bind_call.
  destruct Hl as [-> | (l & -> & H1 & H2 & H3 & H4 & H5 & H6 & H7)]; [done|].
  cbn [when_found]. unfold extract_listing, extract_name, extract_secondary_name,
    extract_address, extract_phone, extract_website, extract_wheelchair,
    extract_agency_hours.
  by rewrite H1, H2, H3, H4, H5, H6, H7.
Qed.

(** C4. For every agency sub-tree [parse_agency_data] returns a record
    with the same keys: the 11 identity and operational fields and the
    2 x 7 x 2 = 28 hour fields, all distinct; and when every sub-section is
    absent, every key holds the empty string. *)
Theorem record_keys_are_fixed (agency_div : AgencyDiv) :
  Dict.keys (parse_agency_data agency_div) = agency_record_keys /\
  length agency_record_keys = 11 + 2 * 7 * 2 /\
  NoDup agency_record_keys /\
  (no_sections agency_div ->
   Forall (fun k => Dict.get (parse_agency_data agency_div) k = Some "") agency_record_keys).
Proof.
  split; [|split; [reflexivity|split]].
  - rewrite parse_agency_data_groups.
    by apply (local_keys _ _ (groups_local_all agency_div)).
  - refine (bool_decide_unpack _ _). vm_compute. exact I.
  - intros ->%no_sections_defaults. apply Forall_forall. intros k Hk.
    by apply init_data_default.
Qed.

Lemma record_keys_are_fixed_witness :
  no_sections empty_agency /\
  Dict.keys (parse_agency_data empty_agency) = agency_record_keys /\
  Forall (fun k => Dict.get (parse_agency_data empty_agency) k = Some "") agency_record_keys.
Proof.
  assert (H : no_sections empty_agency) by (by repeat split; try left).
  split; [exact H|].
  destruct (record_keys_are_fixed empty_agency) as (Hk & _ & _ & Hd).
  split; [exact Hk | exact (Hd H)].
Defined.

(** An absent wheelchair block leaves the field empty; a block that does
    not say yes gives "No". *)
Example wheelchair_absent_or_no :
  Dict.get (parse_agency_data empty_agency) "agency_wheelchair_access" = Some "" /\
  Dict.get (parse_agency_data no_wheelchair_agency) "agency_wheelchair_access" = Some "No" /\
  Dict.get (parse_agency_data no_wheelchair_agency) "agency_name" = Some "Hope House".
Proof. repeat split; vm_compute; reflexivity. Qed.

(** ** The matcher, continued *)

Lemma take_app (u t : string) : Py.take (String.length u) (u +:+ t) = u.
Proof. induction u as [|a u IH]; [by destruct t|]. rewrite PyFacts.app_cons. cbn. by rewrite IH. Qed.



(** A greedy repetition takes the whole run of the class when the rest of
    the pattern accepts what follows. *)
Lemma rep_greedy_max p lo i (u t : string) c k x :
  all_chars p u = true -> stops p t = true -> lo <= String.length u ->
  k (i + String.length u) t c = Some x ->
  Re.rep_greedy p lo None i (u +:+ t) c k = Some x.
Proof.
  revert lo i. induction u as [|a u IH]; intros lo i Hu Ht Hlo Hk.
  - cbn in Hlo. assert (lo = 0) as -> by lia. cbn [String.length] in Hk.
    rewrite Nat.add_0_r in Hk. change ("" +:+ t) with t.
    destruct t as [|b t]; cbn; [done|]. cbn in Ht. apply negb_true_iff in Ht.
    by rewrite Ht.
  - rewrite PyFacts.app_cons. cbn [all_chars] in Hu. apply andb_prop in Hu as [Ha Hu].
    cbn [Re.rep_greedy]. rewrite Ha. cbn [andb Re.room].
    change (Re.less None) with (@None nat).
    rewrite (IH (pred lo) (S i)); [done | done | done | cbn in Hlo; lia |].
    cbn [String.length] in Hk. by rewrite Nat.add_succ_r in Hk.
Qed.

(** A match at some position of the text is enough for [re.search] to
    succeed. *)
Lemma search_from_later (r : Re.regex) (pre t : string) (i : nat) :
  is_Some (Re.match_at r false (i + String.length pre) t) ->
  is_Some (Re.search_from r i (pre +:+ t)).
Proof.
  revert i. induction pre as [|a pre IH]; intros i H.
  - cbn [String.length] in H. rewrite Nat.add_0_r in H. change ("" +:+ t) with t.
    destruct H as [[j c] H]. destruct t; cbn [Re.search_from]; by rewrite H.
  - rewrite PyFacts.app_cons. cbn [Re.search_from].
    destruct (Re.match_at r false i _) as [[j c]|]; [done|].
    apply IH. cbn [String.length] in H. by rewrite Nat.add_succ_r in H.
Qed.





(** A lazy repetition stops at the first length the rest of the pattern
    accepts. *)
Lemma rep_lazy_first p lo i (u t : string) c k x :
  all_chars p u = true -> lo <= String.length u ->
  (forall n, lo <= n < String.length u -> k (i + n) (Py.drop n (u +:+ t)) c = None) ->
  k (i + String.length u) t c = Some x ->
  Re.rep_lazy p lo None i (u +:+ t) c k = Some x.
Proof.
  revert lo i. induction u as [|a u IH]; intros lo i Hu Hlo Hnone Hk.
  - cbn in Hlo. assert (lo = 0) as -> by lia. cbn [String.length] in Hk.
    rewrite Nat.add_0_r in Hk. change ("" +:+ t) with t.
    destruct t as [|b t]; cbn; by rewrite Hk.
  - rewrite PyFacts.app_cons. cbn [all_chars] in Hu. apply andb_prop in Hu as [Ha Hu].
    cbn [String.length] in *.
    assert (Hrec : Re.rep_lazy p (pred lo) None (S i) (u +:+ t) c k = Some x).
    { apply IH; [done | lia | | by rewrite Nat.add_succ_r in Hk].
      intros n Hn. specialize (Hnone (S n)). rewrite PyFacts.app_cons in Hnone.
      cbn [Py.drop] in Hnone. rewrite Nat.add_succ_r in Hnone. apply Hnone. lia. }
    cbn [Re.rep_lazy]. rewrite Ha. cbn [andb Re.room]. change (Re.less None) with (@None nat).
    destruct lo as [|lo]; [|done].
    specialize (Hnone 0). rewrite Nat.add_0_r in Hnone. cbn [Py.drop] in Hnone.
    rewrite PyFacts.app_cons in Hnone. rewrite Hnone; [done | lia].
Qed.

(** A repetition that succeeds has consumed characters of the class and
    handed the rest to the continuation. *)
Lemma rep_greedy_inv p lo hi i s c k x :
  Re.rep_greedy p lo hi i s c k = Some x ->
  exists n, lo <= n <= String.length s /\ all_chars p (Py.take n s) = true /\
            k (i + n) (Py.drop n s) c = Some x.
Proof.
  revert lo hi i. induction s as [|a s IH]; intros lo hi i H.
  - cbn in H. destruct lo; [|done]. exists 0. rewrite Nat.add_0_r. by repeat split.
  - cbn [Re.rep_greedy] in H.
    assert (Hstop : match lo with 0 => k i (String a s) c | S _ => None end = Some x ->
              exists n, lo <= n <= String.length (String a s) /\
                all_chars p (Py.take n (String a s)) = true /\
                k (i + n) (Py.drop n (String a s)) c = Some x).
    { destruct lo; [|done]. intros Hk. exists 0. rewrite Nat.add_0_r.
      repeat split; [lia | cbn; lia | done]. }
    destruct (p a && Re.room hi) eqn:E; [|by apply Hstop].
    apply andb_prop in E as [Ha _].
    destruct (Re.rep_greedy p (pred lo) (Re.less hi) (S i) s c k) as [y|] eqn:Er;
      [|by apply Hstop].
    injection H as ->. apply IH in Er as (n & Hn & Hall & Hk).
    exists (S n). cbn [String.length Py.take Py.drop all_chars]. rewrite Ha, Hall.
    rewrite Nat.add_succ_r. repeat split; [lia | lia | done].
Qed.

Lemma rep_lazy_inv p lo hi i s c k x :
  Re.rep_lazy p lo hi i s c k = Some x ->
  exists n, lo <= n <= String.length s /\ all_chars p (Py.take n s) = true /\
            k (i + n) (Py.drop n s) c = Some x.
Proof.
  revert lo hi i. induction s as [|a s IH]; intros lo hi i H.
  - cbn in H. destruct lo; [|done]. destruct (k i "" c) eqn:E; [|done].
    injection H as ->. exists 0. rewrite Nat.add_0_r. by repeat split.
  - cbn [Re.rep_lazy] in H.
    assert (Hmore : (if p a && Re.room hi
                     then Re.rep_lazy p (pred lo) (Re.less hi) (S i) s c k
                     else None) = Some x ->
              exists n, lo <= n <= String.length (String a s) /\
                all_chars p (Py.take n (String a s)) = true /\
                k (i + n) (Py.drop n (String a s)) c = Some x).
    { destruct (p a && Re.room hi) eqn:E; [|done]. apply andb_prop in E as [Ha _].
      intros (n & Hn & Hall & Hk)%IH.
      exists (S n). cbn [String.length Py.take Py.drop all_chars]. rewrite Ha, Hall.
      rewrite Nat.add_succ_r. repeat split; [lia | lia | done]. }
    destruct lo as [|lo]; [|by apply Hmore].
    destruct (k i (String a s) c) as [y|] eqn:E; [|by apply Hmore].
    injection H as ->. exists 0. rewrite Nat.add_0_r.
    repeat split; [lia | cbn; lia | done].
Qed.







(** ** TimeNormalizer: the normal form *)

Lemma upper_char_plain (c : ascii) :
  Py.is_space (Py.upper_char c) = false -> plain (Py.upper_char c) = true.
Proof. destruct c as [[] [] [] [] [] [] [] []]; vm_compute; congruence. Qed.

Lemma normal_form_plain (s : string) : all_chars plain (remove_spaces (Py.upper s)) = true.
Proof.
  induction s as [|c s IH]; [done|].
  change (Py.upper (String c s)) with (String (Py.upper_char c) (Py.upper s)).
  cbn [remove_spaces]. destruct (Py.is_space (Py.upper_char c)) eqn:E; [done|].
  cbn [all_chars]. by rewrite upper_char_plain, IH.
Qed.

(** X2. [convert_to_24h] looks at a token through its upper-cased text
    without white space only: the token and that text convert alike, so
    that tokens differing in letter case and spacing have one result. *)
Theorem convert_to_24h_case_and_spacing (time_str : string) :
  convert_to_24h (remove_spaces (Py.upper time_str)) = convert_to_24h time_str.
Proof.
  unfold convert_to_24h. cbn zeta. rewrite !squeeze_upper_spec.
  by rewrite (squeeze_plain _ (normal_form_plain time_str)).
Qed.

Lemma has_char_remove_spaces (a : ascii) (s : string) :
  Py.has_char a s = false -> Py.has_char a (remove_spaces s) = false.
Proof.
  induction s as [|c s IH]; [done|]. cbn [Py.has_char remove_spaces].
  intros [Hc Hs]%orb_false_elim. destruct (Py.is_space c); [by apply IH|].
  cbn [Py.has_char]. by rewrite Hc, IH.
Qed.

Lemma contains_second_char (a b : ascii) (s : string) :
  Py.has_char b s = false -> Py.contains (String a (String b "")) s = false.
Proof.
  induction s as [|c s IH]; [done|]. cbn [Py.has_char Py.contains Py.startswith].
  intros [Hc Hs]%orb_false_elim. rewrite (IH Hs), orb_false_r.
  destruct s as [|d s]; [by rewrite andb_false_r|].
  cbn [Py.has_char] in Hs. apply orb_false_elim in Hs as [Hd _].
  cbn [Py.startswith]. by rewrite Hd, andb_false_r.
Qed.

(** X3. The patterns [[AP]M?] allow a marker without its M, and
    [convert_to_24h] converts only on "AM" and "PM": a token without the
    letter M, such as "8:00P", is never converted, it comes back in its
    normal form. *)
Theorem marker_without_m_is_kept (time_str : string) :
  Py.has_char "M" (Py.upper time_str) = false ->
  convert_to_24h time_str = remove_spaces (Py.upper time_str).
Proof.
  intros H. rewrite <- squeeze_upper_spec. apply convert_to_24h_fallback.
  unfold recognized. cbn zeta. rewrite squeeze_upper_spec.
  apply has_char_remove_spaces in H.
  by rewrite !contains_second_char.
Qed.

Lemma marker_without_m_is_kept_witness :
  Py.has_char "M" (Py.upper "8:00 p") = false /\ convert_to_24h "8:00 p" = "8:00P".
Proof. split; [reflexivity | apply marker_without_m_is_kept; reflexivity]. Defined.

(** ** HoursTextParser: the sentinel, continued *)

Lemma lower_cons_inv (a : ascii) (p s : string) :
  Py.lower s = String a p ->
  exists b t, s = String b t /\ (b = a \/ b = Py.upper_char a) /\ Py.lower t = p.
Proof.
  destruct s as [|b t]; [done|]. cbn [Py.lower Py.map_chars].
  intros [= E%lower_char_cases H]. by exists b, t.
Qed.

Lemma lower_nil_inv (s : string) : Py.lower s = "" -> s = "".
Proof. by destruct s. Qed.

Ltac split_word H :=
  repeat (apply lower_cons_inv in H as (? & ? & -> & ? & H));
  apply lower_nil_inv in H as ->;
  repeat match goal with H : _ \/ _ |- _ => destruct H as [-> | ->] end.

(** Evaluation of the tests on known characters. *)
Ltac eval_chars :=
  repeat match goal with
  | |- context [Py.upper_char ?x] =>
      let y := eval vm_compute in (Py.upper_char x) in change (Py.upper_char x) with y
  end;
  repeat match goal with
  | |- context [Py.char_eqb (Py.lower_char ?x) (Py.lower_char ?y)] =>
      let v := eval vm_compute in (Py.char_eqb (Py.lower_char x) (Py.lower_char y)) in
      change (Py.char_eqb (Py.lower_char x) (Py.lower_char y)) with v
  end;
  cbv iota.

Lemma run_then_seven_matches (s : string) (i : nat) :
  Py.startswith "247" (Py.lower s) = true ->
  is_Some (Re.match_at re_always_open false i s).
Proof. intros H. split_prefix H; vm_compute; eauto. Qed.

Lemma spaced_hours_matches (a ws b post : string) (i : nat) :
  Py.lower a = "24" -> Py.lower b = "hours" -> all_chars Py.is_space ws = true ->
  is_Some (Re.match_at re_always_open false i (a +:+ ws +:+ b +:+ post)).
Proof.
  intros Ha Hb Hws. split_word Ha; split_word Hb;
  rewrite !PyFacts.app_cons; change ("" +:+ ?x) with x;
  unfold Re.match_at, re_always_open; cbn [Re.rmatch];
  (match goal with |- is_Some (match ?e with _ => _ end) => destruct e; [done|] end);
  cbv [Re.cat Re.lit_i Re.lit_chars Re.chr_i Re.star]; cbn [Re.rmatch];
  eval_chars;
  (erewrite rep_greedy_max; [done | exact Hws | reflexivity | lia |]);
  eval_chars; reflexivity.
Qed.

Lemma always_open_variant_found (s : string) (i : nat) :
  Py.contains "247" (Py.lower s) = true -> is_Some (Re.search_from re_always_open i s).
Proof.
  revert i. induction s as [|a s IH]; intros i H; [done|].
  cbn [Re.search_from].
  destruct (Re.match_at re_always_open false i (String a s)) as [[j c]|] eqn:E; [done|].
  apply IH.
  change (Py.lower (String a s)) with (String (Py.lower_char a) (Py.lower s)) in H.
  cbn [Py.contains] in H. apply orb_prop in H as [H|H]; [|done].
  apply (run_then_seven_matches (String a s) i) in H. rewrite E in H. by destruct H.
Qed.

(** X5. The sentinel pattern [24/?7|24\s*hours] makes the slash optional
    and allows any white space, or none, before "hours": a text that
    contains "247", or "24" and "hours" with only white space between
    them, in any letter case, is an always-open text as well. *)
Theorem always_open_without_slash_or_space (hours_text : string) :
  Py.contains "247" (Py.lower hours_text) = true \/
  (exists pre a ws b post, hours_text = pre +:+ a +:+ ws +:+ b +:+ post /\
     Py.lower a = "24" /\ Py.lower b = "hours" /\ all_chars Py.is_space ws = true) ->
  parse_hours hours_text = Ok (every_day "00:00" "23:59").
Proof.
  intros H. apply always_open_schedule.
  - destruct H as [H | (pre & a & ws & b & post & -> & Ha & _)].
    + by destruct hours_text.
    + destruct pre; [|done]. by destruct a.
  - unfold Re.matches, Re.search.
    destruct H as [H | (pre & a & ws & b & post & -> & Ha & Hb & Hws)].
    + by destruct (always_open_variant_found hours_text 0 H) as [m ->].
    + destruct (search_from_later re_always_open pre (a +:+ ws +:+ b +:+ post) 0
                  (spaced_hours_matches a ws b post _ Ha Hb Hws)) as [m ->].
      done.
Qed.

Lemma always_open_without_slash_or_space_witness :
  parse_hours "Phone 555-2470" = Ok (every_day "00:00" "23:59") /\
  parse_hours ("Open " +:+ "24" +:+ "" +:+ "Hours" +:+ " daily") = Ok (every_day "00:00" "23:59").
Proof.
  split.
  - apply always_open_without_slash_or_space. left. reflexivity.
  - apply always_open_without_slash_or_space. right.
    exists "Open ", "24", "", "Hours", " daily". repeat split.
Defined.

(** ** HoursTableParser: the columns *)



(** A column whose header names another day, or no day, leaves the day
    alone. *)
Lemma apply_table_cell_other (cell : string * string) (hours : schedule) (day : string) :
  Dict.get table_day_mapping (Py.lower cell.1) <> Some day ->
  Dict.get (apply_table_cell cell hours).1 day = Dict.get hours day.
Proof.
  destruct cell as [header time_cell]. cbn [fst]. intros Hne. unfold apply_table_cell.
  destruct (Dict.get table_day_mapping (Py.lower header)) as [day_key|]; [|done].
  assert (day_key <> day) by congruence.
  destruct (Py.truthy day_key); [|done].
  destruct (Py.contains "closed" (Py.lower time_cell)).
  { by apply DictFacts.get_set_ne. }
  destruct (Re.search re_table_times time_cell); [|done].
  by apply DictFacts.get_set_ne.
Qed.

Lemma apply_table_cell_ok (cell : string * string) (hours : schedule) :
  (apply_table_cell cell hours).2 = Ok tt.
Proof.
  destruct cell as [header time_cell]. unfold apply_table_cell.
  repeat case_match; done.
Qed.

Lemma table_loop_other (cells : list (string * string)) (hours : schedule) (day : string) :
  (forall cell, cell ∈ cells -> Dict.get table_day_mapping (Py.lower cell.1) <> Some day) ->
  Dict.get (for_each cells apply_table_cell hours).1 day = Dict.get hours day.
Proof.
  revert hours. induction cells as [|cell cells IH]; intros hours H; [done|].
  cbn [for_each]. unfold bind.
  pose proof (apply_table_cell_ok cell hours) as Eo.
  pose proof (apply_table_cell_other cell hours day (H cell (list_elem_of_here _ _))) as Eg.
  destruct (apply_table_cell cell hours) as [h1 r]. cbn [fst snd] in *. subst r.
  rewrite IH; [done|]. intros c Hc. by apply H, list_elem_of_further.
Qed.


(** The schedule of a table whose two first rows can be read. *)
Lemma parse_hours_table_readable (table : Table) (header_row times_row : Row)
    (rest : list Row) (headers times : list string) :
  table_rows table = Ok (header_row :: times_row :: rest) ->
  row_texts header_row = Ok headers ->
  row_texts times_row = Ok times ->
  parse_hours_table table = (for_each (zip headers times) apply_table_cell default_hours).1.
Proof.
  intros Er Eh Et. unfold parse_hours_table, try_except, parse_hours_table_body.
  by rewrite Er, bind_call, Eh, bind_call, Et, bind_call.
Qed.

(** X6. The headers of an hours table are compared, in lower case, with
    the seven abbreviations "sun" to "sat" only: a weekday that no header
    names in this way keeps its empty default, whatever the cells say, so
    that a table whose headers spell the days in full sets nothing. *)
Theorem table_headers_are_abbreviations
    (table : Table) (header_row times_row : Row) (rest : list Row)
    (headers times : list string) (day : string) :
  table_rows table = Ok (header_row :: times_row :: rest) ->
  row_texts header_row = Ok headers ->
  row_texts times_row = Ok times ->
  (forall header, header ∈ headers ->
     Dict.get table_day_mapping (Py.lower header) <> Some day) ->
  Dict.get (parse_hours_table table) day = Dict.get default_hours day.
Proof.
  intros Er Eh Et Hno.
  rewrite (parse_hours_table_readable _ _ _ _ _ _ Er Eh Et).
  apply table_loop_other. intros [header time_cell] Hin. cbn [fst].
  apply Hno. apply elem_of_zip_l in Hin. exact Hin.
Qed.

Lemma table_headers_are_abbreviations_witness :
  Dict.get (parse_hours_table full_names_table) "monday" = Some (open_close "" "").
Proof.
  apply (table_headers_are_abbreviations full_names_table _ _ _ _ _ "monday"
           eq_refl eq_refl eq_refl).
  intros header Hin.
  repeat (apply elem_of_cons in Hin as [->|Hin]; [by vm_compute|]).
  by apply elem_of_nil in Hin.
Defined.



(** ** AgencyRecordExtractor: what the groups store *)

(** The value of a field after the whole extraction, from the group that
    owns the field alone. *)
Lemma group_field_value
    (agency_div : AgencyDiv) (i : nat) (F : list string) (g : M record unit) (k : string) :
  agency_groups agency_div !! i = Some (F, g) ->
  k ∈ F ->
  Dict.get (parse_agency_data agency_div) k =
    if failed_before (agency_groups agency_div) i then Some ""
    else Dict.get (g init_data).1 k.
Proof.
  intros Hi Hk. rewrite parse_agency_data_groups.
  rewrite (groups_sequence _ (groups_local agency_div) (agency_fields_NoDup agency_div)
             init_data (fun _ _ _ _ _ => eq_refl) i F g k Hi Hk).
  destruct (failed_before _ _); [|done].
  apply init_data_default, (agency_fields_keys agency_div).
  apply elem_of_concat. exists F. split; [done|].
  apply list_elem_of_lookup_2 in Hi. by apply (list_elem_of_fmap_2 fst) in Hi.
Qed.

Lemma parse_agency_data_keys (agency_div : AgencyDiv) :
  Dict.keys (parse_agency_data agency_div) = agency_record_keys.
Proof.
  rewrite parse_agency_data_groups.
  by apply (local_keys _ _ (groups_local_all agency_div)).
Qed.

Lemma append_loop {A B} (f : A -> B) (l : list A) (acc : list B) :
  fold_left (fun acc x => acc ++ [f x]) l acc = acc ++ map f l.
Proof.
  revert acc. induction l as [|x l IH]; intros acc; cbn.
  - by rewrite app_nil_r.
  - by rewrite IH, <- app_assoc.
Qed.

(** X8. [scrape_agencies] yields one record per agency row, in the order
    of the rows, also for the rows whose extraction fails on the way; and
    every record has the same 39 keys in the same order, so that the rows
    of the table line up under one header. *)
Theorem scrape_agencies_one_record_per_row
    (soup : AgencyPage) (agencies_container : AgenciesContainer) :
  find_agencies soup = Some agencies_container ->
  length (scrape_agencies soup) = length (find_agency_rows agencies_container) /\
  (forall i agency_div, find_agency_rows agencies_container !! i = Some agency_div ->
     scrape_agencies soup !! i = Some (parse_agency_data agency_div)) /\
  Forall (fun data => Dict.keys data = agency_record_keys) (scrape_agencies soup).
Proof.
  intros E. unfold scrape_agencies. rewrite E. cbn zeta. rewrite append_loop. cbn [app].
  split; [by rewrite length_map|]. split.
  - intros i agency_div Hi. change (map ?f ?l) with (f <$> l).
    by rewrite list_lookup_fmap, Hi.
  - apply Forall_forall. intros data Hin. apply list_elem_of_In, in_map_iff in Hin.
    destruct Hin as (agency_div & <- & _). apply parse_agency_data_keys.
Qed.

Lemma scrape_agencies_one_record_per_row_witness :
  length (scrape_agencies sample_page) = 2 /\
  Forall (fun data => Dict.keys data = agency_record_keys) (scrape_agencies sample_page).
Proof.
  destruct (scrape_agencies_one_record_per_row sample_page _ eq_refl) as (Hl & _ & Hk).
  split; [exact Hl | exact Hk].
Defined.

Lemma in_listing_value (agency_div : AgencyDiv) (group : Listing -> M record unit)
    (k : string) (P : option string -> Prop) :
  P (Dict.get init_data k) ->
  (forall listing_div, find_listing agency_div = Ok (Some listing_div) ->
     P (Dict.get (group listing_div init_data).1 k)) ->
  P (Dict.get (in_listing agency_div group init_data).1 k).
Proof.
  intros H0 H. unfold in_listing. rewrite bind_call.
  destruct (find_listing agency_div) as [[listing_div|]|]; [by apply H | done | done].
Qed.

(** X9. The field [agency_wheelchair_access] takes three values only: it
    is empty unless the wheelchair block was found and its text read, and
    then it is "Yes" when the text contains "yes" in any letter case, and
    "No" for every other text. *)
Theorem wheelchair_is_yes_no_or_empty (agency_div : AgencyDiv) :
  Dict.get (parse_agency_data agency_div) "agency_wheelchair_access" = Some "" \/
  exists listing_div wheelchair_div wheelchair_text,
    find_listing agency_div = Ok (Some listing_div) /\
    find_wheel_access listing_div = Ok (Some wheelchair_div) /\
    get_text wheelchair_div = Ok wheelchair_text /\
    Dict.get (parse_agency_data agency_div) "agency_wheelchair_access" =
      Some (if Py.contains "yes" (Py.lower wheelchair_text) then "Yes" else "No").
Proof.
  rewrite (group_field_value agency_div 5 _ _ "agency_wheelchair_access" eq_refl)
    by set_solver.
  destruct (failed_before _ _); [by left|].
  apply (in_listing_value agency_div extract_wheelchair "agency_wheelchair_access"
           (fun v => v = Some "" \/
              exists listing_div wheelchair_div wheelchair_text,
                find_listing agency_div = Ok (Some listing_div) /\
                find_wheel_access listing_div = Ok (Some wheelchair_div) /\
                get_text wheelchair_div = Ok wheelchair_text /\
                v = Some (if Py.contains "yes" (Py.lower wheelchair_text)
                          then "Yes" else "No"))); [by left|].
  intros listing_div El. unfold extract_wheelchair. rewrite bind_call.
  destruct (find_wheel_access listing_div) as [[wheelchair_div|]|] eqn:Ew;
    [|by left..].
  cbn [when_found]. rewrite bind_call.
  destruct (get_text wheelchair_div) as [wheelchair_text|] eqn:Et; [|by left].
  right. exists listing_div, wheelchair_div, wheelchair_text.
  split; [done|]. split; [done|]. split; [done|].
  apply DictFacts.get_set_eq.
Qed.




(** The loop of [store_hours] copies the times of each day into the two
    fields of the day. *)
Lemma store_hours_get (prefix : string) (hours : schedule) (data : record)
    (day : string) (times : Dict.t string) :
  prefix = "agency_hours" \/ prefix = "intake_hours" ->
  well_formed hours ->
  Dict.get hours day = Some times ->
  Dict.get (store_hours prefix hours data).1 (prefix +:+ "_" +:+ day +:+ "_open")
    = Dict.get times "open" /\
  Dict.get (store_hours prefix hours data).1 (prefix +:+ "_" +:+ day +:+ "_close")
    = Dict.get times "close".
Proof.
  intros Hp [Hk Hv] Hget.
  destruct hours as [|[k0 t0] [|[k1 t1] [|[k2 t2] [|[k3 t3] [|[k4 t4] [|[k5 t5]
    [|[k6 t6] [|? ?]]]]]]]]; try discriminate Hk.
  injection Hk as -> -> -> -> -> -> ->.
  unfold Dict.values in Hv. cbn [fmap list_fmap snd] in Hv.
  repeat (apply Forall_cons in Hv as [? Hv]). clear Hv.
  repeat match goal with
  | H : Dict.keys ?t = ["open"; "close"] |- _ =>
      destruct t as [|[? ?] [|[? ?] [|? ?]]]; try discriminate H;
      injection H as -> ->
  end.
  cbn in Hget.
  repeat match type of Hget with
  | (if String.eqb day ?d then _ else _) = _ =>
      destruct (String.eqb_spec day d) as [->|?];
      [injection Hget as <-;
       destruct Hp as [-> | ->]; cbn; cbv [String.append];
       (split; repeat (rewrite DictFacts.get_set_ne by discriminate));
       apply DictFacts.get_set_eq |]
  end.
  done.
Qed.

Lemma schedule_day (hours : schedule) (day : string) (times : Dict.t string) :
  well_formed hours -> Dict.get hours day = Some times -> day ∈ weekdays.
Proof.
  intros [Hk _] Hget. rewrite <- Hk. apply DictFacts.get_keys. by eexists.
Qed.

(** X11. When the listing has an hours table and no group before fails,
    the record holds, for every weekday, the open and close times that
    [parse_hours_table] reads off the table, under
    [agency_hours_<day>_open] and [agency_hours_<day>_close]. *)
Theorem agency_hours_reach_the_record
    (agency_div : AgencyDiv) (listing_div : Listing) (hours_div : HoursDiv) (table : Table)
    (day : string) (times : Dict.t string) :
  find_listing agency_div = Ok (Some listing_div) ->
  find_hours listing_div = Ok (Some hours_div) ->
  find_hours_table hours_div = Ok (Some table) ->
  failed_before (agency_groups agency_div) 6 = false ->
  Dict.get (parse_hours_table table) day = Some times ->
  Dict.get (parse_agency_data agency_div) ("agency_hours_" +:+ day +:+ "_open")
    = Dict.get times "open" /\
  Dict.get (parse_agency_data agency_div) ("agency_hours_" +:+ day +:+ "_close")
    = Dict.get times "close".
Proof.
  intros El Eh Et Hf Hday.
  pose proof (parse_hours_table_well_formed table) as Hwf.
  destruct (hour_fields_weekday "agency_hours" day (schedule_day _ _ _ Hwf Hday)) as [Ho Hc].
  change ("agency_hours_" +:+ ?x) with ("agency_hours" +:+ "_" +:+ x).
  rewrite (group_field_value agency_div 6 _ _ _ eq_refl Ho).
  rewrite (group_field_value agency_div 6 _ _ _ eq_refl Hc).
  rewrite Hf, (in_listing_found _ _ _ _ El).
  unfold extract_agency_hours. rewrite Eh, bind_call. cbn [when_found].
  rewrite Et, bind_call. cbn [when_found]. cbv zeta.
  apply (store_hours_get "agency_hours"); [by left | done | done].
Qed.

Lemma agency_hours_reach_the_record_witness :
  Dict.get (parse_agency_data sample_hours_agency) "agency_hours_monday_open" = Some "08:00" /\
  Dict.get (parse_agency_data sample_hours_agency) "agency_hours_monday_close" = Some "17:00".
Proof.
  apply (agency_hours_reach_the_record sample_hours_agency _ _ closed_sunday_table
           "monday" (open_close "08:00" "17:00") eq_refl eq_refl eq_refl);
    vm_compute; reflexivity.
Defined.

(** X12. When the intake block has a table, its text can be read and no
    group before fails, the record holds for every weekday the times
    that [parse_hours_table] reads off that table, under
    [intake_hours_<day>_open] and [intake_hours_<day>_close], whether or
    not an appointment count was found in the text. *)
Theorem intake_hours_reach_the_record
    (agency_div : AgencyDiv) (intake_div : Intake) (intake_text : string) (table : Table)
    (day : string) (times : Dict.t string) :
  find_intake_info agency_div = Ok (Some intake_div) ->
  intake_get_text intake_div = Ok intake_text ->
  find_intake_table intake_div = Ok (Some table) ->
  failed_before (agency_groups agency_div) 8 = false ->
  Dict.get (parse_hours_table table) day = Some times ->
  Dict.get (parse_agency_data agency_div) ("intake_hours_" +:+ day +:+ "_open")
    = Dict.get times "open" /\
  Dict.get (parse_agency_data agency_div) ("intake_hours_" +:+ day +:+ "_close")
    = Dict.get times "close".
Proof.
  intros Ei Ex Et Hf Hday.
  pose proof (parse_hours_table_well_formed table) as Hwf.
  destruct (hour_fields_weekday "intake_hours" day (schedule_day _ _ _ Hwf Hday)) as [Ho Hc].
  change ("intake_hours_" +:+ ?x) with ("intake_hours" +:+ "_" +:+ x).
  rewrite (group_field_value agency_div 8 _ _ _ eq_refl (list_elem_of_further _ _ _ Ho)).
  rewrite (group_field_value agency_div 8 _ _ _ eq_refl (list_elem_of_further _ _ _ Hc)).
  rewrite Hf. unfold extract_intake. rewrite Ei, bind_call. cbn [when_found].
  rewrite Ex, bind_call.
  assert (Hrun : forall (m : M record unit) d1,
    m init_data = (d1, Ok tt) ->
    (m ;; table <- call (find_intake_table intake_div) ;;
          when_found table
            (fun table => let intake_hours := parse_hours_table table in
                          store_hours "intake_hours" intake_hours)) init_data
    = store_hours "intake_hours" (parse_hours_table table) d1).
  { intros m d1 Em. unfold bind at 1. rewrite Em. by rewrite Et, bind_call. }
  destruct (Re.search re_appointments intake_text) as [appt_match|].
  - erewrite Hrun by reflexivity.
    apply (store_hours_get "intake_hours"); [by right | done | done].
  - erewrite Hrun by reflexivity.
    apply (store_hours_get "intake_hours"); [by right | done | done].
Qed.

Lemma intake_hours_reach_the_record_witness :
  Dict.get (parse_agency_data sample_hours_agency) "intake_hours_sunday_open" = Some "Closed" /\
  Dict.get (parse_agency_data sample_hours_agency) "intake_hours_sunday_close" = Some "Closed".
Proof.
  apply (intake_hours_reach_the_record sample_hours_agency _ _ closed_sunday_table
           "sunday" (open_close "Closed" "Closed") eq_refl eq_refl eq_refl);
    vm_compute; reflexivity.
Defined.

(** ** The matcher: what a match consists of *)






Lemma search_from_place (r : Re.regex) (i : nat) (s : string) (m : Re.found) :
  Re.search_from r i s = Some m ->
  exists n, m.1.1 = i + n /\
            Re.match_at r false (i + n) (Py.drop n s) = Some (m.1.2, m.2).
Proof.
  revert i. induction s as [|a s IH]; intros i; cbn [Re.search_from].
  - destruct (Re.match_at r false i "") as [[j c]|] eqn:E; [|done].
    intros [= <-]. exists 0. by rewrite Nat.add_0_r.
  - destruct (Re.match_at r false i (String a s)) as [[j c]|] eqn:E.
    + intros [= <-]. exists 0. by rewrite Nat.add_0_r.
    + intros (n & E1 & E2)%IH. exists (S n). rewrite Nat.add_succ_r. by cbn [Py.drop].
Qed.


(** ** AgencyRecordExtractor: the phone number *)











(** ** AgencyRecordExtractor: the address *)










(** ** AgencyRecordExtractor: the populations *)











(** ** ServiceTaxonomyExtractor: the entries *)

(** Where an entry of the result comes from. *)
Lemma service_origin (soup : Soup) (service : Service) :
  service ∈ extract_service_types soup ->
  exists item collapse checkbox,
    find_collapse item = Some collapse /\ checkbox ∈ find_checkboxes collapse /\
    service ∈ checkbox_service collapse (item_category item)
                (foldl record_tooltip ∅ (find_tooltips collapse)) checkbox.
Proof.
  rewrite extract_service_types_scan. intros Hs.
  apply (elem_of_sublist _ (scan_service_types soup)) in Hs;
    [|apply unique_services_sublist].
  unfold scan_service_types in Hs.
  destruct (find_filter_container soup) as [fc|]; [|by apply elem_of_nil in Hs].
  destruct (find_accordion fc) as [accordion|]; [|by apply elem_of_nil in Hs].
  apply elem_of_concat in Hs as (l & Hs & Hl).
  apply list_elem_of_In, in_map_iff in Hl as (item & <- & _).
  unfold item_services in Hs. fold (item_category item) in Hs.
  destruct (find_collapse item) as [collapse|] eqn:Ec; [|by apply elem_of_nil in Hs].
  cbv zeta in Hs. apply elem_of_concat in Hs as (l & Hs & Hl).
  apply list_elem_of_In, in_map_iff in Hl as (checkbox & <- & Hc%list_elem_of_In).
  by exists item, collapse, checkbox.
Qed.

Lemma checkbox_service_category collapse section descriptions checkbox service :
  service ∈ checkbox_service collapse section descriptions checkbox ->
  category service = section.
Proof.
  unfold checkbox_service. cbv zeta.
  destruct (find_label_for collapse _) as [text|]; [|by intros ?%elem_of_nil].
  destruct (Py.truthy text); [|by intros ?%elem_of_nil].
  destruct (match Re.search re_service text with Some _ => _ | None => _ end) as [n c].
  by intros ->%list_elem_of_singleton.
Qed.

Lemma last_char_rstrip (p : ascii -> bool) (s : string) (c : ascii) :
  last_char (Py.rstrip_by p s) = Some c -> p c = false.
Proof.
  induction s as [|a s IH]; [done|]. cbn [Py.rstrip_by].
  destruct (Py.rstrip_by p s) as [|b t] eqn:E.
  - destruct (p a) eqn:Ea; [done|]. by intros [= <-].
  - intros H. apply IH. exact H.
Qed.

(** X17. No category of the result ends with a colon: the text of the
    section button is taken without the colons at its end, and a section
    without header or button is filed under "Unknown". *)
Theorem category_has_no_trailing_colon (soup : Soup) (service : Service) :
  service ∈ extract_service_types soup ->
  last_char (category service) <> Some ":"%char.
Proof.
  intros (item & collapse & checkbox & _ & _ & Hs)%service_origin.
  apply checkbox_service_category in Hs as ->.
  unfold item_category.
  destruct (find_header item) as [header|]; [|done].
  destruct (find_button header) as [text|]; [|done].
  intros H%last_char_rstrip. by vm_compute in H.
Qed.

Lemma category_has_no_trailing_colon_witness :
  exists service,
    service ∈ extract_service_types sample_soup /\
    category service = "Level of Care" /\
    last_char (category service) <> Some ":"%char.
Proof.
  exists {| category := "Level of Care"; service_code := "WM"; service_name := "Detox";
            description := "Withdrawal management" |}.
  assert (Hin : {| category := "Level of Care"; service_code := "WM";
                   service_name := "Detox"; description := "Withdrawal management" |}
                ∈ extract_service_types sample_soup).
  { vm_compute. apply list_elem_of_here. }
  split; [exact Hin|]. split; [reflexivity|].
  exact (category_has_no_trailing_colon sample_soup _ Hin).
Defined.

Lemma record_tooltip_other (table : gmap string string) (tooltip : Tooltip) (text : string) :
  tooltip_label tooltip <> Some text ->
  record_tooltip table tooltip !! text = table !! text.
Proof.
  unfold tooltip_label, record_tooltip. cbv zeta.
  destruct (tip_parent tooltip) as [container|]; [|done].
  destruct (find_label container) as [label|]; [|done].
  intros Hne. apply lookup_insert_ne. congruence.
Qed.

Lemma record_tooltip_same (table : gmap string string) (tooltip : Tooltip) (text : string) :
  tooltip_label tooltip = Some text ->
  record_tooltip table tooltip !! text = Some (tooltip_description tooltip).
Proof.
  unfold tooltip_label, record_tooltip. cbv zeta.
  destruct (tip_parent tooltip) as [container|]; [|done].
  intros ->. apply lookup_insert_eq.
Qed.

Lemma tooltips_other (tooltips : list Tooltip) (table : gmap string string) (text : string) :
  (forall tooltip, tooltip ∈ tooltips -> tooltip_label tooltip <> Some text) ->
  foldl record_tooltip table tooltips !! text = table !! text.
Proof.
  revert table. induction tooltips as [|t tooltips IH]; intros table H; [done|].
  cbn [foldl]. rewrite IH by (intros t' Ht'; by apply H, list_elem_of_further).
  apply record_tooltip_other, H, list_elem_of_here.
Qed.

Lemma checkbox_service_description collapse category descriptions checkbox text service :
  find_label_for collapse (default "" (checkbox_id checkbox)) = Some text ->
  service ∈ checkbox_service collapse category descriptions checkbox ->
  description service = default "" (descriptions !! text).
Proof.
  unfold checkbox_service. cbv zeta. intros ->.
  destruct (Py.truthy text); [|by intros ?%elem_of_nil].
  destruct (match Re.search re_service text with Some _ => _ | None => _ end) as [n c].
  by intros ->%list_elem_of_singleton.
Qed.

(** X18. The description of an entry is that of the last tooltip of its
    section whose label has the text of the entry's label, whether or not
    that tooltip has a text of its own; an entry whose label has no
    tooltip gets the empty description. *)
Theorem last_tooltip_gives_the_description
    (collapse : Collapse) (category : string) (checkbox : Checkbox)
    (full_service_text : string) (service : Service) :
  find_label_for collapse (default "" (checkbox_id checkbox)) = Some full_service_text ->
  service ∈ checkbox_service collapse category
              (foldl record_tooltip ∅ (find_tooltips collapse)) checkbox ->
  (forall before tooltip after,
     find_tooltips collapse = before ++ tooltip :: after ->
     tooltip_label tooltip = Some full_service_text ->
     (forall later, later ∈ after -> tooltip_label later <> Some full_service_text) ->
     description service = tooltip_description tooltip) /\
  ((forall tooltip, tooltip ∈ find_tooltips collapse ->
      tooltip_label tooltip <> Some full_service_text) ->
   description service = "").
Proof.
  intros El Hs. rewrite (checkbox_service_description _ _ _ _ _ _ El Hs). split.
  - intros before tooltip after -> Hl Hafter.
    rewrite foldl_app. cbn [foldl].
    by rewrite (tooltips_other after _ _ Hafter), (record_tooltip_same _ _ _ Hl).
  - intros Hno. by rewrite (tooltips_other _ _ _ Hno).
Qed.

Lemma last_tooltip_gives_the_description_witness :
  exists service,
    service ∈ checkbox_service two_tooltips_collapse "Level of Care"
                (foldl record_tooltip ∅ (find_tooltips two_tooltips_collapse))
                {| checkbox_id := Some "a" |} /\
    description service = "second".
Proof.
  exists {| category := "Level of Care"; service_code := "WM"; service_name := "Detox";
            description := "second" |}.
  assert (Hin : {| category := "Level of Care"; service_code := "WM";
                   service_name := "Detox"; description := "second" |}
                ∈ checkbox_service two_tooltips_collapse "Level of Care"
                    (foldl record_tooltip ∅ (find_tooltips two_tooltips_collapse))
                    {| checkbox_id := Some "a" |}).
  { vm_compute. apply list_elem_of_here. }
  split; [exact Hin|].
  refine (proj1 (last_tooltip_gives_the_description two_tooltips_collapse "Level of Care"
                   {| checkbox_id := Some "a" |} "Detox (WM)" _ eq_refl Hin)
            [_] _ [] eq_refl eq_refl _).
  intros later Hl. by apply elem_of_nil in Hl.
Defined.

(** ** ServiceTaxonomyExtractor: name and code of a label *)

Lemma space_then_paren_cons (a b : ascii) (s : string) :
  space_then_paren (String a (String b s)) =
  (Py.is_space a && Py.char_eqb "(" b) || space_then_paren (String b s).
Proof. reflexivity. Qed.

Lemma space_then_paren_tail (a : ascii) (s : string) :
  space_then_paren (String a s) = false -> space_then_paren s = false.
Proof.
  destruct s as [|b s]; [done|]. rewrite space_then_paren_cons.
  by intros [_ H]%orb_false_elim.
Qed.

Lemma space_then_paren_drop (n : nat) (s : string) :
  space_then_paren s = false -> space_then_paren (Py.drop n s) = false.
Proof.
  revert s. induction n as [|n IH]; intros s H; [by destruct s|].
  destruct s as [|a s]; [done|]. cbn [Py.drop]. by apply IH, (space_then_paren_tail a).
Qed.

(** A run of white space that ends before a "(" shows in the text. *)
Lemma run_before_paren (t : string) (n : nat) (rest : string) :
  1 <= n -> all_chars Py.is_space (Py.take n t) = true ->
  Py.drop n t = String "(" rest ->
  space_then_paren t = true.
Proof.
  revert t. induction n as [|n IH]; intros t Hn Hall Hd; [lia|].
  destruct t as [|a t]; [done|]. cbn [Py.take all_chars Py.drop] in Hall, Hd.
  apply andb_prop in Hall as [Ha Hall].
  destruct t as [|b t]; [by destruct n|]. rewrite space_then_paren_cons.
  destruct n as [|n].
  - cbn in Hd. injection Hd as -> _. by rewrite Ha.
  - rewrite (IH (String b t)); [apply orb_true_r | lia | done | done].
Qed.

(** What a match of the tail [\s+\(...] of the label pattern needs. *)
Lemma service_tail_run (rs : list Re.regex) j t c k x :
  Re.rmatch (Re.cat (Re.plus Py.is_space :: Re.chr "(" :: rs)) j t c k = Some x ->
  exists n rest, 1 <= n /\ all_chars Py.is_space (Py.take n t) = true /\
                 Py.drop n t = String "(" rest.
Proof.
  rewrite ReFacts.rmatch_cat_cons. cbn [Re.plus Re.rmatch].
  intros (n & Hn & Hall & H)%rep_greedy_inv.
  rewrite ReFacts.rmatch_cat_cons in H. cbn [Re.chr Re.rmatch] in H.
  destruct (Py.drop n t) as [|a rest] eqn:Ed; [done|].
  destruct (Py.char_eqb "(" a) eqn:Ea; [|done]. apply Ascii.eqb_eq in Ea as <-.
  exists n, rest. split; [lia | done].
Qed.

Lemma service_tail_inv (rs : list Re.regex) j t c k x :
  Re.rmatch (Re.cat (Re.plus Py.is_space :: Re.chr "(" :: rs)) j t c k = Some x ->
  space_then_paren t = true.
Proof.
  intros (n & rest & Hn & Hall & Hd)%service_tail_run.
  by apply (run_before_paren t n rest).
Qed.

Lemma service_match_inv (i : nat) (s : string) x :
  Re.match_at re_service false i s = Some x -> space_then_paren s = true.
Proof.
  unfold Re.match_at, re_service. rewrite ReFacts.rmatch_cat_cons. cbn [Re.rmatch].
  destruct (i =? 0); [|done].
  rewrite ReFacts.rmatch_cat_cons. cbn [Re.plus_lazy Re.rmatch].
  intros (n & _ & _ & H)%rep_lazy_inv.
  apply service_tail_inv in H.
  destruct (space_then_paren s) eqn:E; [done|].
  by rewrite (space_then_paren_drop n s E) in H.
Qed.

Lemma service_search_none (i : nat) (s : string) :
  space_then_paren s = false -> Re.search_from re_service i s = None.
Proof.
  revert i. induction s as [|a s IH]; intros i H.
  - cbn [Re.search_from].
    destruct (Re.match_at re_service false i "") as [[j c]|] eqn:E; [|done].
    apply service_match_inv in E. congruence.
  - cbn [Re.search_from].
    destruct (Re.match_at re_service false i (String a s)) as [[j c]|] eqn:E.
    + apply service_match_inv in E. congruence.
    + apply IH. by apply (space_then_paren_tail a).
Qed.

(** X19. A label is split into name and code only where white space
    stands before a "(": a label without such a place, as "Residential"
    or "Detox(WM)", gives an entry whose name is the whole label and
    whose code is empty. *)
Theorem label_without_code_is_the_name
    (collapse : Collapse) (category : string) (descriptions : gmap string string)
    (checkbox : Checkbox) (full_service_text : string) :
  find_label_for collapse (default "" (checkbox_id checkbox)) = Some full_service_text ->
  Py.truthy full_service_text = true ->
  space_then_paren full_service_text = false ->
  checkbox_service collapse category descriptions checkbox =
    [ {| category := category; service_code := ""; service_name := full_service_text;
         description := default "" (descriptions !! full_service_text) |} ].
Proof.
  intros El Ht Hs. unfold checkbox_service. cbv zeta. rewrite El, Ht.
  unfold Re.search. by rewrite (service_search_none 0 _ Hs).
Qed.

Lemma label_without_code_is_the_name_witness :
  space_then_paren "Detox(WM)" = false /\
  checkbox_service
    {| find_tooltips := []; find_checkboxes := [];
       find_label_for := fun _ => Some "Detox(WM)" |}
    "Level of Care" ∅ {| checkbox_id := Some "c" |} =
    [ {| category := "Level of Care"; service_code := ""; service_name := "Detox(WM)";
         description := default "" ((∅ : gmap string string) !! "Detox(WM)") |} ].
Proof.
  split; [reflexivity|].
  apply (label_without_code_is_the_name _ "Level of Care" ∅
           {| checkbox_id := Some "c" |} "Detox(WM)"); reflexivity.
Defined.

Lemma drop_app_le (n : nat) (u t : string) :
  n <= String.length u -> Py.drop n (u +:+ t) = Py.drop n u +:+ t.
Proof.
  revert u. induction n as [|n IH]; intros u Hn; [by destruct u|].
  destruct u as [|a u]; [cbn in Hn; lia|]. rewrite PyFacts.app_cons. cbn [Py.drop].
  apply IH. cbn in Hn. lia.
Qed.

Lemma drop_nonempty (n : nat) (u : string) :
  n < String.length u -> Py.truthy (Py.drop n u) = true.
Proof.
  revert u. induction n as [|n IH]; intros u Hn.
  - destruct u; [cbn in Hn; lia | done].
  - destruct u as [|a u]; [cbn in Hn; lia|]. cbn [Py.drop]. apply IH. cbn in Hn. lia.
Qed.

Lemma last_char_drop (n : nat) (u : string) :
  n < String.length u -> last_char (Py.drop n u) = last_char u.
Proof.
  revert u. induction n as [|n IH]; intros u Hn; [by destruct u|].
  destruct u as [|a u]; [cbn in Hn; lia|]. cbn [Py.drop String.length] in *.
  rewrite IH by lia. destruct u; [cbn in Hn; lia | done].
Qed.

Lemma ends_with_cons (p : ascii -> bool) (a b : ascii) (u : string) :
  ends_with p (String a (String b u)) = ends_with p (String b u).
Proof. reflexivity. Qed.

(** From inside a name that does not end in white space and has no
    white space before a "(", no run of white space reaches a "(". *)
Lemma no_run_from_name (u t : string) (n : nat) (rest : string) :
  Py.truthy u = true -> ends_with Py.is_space u = false -> space_then_paren u = false ->
  1 <= n -> all_chars Py.is_space (Py.take n (u +:+ t)) = true ->
  Py.drop n (u +:+ t) = String "(" rest -> False.
Proof.
  revert n. induction u as [|a u IH]; [done|]. intros n _ He Hs Hn Hall Hd.
  destruct n as [|n]; [lia|]. rewrite PyFacts.app_cons in Hall, Hd.
  cbn [Py.take all_chars Py.drop] in Hall, Hd. apply andb_prop in Hall as [Ha Hall].
  destruct u as [|b u].
  - unfold ends_with in He. cbn in He. congruence.
  - rewrite space_then_paren_cons in Hs. apply orb_false_elim in Hs as [Hab Hs].
    rewrite ends_with_cons in He. destruct n as [|n].
    + rewrite PyFacts.app_cons in Hd. cbn in Hd. injection Hd as -> _.
      rewrite Ha in Hab. by vm_compute in Hab.
    + apply (IH (S n)); [done | done | done | lia | done | done].
Qed.

Lemma search_from_here (r : Re.regex) (i j : nat) (s : string) (c : Re.caps) :
  Re.match_at r false i s = Some (j, c) -> Re.search_from r i s = Some (i, j, c).
Proof. intros H. destruct s; cbn [Re.search_from]; by rewrite H. Qed.

Lemma service_label_match (name sp code : string) :
  Py.truthy name = true -> all_chars Re.dot name = true ->
  ends_with Py.is_space name = false -> space_then_paren name = false ->
  Py.truthy sp = true -> all_chars Py.is_space sp = true ->
  Py.truthy code = true -> all_chars (Re.none_of ")") code = true ->
  exists j,
    Re.match_at re_service false 0 (name +:+ sp +:+ String "(" (code +:+ ")"))
    = Some (j, [(2, code); (1, name)]).
Proof.
  intros Hn Hdot Hend Hsp Hs Hws Hc Hcode. eexists.
  unfold Re.match_at, re_service. rewrite ReFacts.rmatch_cat_cons. cbn [Re.rmatch Nat.eqb].
  rewrite ReFacts.rmatch_cat_cons. cbn [Re.plus_lazy Re.rmatch].
  apply rep_lazy_first; [done | by destruct name; cbn; [|lia] | |].
  - intros n Hlen.
    match goal with |- ?e = None => destruct e as [x|] eqn:E; [exfalso|done] end.
    apply service_tail_run in E as (n' & rest & Hn' & Hall & Hd).
    rewrite drop_app_le in Hall, Hd by lia.
    apply (no_run_from_name (Py.drop n name) (sp +:+ String "(" (code +:+ ")")) n' rest).
    + apply drop_nonempty. lia.
    + unfold ends_with in *. by rewrite last_char_drop by lia.
    + by apply space_then_paren_drop.
    + done.
    + done.
    + done.
  - rewrite ReFacts.rmatch_cat_cons. cbn [Re.plus Re.rmatch].
    apply rep_greedy_max; [done | reflexivity | by destruct sp; cbn; [|lia] |].
    rewrite ReFacts.rmatch_cat_cons. cbn [Re.chr Re.rmatch].
    change (Py.char_eqb "(" "(") with true. cbv iota.
    rewrite ReFacts.rmatch_cat_cons. cbn [Re.plus Re.rmatch].
    apply rep_greedy_max; [done | reflexivity | by destruct code; cbn; [|lia] |].
    cbn [Re.cat Re.chr Re.rmatch]. change (Py.char_eqb ")" ")") with true. cbv iota.
    cbn [andb].
    replace (S (0 + String.length name + String.length sp) + String.length code -
             S (0 + String.length name + String.length sp)) with (String.length code) by lia.
    replace (0 + String.length name - 0) with (String.length name) by lia.
    by rewrite !take_app.
Qed.

(** X20. A label made of a name, white space and a code in parentheses
    is split into the two, each without the white space around it, when
    the name has no line break, does not end in white space and has no
    white space before a "(" of its own, and the code has no ")". *)
Theorem label_splits_into_name_and_code
    (collapse : Collapse) (category : string) (descriptions : gmap string string)
    (checkbox : Checkbox) (name sp code : string) :
  find_label_for collapse (default "" (checkbox_id checkbox))
    = Some (name +:+ sp +:+ "(" +:+ code +:+ ")") ->
  Py.truthy name = true -> all_chars Re.dot name = true ->
  ends_with Py.is_space name = false -> space_then_paren name = false ->
  Py.truthy sp = true -> all_chars Py.is_space sp = true ->
  Py.truthy code = true -> all_chars (Re.none_of ")") code = true ->
  checkbox_service collapse category descriptions checkbox =
    [ {| category := category; service_code := Py.strip code;
         service_name := Py.strip name;
         description :=
           default "" (descriptions !! (name +:+ sp +:+ "(" +:+ code +:+ ")")) |} ].
Proof.
  intros El Hn Hdot Hend Hsp Hs Hws Hc Hcode. unfold checkbox_service. cbv zeta.
  rewrite El. change ("(" +:+ code +:+ ")") with (String "(" (code +:+ ")")).
  destruct (service_label_match name sp code) as [j Hm]; [done..|].
  unfold Re.search. rewrite (search_from_here _ _ _ _ _ Hm).
  by destruct name.
Qed.

Lemma label_splits_into_name_and_code_witness :
  checkbox_service
    {| find_tooltips := []; find_checkboxes := [];
       find_label_for := fun _ => Some ("Opioid Treatment" +:+ "  " +:+ "(" +:+ " OTP " +:+ ")") |}
    "Level of Care" ∅ {| checkbox_id := None |} =
    [ {| category := "Level of Care"; service_code := Py.strip " OTP ";
         service_name := Py.strip "Opioid Treatment";
         description :=
           default "" ((∅ : gmap string string) !!
                       ("Opioid Treatment" +:+ "  " +:+ "(" +:+ " OTP " +:+ ")")) |} ].
Proof.
  apply (label_splits_into_name_and_code _ "Level of Care" ∅ {| checkbox_id := None |}
           "Opioid Treatment" "  " " OTP "); reflexivity.
Defined.

(** ** ServiceTaxonomyExtractor: the name is never empty *)

(** A match adds groups in front of those it was given, and only groups
    of the pattern. *)
Lemma rmatch_groups (r : Re.regex) i s c k x :
  Re.rmatch r i s c k = Some x ->
  exists j t c1, k j t (c1 ++ c) = Some x /\ Forall (fun p => p.1 ∈ group_numbers r) c1.
Proof.
  revert i s c k x.
  induction r as [|p|r1 IH1 r2 IH2|r1 IH1 r2 IH2|r IH|g p lo hi|n r IH| | |r IH];
    intros i s c k x H; cbn [Re.rmatch] in H; cbn [group_numbers].
  - by exists i, s, [].
  - destruct s as [|a s]; [done|]. destruct (p a); [|done]. by exists (S i), s, [].
  - apply IH1 in H as (j1 & t1 & c1 & H & F1).
    apply IH2 in H as (j2 & t2 & c2 & H & F2).
    exists j2, t2, (c2 ++ c1). rewrite <- app_assoc. split; [done|].
    apply Forall_app. split; (eapply Forall_impl; [eassumption|]); intros; set_solver.
  - destruct (Re.rmatch r1 i s c k) as [y|] eqn:E.
    + injection H as ->. apply IH1 in E as (j & t & c1 & Hk & F).
      exists j, t, c1. split; [done|]. eapply Forall_impl; [eassumption|]. intros; set_solver.
    + apply IH2 in H as (j & t & c1 & Hk & F).
      exists j, t, c1. split; [done|]. eapply Forall_impl; [eassumption|]. intros; set_solver.
  - destruct (Re.rmatch r i s c k) as [y|] eqn:E.
    + injection H as ->. by apply IH in E.
    + by exists i, s, [].
  - destruct g.
    + apply rep_greedy_inv in H as (n & _ & _ & H). by exists (i + n), (Py.drop n s), [].
    + apply rep_lazy_inv in H as (n & _ & _ & H). by exists (i + n), (Py.drop n s), [].
  - apply IH in H as (j & t & c1 & H & F).
    exists j, t, ((n, Py.take (j - i) s) :: c1). split; [done|].
    apply Forall_cons. split; [set_solver|].
    eapply Forall_impl; [eassumption|]. intros; set_solver.
  - destruct (i =? 0); [|done]. by exists i, s, [].
  - destruct s as [|a [|b s]]; [by exists i, "", [] | | done].
    destruct (Py.char_eqb a "010"); [|done]. by exists i, (String a ""), [].
  - destruct (Re.rmatch r i s c _) as [[j c']|] eqn:E; [|done].
    apply IH in E as (j' & t' & c1 & Hk & F). injection Hk as _ <-. by exists i, s, c1.
Qed.

Lemma group_skip (c1 c : Re.caps) (n : nat) :
  Forall (fun p => p.1 <> n) c1 -> Re.group (c1 ++ c) n = Re.group c n.
Proof.
  induction c1 as [|[m v] c1 IH]; [done|]. intros [Hm H]%Forall_cons. cbn [fst] in Hm.
  cbn [app Re.group]. destruct (Nat.eqb_spec n m); [congruence | by apply IH].
Qed.

Lemma strip_keeps_head (a : ascii) (s : string) :
  Py.is_space a = false -> Py.truthy (Py.strip (String a s)) = true.
Proof.
  intros Ha. unfold Py.strip. cbn [Py.lstrip_by]. rewrite Ha.
  cbn [Py.rstrip_by]. destruct (Py.rstrip_by Py.is_space s); [by rewrite Ha | done].
Qed.

(** The name captured by the label pattern is a beginning of the label,
    of one character at least. *)
Lemma service_name_group (text : string) (m : Re.found) :
  Re.search re_service text = Some m ->
  exists n, 1 <= n /\ Re.group_or_empty m.2 1 = Py.take n text.
Proof.
  intros (n0 & E1 & E2)%search_from_place. cbn [Nat.add] in E2.
  unfold Re.match_at, re_service in E2.
  rewrite ReFacts.rmatch_cat_cons in E2. cbn [Re.rmatch] in E2.
  destruct n0 as [|n0]; [|done]. cbn [Nat.eqb Py.drop] in E2.
  rewrite ReFacts.rmatch_cat_cons in E2. cbn [Re.plus_lazy Re.rmatch] in E2.
  apply rep_lazy_inv in E2 as (n & Hn & _ & H).
  apply rmatch_groups in H as (j & t & c1 & H & F).
  cbn [andb] in H. injection H as _ <-.
  exists n. split; [lia|]. unfold Re.group_or_empty. rewrite group_skip.
  - cbn [Re.group Nat.eqb]. by rewrite Nat.sub_0_r.
  - eapply Forall_impl; [exact F|]. intros [g v] Hg. cbn [fst] in *.
    vm_compute in Hg. intros ->.
    repeat (apply elem_of_cons in Hg as [Hg|Hg]; [discriminate|]).
    by apply elem_of_nil in Hg.
Qed.

(** X21. No entry is without a name: when the text of a label does not
    begin with white space, as is the case of a stripped text, every entry
    made from it has a non-empty [service_name], whether or not a code
    was split off. *)
Theorem service_name_is_not_empty
    (collapse : Collapse) (category : string) (descriptions : gmap string string)
    (checkbox : Checkbox) (full_service_text : string) (service : Service) :
  find_label_for collapse (default "" (checkbox_id checkbox)) = Some full_service_text ->
  stops Py.is_space full_service_text = true ->
  service ∈ checkbox_service collapse category descriptions checkbox ->
  Py.truthy (service_name service) = true.
Proof.
  intros El Hs. unfold checkbox_service. cbv zeta. rewrite El.
  destruct full_service_text as [|a text]; [by intros ?%elem_of_nil|].
  cbn [Py.truthy stops] in *. apply negb_true_iff in Hs.
  destruct (Re.search re_service (String a text)) as [service_match|] eqn:E.
  - apply service_name_group in E as (n & Hn & ->).
    intros ->%list_elem_of_singleton. cbn [service_name].
    destruct n as [|n]; [lia|]. cbn [Py.take]. by apply strip_keeps_head.
  - by intros ->%list_elem_of_singleton.
Qed.

Lemma service_name_is_not_empty_witness :
  exists service,
    service ∈ checkbox_service sample_collapse "Level of Care" ∅ {| checkbox_id := Some "b" |} /\
    Py.truthy (service_name service) = true.
Proof.
  exists {| category := "Level of Care"; service_code := "3.7"; service_name := "Detox";
            description := "" |}.
  assert (Hin : {| category := "Level of Care"; service_code := "3.7";
                   service_name := "Detox"; description := "" |}
                ∈ checkbox_service sample_collapse "Level of Care" ∅
                    {| checkbox_id := Some "b" |}).
  { vm_compute. apply list_elem_of_here. }
  split; [exact Hin|].
  exact (service_name_is_not_empty sample_collapse "Level of Care" ∅
           {| checkbox_id := Some "b" |} "Detox (3.7)" _ eq_refl eq_refl Hin).
Defined.
